(** * Letta server: command processor, message entry points, recall cursor
      and tool runner of [letta/server/server.py] ([SyncServer]).

    The development follows the Python source function by function.  Python
    exceptions are values of [exn], a call either raises or returns
    ([result]), and the methods of [SyncServer] that touch the server run in
    the monad [M]: they read and write a [Server] value and append to a log of
    [event]s (lock operations and calls to collaborators). *)

From Stdlib Require Import Ascii String.
From stdpp Require Import base strings list gmap.

(** ** Python strings

    A character of a Python string is a code point; the strings here are
    those of code points below 256 (Latin-1), one [ascii] per code point,
    and the character classes are Python's on that range. *)

Module Py.

(** [c.isspace()]: TAB to CR, FS to US, SPACE, NEL (U+0085) and NBSP
    (U+00A0); the characters that [strip()] and [split()] take out. *)
Definition isspace (c : ascii) : bool :=
  let n := nat_of_ascii c in
  (Nat.leb 9 n && Nat.leb n 13) || (Nat.leb 28 n && Nat.leb n 32)
  || Nat.eqb n 133 || Nat.eqb n 160.

(** [c.lower()]: A to Z, and the capital letters U+00C0 to U+00DE of
    Latin-1 (the multiplication sign U+00D7 apart), move up by 32. *)
Definition lower_ascii (c : ascii) : ascii :=
  let n := nat_of_ascii c in
  if (Nat.leb 65 n && Nat.leb n 90)
     || (Nat.leb 192 n && Nat.leb n 222 && negb (Nat.eqb n 215))
  then ascii_of_nat (n + 32) else c.

Fixpoint lower (s : string) : string :=
  match s with
  | EmptyString => EmptyString
  | String c s' => String (lower_ascii c) (lower s')
  end.

Fixpoint lstrip (s : string) : string :=
  match s with
  | EmptyString => EmptyString
  | String c s' => if isspace c then lstrip s' else s
  end.

(** [s.rstrip()]: a character is dropped when it is whitespace and nothing
    survives to its right. *)
Fixpoint rstrip (s : string) : string :=
  match s with
  | EmptyString => EmptyString
  | String c s' =>
      match rstrip s' with
      | EmptyString => if isspace c then EmptyString else String c EmptyString
      | r => String c r
      end
  end.

Definition strip (s : string) : string := rstrip (lstrip s).

(** [s.split()]: the maximal runs of characters that are not whitespace.  A
    character that is not whitespace starts a word when whitespace (or the
    end) follows it, and otherwise joins the word that starts next. *)
Fixpoint split (s : string) : list string :=
  match s with
  | EmptyString => []
  | String c s' =>
      if isspace c then split s'
      else
        match s' with
        | EmptyString => [String c EmptyString]
        | String d _ =>
            if isspace d then String c EmptyString :: split s'
            else match split s' with
                 | w :: ws => String c w :: ws
                 | [] => [String c EmptyString]
                 end
        end
  end.

(** [s.startswith(p)]. *)
Definition startswith (s p : string) : bool := String.prefix p s.

(** [s[n:]]. *)
Fixpoint slice_from (n : nat) (s : string) : string :=
  match n, s with
  | 0, _ => s
  | S n', String _ s' => slice_from n' s'
  | S _, EmptyString => EmptyString
  end.

(** [s[:n]] for [n >= 0]. *)
Fixpoint slice_to (n : nat) (s : string) : string :=
  match n, s with
  | S n', String c s' => String c (slice_to n' s')
  | _, _ => EmptyString
  end.

(** [c.isdecimal()]: the decimal digits 0 to 9. *)
Definition is_digit_ascii (c : ascii) : bool :=
  let n := nat_of_ascii c in Nat.leb 48 n && Nat.leb n 57.

Fixpoint all_digits (s : string) : bool :=
  match s with
  | EmptyString => true
  | String c s' => is_digit_ascii c && all_digits s'
  end.

(** [s.isdecimal()]: non-empty and only decimal digits. *)
Definition isdecimal (s : string) : bool :=
  match s with EmptyString => false | _ => all_digits s end.

(** [c.isdigit()]: the decimal digits and the superscript digits U+00B2,
    U+00B3 and U+00B9, which are digits without being decimal. *)
Definition is_digit_char (c : ascii) : bool :=
  let n := nat_of_ascii c in
  is_digit_ascii c || Nat.eqb n 178 || Nat.eqb n 179 || Nat.eqb n 185.

Fixpoint all_digit_chars (s : string) : bool :=
  match s with
  | EmptyString => true
  | String c s' => is_digit_char c && all_digit_chars s'
  end.

(** [s.isdigit()]: non-empty and only digits. *)
Definition isdigit (s : string) : bool :=
  match s with EmptyString => false | _ => all_digit_chars s end.

Fixpoint int_go (acc : nat) (s : string) : nat :=
  match s with
  | EmptyString => acc
  | String c s' => int_go (10 * acc + (nat_of_ascii c - 48)) s'
  end.

(** The number that a string of decimal digits writes. *)
Definition int (s : string) : nat := int_go 0 s.

(** [l[-k:]] for [k >= 0]: the last [k] elements, and the whole list when
    [k] is 0 (the index -0 is the index 0). *)
Definition slice_last {A} (k : nat) (l : list A) : list A :=
  if Nat.eqb k 0 then l else drop (length l - k) l.

(** [list.pop()] seen on the remaining list. *)
Definition pop {A} (l : list A) : list A := removelast l.

(** [l[-1]]. *)
Definition last {A} (l : list A) : option A := l !! (length l - 1).

End Py.

(** ** Exceptions and results *)

Inductive exn : Type :=
| ValueError (msg : string)
| TypeError (msg : string)
| KeyError (msg : string)
| IndexError (msg : string)
| AttributeError (msg : string)
| AssertionError (msg : string)
| LettaAgentNotFoundError (msg : string)
| NoResultFound
| JSONDecodeError
| OtherException (msg : string).

(** [str(e)] as used by f-strings. *)
Definition exn_str (e : exn) : string :=
  match e with
  | ValueError m | TypeError m | KeyError m | IndexError m
  | AttributeError m | AssertionError m | LettaAgentNotFoundError m
  | OtherException m => m
  | NoResultFound => "NoResultFound"
  | JSONDecodeError => "JSONDecodeError"
  end.

Definition is_ValueError (e : exn) : bool :=
  match e with ValueError _ => true | _ => false end.

Inductive result (A : Type) : Type :=
| Raise (e : exn)
| Return (a : A).
Arguments Raise {A} e.
Arguments Return {A} a.

Definition returned {A} (r : result A) : option A :=
  match r with Return a => Some a | Raise _ => None end.

(** [int(s)] called on a string that passed [s.isdigit()]: the number
    written when every digit is decimal, and [ValueError] at a superscript
    digit.  Integers are unbounded, as in the language; the cap that the
    interpreter can put on the length of the digit string
    ([sys.set_int_max_str_digits]) is taken as lifted. *)
Definition int_of_digits (s : string) : result nat :=
  if Py.isdecimal s then Return (Py.int s)
  else Raise (ValueError
                ("invalid literal for int() with base 10: '" +:+ s +:+ "'")).

(** ** Data model *)

Record User := { user_id_of : string }.

Inductive AgentType :=
| memgpt_agent
| o1_agent
| offline_memory_agent
| chat_only_agent
| other_agent_type (name : string).

(** The [function_call] entry of an in-context message. *)
Record FunctionCall := {
  fc_name : string;
  arguments : string
}.

(** An element of [letta_agent.messages]: a dict with the keys the command
    processor reads and writes. *)
Record MessageDict := {
  role : string;
  content : option string;
  function_call : option FunctionCall
}.

(** [m.update({"content": text})]. *)
Definition update_content (m : MessageDict) (text : string) : MessageDict :=
  {| role := role m; content := Some text; function_call := function_call m |}.

(** [m.get("function_call").update({"arguments": a})]. *)
Definition update_arguments (m : MessageDict) (fc : FunctionCall) (a : string)
  : MessageDict :=
  {| role := role m; content := content m;
     function_call := Some {| fc_name := fc_name fc; arguments := a |} |}.

(** A [Message] object of the recall store. *)
Record Message := {
  msg_id : string;
  msg_agent_id : string;
  msg_role : string;
  text : option string;
  created_at : Z
}.

Record AgentState := {
  agent_id_of : string;
  created_by_id : option string;
  agent_type : AgentType;
  in_context : list MessageDict
}.

(** The in-memory agent object built by [load_agent]. *)
Record Agent := {
  agent_state : AgentState;
  agent_user : User;
  messages : list MessageDict
}.

Definition set_messages (a : Agent) (ms : list MessageDict) : Agent :=
  {| agent_state := agent_state a; agent_user := agent_user a; messages := ms |}.

Record LettaUsageStatistics := {
  step_count : nat;
  total_tokens : nat
}.

(** [LettaUsageStatistics()]. *)
Definition default_usage : LettaUsageStatistics :=
  {| step_count := 0; total_tokens := 0 |}.

(** [Tool(name=..., source_code=...)]. *)
Record Tool := {
  tool_name_of : option string;
  source_code : string
}.

(** What [ToolExecutionSandbox.run] returns, with [func_return] already
    rendered by [str]. *)
Record SandboxRunResult := {
  func_return : string;
  stdout : list string;
  stderr : list string
}.

Record FunctionReturn := {
  fr_id : string;
  fr_function_call_id : string;
  fr_date : Z;
  fr_status : string;
  fr_function_return : string;
  fr_stdout : list string;
  fr_stderr : list string
}.

(** ** The server, its event log and the monad of its methods *)

Record Server := {
  users : gmap string User;
  default_user : User;
  agents : gmap string AgentState;
  lock_registry : gset string;
  recall_store : list Message;
  chaining : bool;
  max_chaining_steps : option nat
}.

Definition set_agents (s : Server) (a : gmap string AgentState) : Server :=
  {| users := users s; default_user := default_user s; agents := a;
     lock_registry := lock_registry s; recall_store := recall_store s;
     chaining := chaining s; max_chaining_steps := max_chaining_steps s |}.

Definition set_lock_registry (s : Server) (l : gset string) : Server :=
  {| users := users s; default_user := default_user s; agents := agents s;
     lock_registry := l; recall_store := recall_store s;
     chaining := chaining s; max_chaining_steps := max_chaining_steps s |}.

Inductive event : Type :=
| EvLockAcquire (agent_id : string)
| EvLockRelease (agent_id : string)
| EvGetAgent (agent_id : string)
| EvRebuildSystemPrompt (agent_id : string)
| EvSaveAgent (agent_id : string)
| EvAgentStep (agent_id : string)
| EvStepYield (agent_id : string)
| EvAttachSource (agent_id : string) (source_id : nat)
| EvPrintMessages (printed : list MessageDict)
| EvPrintMessagesRaw (printed : list MessageDict).

Global Instance FunctionCall_eq_dec : EqDecision FunctionCall.
Proof. solve_decision. Defined.

Global Instance MessageDict_eq_dec : EqDecision MessageDict.
Proof. solve_decision. Defined.

Global Instance event_eq_dec : EqDecision event.
Proof. solve_decision. Defined.

Record outcome (A : Type) := mk_outcome {
  out_result : result A;
  out_server : Server;
  out_log : list event
}.
Arguments mk_outcome {A} _ _ _.
Arguments out_result {A} _.
Arguments out_server {A} _.
Arguments out_log {A} _.

Definition M (A : Type) : Type := Server → outcome A.

Definition ret {A} (a : A) : M A := λ s, mk_outcome (Return a) s [].

Definition raise {A} (e : exn) : M A := λ s, mk_outcome (Raise e) s [].

Definition bind {A B} (m : M A) (k : A → M B) : M B := λ s,
  let o := m s in
  match out_result o with
  | Raise e => mk_outcome (Raise e) (out_server o) (out_log o)
  | Return a =>
      let o' := k a (out_server o) in
      mk_outcome (out_result o') (out_server o') (out_log o ++ out_log o')
  end.

Global Instance M_ret : MRet M := @ret.
Global Instance M_bind : MBind M := λ A B k m, bind m k.

Definition emit (e : event) : M unit := λ s, mk_outcome (Return tt) s [e].

Definition get_server : M Server := λ s, mk_outcome (Return s) s [].

Definition put_server (s' : Server) : M unit := λ _, mk_outcome (Return tt) s' [].

Definition lift {A} (r : result A) : M A := λ s, mk_outcome r s [].

(** [try: body finally: fin] -- [fin] runs whether or not [body] raised. *)
Definition try_finally {A} (body : M A) (fin : result A → M unit) : M A := λ s,
  let o := body s in
  let f := fin (out_result o) (out_server o) in
  mk_outcome
    (match out_result f with Raise e => Raise e | Return _ => out_result o end)
    (out_server f) (out_log o ++ out_log f).

(** [try: body except E: handler]. *)
Definition try_except {A} (body : M A) (handles : exn → bool)
    (handler : exn → M A) : M A := λ s,
  let o := body s in
  match out_result o with
  | Raise e =>
      if handles e then
        let o' := handler e (out_server o) in
        mk_outcome (out_result o') (out_server o') (out_log o ++ out_log o')
      else o
  | Return _ => o
  end.

(** An outcome behind a log already written. *)
Definition prepend {A} (l : list event) (o : outcome A) : outcome A :=
  mk_outcome (out_result o) (out_server o) (l ++ out_log o).

(** ** Collaborators

    Code of the repository that [server.py] calls and that lives in other
    modules: the agent classes ([letta.agent]), the [letta.system] message
    packagers, the JSON helpers of [letta.utils] and the constant of
    [letta.constants].  They are taken as an interface. *)

(** A dynamically typed Python value passed as an argument. *)
#[warnings="-register-all"]
Inductive pyarg : Type :=
| PNone
| PUser (u : User)
| PStr (s : string)
| PMessage (m : Message)
| PList (l : list pyarg).

Class Collaborators := {
  (** [Agent.rebuild_system_prompt] *)
  rebuild_system_prompt : Agent → Agent;
  (** [Agent.step(messages, chaining, max_chaining_steps, ...)] *)
  agent_step :
    Agent → list Message → bool → option nat →
    result (Agent * LettaUsageStatistics);
  (** [system.package_user_message(user_message, time)] *)
  package_user_message : string → option string → string;
  (** [system.package_system_message(system_message)] *)
  package_system_message : string → string;
  (** [system.get_heartbeat()] and [system.get_token_limit_warning()] *)
  get_heartbeat : pyarg;
  get_token_limit_warning : pyarg;
  (** [datetime.isoformat] *)
  isoformat : Z → string;
  (** identifier and creation time given to a fresh [Message] *)
  fresh_message_id : string;
  utc_now : Z;
  (** [str(agent_state.memory)] and [str(passage_manager)], as joined by the
      [memory] command *)
  memory_summary : Agent → string;
  (** [json_loads], [args["message"] = text], [json_dumps] *)
  json : Type;
  json_loads : string → result json;
  json_set_message : json → string → result json;
  json_dumps : json → string;
  (** [Message.to_letta_message(tool_name, tool_kwarg)] *)
  LettaMessage : Type;
  to_letta_message : string → string → Message → list LettaMessage;
  (** [json.loads] of the standard library: [None] is [JSONDecodeError] *)
  std_json_loads : string → option json;
  (** the constructor of the pydantic class [letta.schemas.tool.Tool] *)
  Tool_new : option string → string → result Tool;
  (** [ToolExecutionSandbox(name, args, user_id, tool_object).run(...)] *)
  sandbox_run : string → json → string → Tool → result SandboxRunResult;
  (** [traceback.format_exc()] in a handler of the exception given *)
  format_exc : exn → string;
  (** [letta.constants.MAX_ERROR_MESSAGE_CHAR_LIMIT] *)
  MAX_ERROR_MESSAGE_CHAR_LIMIT : nat
}.

(** ** Managers and persistence *)

(** Modelled from the spec: [PerAgentLockManager.get_lock] (section 4.2), "one
    mutex per agent identifier, created on demand": the first call for an id
    allocates its lock, later calls return the same one. *)
Definition get_lock (agent_id : string) : M unit :=
  s ← get_server;
  put_server (set_lock_registry s ({[agent_id]} ∪ lock_registry s)).

(** [with agent_lock: body]: the lock is released when [body] returns and
    when it raises. *)
Definition with_lock {A} (agent_id : string) (body : M A) : M A :=
  emit (EvLockAcquire agent_id);;
  try_finally body (λ _, emit (EvLockRelease agent_id)).

(** Modelled from the spec: [UserManager.get_user_by_id], a read of the user
    table that raises [NoResultFound] for an unknown id (section 7,
    NotFoundError). *)
Definition get_user_by_id (user_id : string) : M User :=
  s ← get_server;
  match users s !! user_id with
  | Some u => mret u
  | None => raise NoResultFound
  end.

(** Modelled from the spec: [UserManager.get_user_or_default]. *)
Definition get_user_or_default (user_id : string) : M User :=
  s ← get_server;
  mret (default (default_user s) (users s !! user_id)).

(** Modelled from the spec: [AgentManager.get_agent_by_id], a read of the
    persisted agent states that raises [NoResultFound] for an unknown id. *)
Definition get_agent_by_id (agent_id : string) : M (option AgentState) :=
  s ← get_server;
  emit (EvGetAgent agent_id);;
  match agents s !! agent_id with
  | Some st => mret (Some st)
  | None => raise NoResultFound
  end.

(** Modelled from the spec: [save_agent] of [letta.agent], the persistence
    boundary: it writes the agent's state, with its in-context buffer, to the
    store. *)
Definition save_agent (a : Agent) : M unit :=
  s ← get_server;
  emit (EvSaveAgent (agent_id_of (agent_state a)));;
  put_server
    (set_agents s
       (<[agent_id_of (agent_state a) :=
            {| agent_id_of := agent_id_of (agent_state a);
               created_by_id := created_by_id (agent_state a);
               agent_type := agent_type (agent_state a);
               in_context := messages a |}]> (agents s))).

(** [Agent(agent_state=..., interface=..., user=actor)] and its subclasses. *)
Definition Agent_init (st : AgentState) (actor : User) : Agent :=
  {| agent_state := st; agent_user := actor; messages := in_context st |}.

(** ** [SyncServer.load_agent] *)

Section Methods.
Context `{Collaborators}.

Definition load_agent (agent_id : string) (actor : User) : M Agent :=
  get_lock agent_id;;
  with_lock agent_id
    (agent_state ← get_agent_by_id agent_id;
     match agent_state with
     | None =>
         raise (LettaAgentNotFoundError
                  ("Agent (agent_id=" +:+ agent_id +:+ ") does not exist"))
     | Some st =>
         match created_by_id st with
         | None =>
             raise (ValueError
                      ("Agent (agent_id=" +:+ agent_id +:+
                       ") does not have a user_id"))
         | Some uid =>
             actor ← get_user_by_id uid;
             agent ← match agent_type st with
                     | memgpt_agent | o1_agent | offline_memory_agent
                     | chat_only_agent => mret (Agent_init st actor)
                     | other_agent_type name =>
                         raise (ValueError ("Invalid agent type " +:+ name))
                     end;
             emit (EvRebuildSystemPrompt agent_id);;
             let agent := rebuild_system_prompt agent in
             save_agent agent;;
             mret agent
         end
     end).

(** ** [SyncServer._step] *)

Definition is_Message (x : pyarg) : bool :=
  match x with PMessage _ => true | _ => false end.

Definition as_Message (x : pyarg) : option Message :=
  match x with PMessage m => Some m | _ => None end.

(** The input validation at the head of [_step]: a single [Message] is
    wrapped in a list, then every element must be a [Message]. *)
Definition validate_input_messages (input_messages : pyarg)
  : result (list Message) :=
  match input_messages with
  | PMessage m => Return [m]
  | PList l =>
      if forallb is_Message l then Return (omap as_Message l)
      else Raise (ValueError
             "messages should be a Message or a list of Message, got <class 'list'>")
  | PStr EmptyString => Return []
  | PStr _ =>
      Raise (ValueError
        "messages should be a Message or a list of Message, got <class 'str'>")
  | PNone => Raise (TypeError "'NoneType' object is not iterable")
  | PUser _ => Raise (TypeError "'User' object is not iterable")
  end.

(** The body of [_step].  [letta_agent] stays [None] when [load_agent]
    raises, so the [finally] clause calls [step_yield] only after a
    successful load. *)
Definition _step (actor : User) (agent_id : string) (input_messages : pyarg)
  : M LettaUsageStatistics :=
  input_messages ← lift (validate_input_messages input_messages);
  letta_agent ← load_agent agent_id actor;
  try_finally
    (s ← get_server;
     emit (EvAgentStep agent_id);;
     r ← lift (agent_step letta_agent input_messages
                 (chaining s) (max_chaining_steps s));
     save_agent r.1;;
     mret r.2)
    (λ _, emit (EvStepYield agent_id)).

(** Binding of the keyword arguments of a call [self._step(k1=v1, ...)]
    against the signature
    [_step(self, actor, agent_id, input_messages, interface=None)]. *)
Definition _step_parameters : list string :=
  ["actor"; "agent_id"; "input_messages"; "interface"].

Definition _step_required : list string :=
  ["actor"; "agent_id"; "input_messages"].

Definition kw_lookup (k : string) (kwargs : list (string * pyarg))
  : option pyarg :=
  (λ x, x.2.2) <$> list_find (λ kv, kv.1 = k) kwargs.

Definition call__step (kwargs : list (string * pyarg))
  : M LettaUsageStatistics :=
  match list_find (λ kv, kv.1 ∉ _step_parameters) kwargs with
  | Some (_, (k, _)) =>
      raise (TypeError
               ("_step() got an unexpected keyword argument '" +:+ k +:+ "'"))
  | None =>
      match list_find (λ k, kw_lookup k kwargs = None) _step_required with
      | Some (_, k) =>
          raise (TypeError
                   ("_step() missing 1 required positional argument: '"
                    +:+ k +:+ "'"))
      | None =>
          match kw_lookup "actor" kwargs, kw_lookup "agent_id" kwargs,
                kw_lookup "input_messages" kwargs with
          | Some (PUser actor), Some (PStr agent_id), Some input_messages =>
              _step actor agent_id input_messages
          | _, _, _ =>
              raise (OtherException "ill-typed call of _step")
          end
      end
  end.

(** ** [SyncServer._command] *)

Inductive command_return : Type :=
| UsageReturn (usage : LettaUsageStatistics)
| StrReturn (s : string).

(** [int(command[1]) if len(command) > 1 and command[1].isdigit() else
    dflt]: [command[1]] read as an integer when it is a digit string, which
    raises when one of its digits is not decimal, and [dflt] otherwise. *)
Definition amount_argument (words : list string) (dflt : nat) : result nat :=
  match words !! 1 with
  | Some w => if Py.isdigit w then int_of_digits w else Return dflt
  | None => Return dflt
  end.

(** [for _ in range(k): messages.pop()]. *)
Fixpoint pop_n (k : nat) (messages : list MessageDict) : list MessageDict :=
  match k with
  | 0 => messages
  | S k' => pop_n k' (Py.pop messages)
  end.

Definition MIN_MESSAGES : nat := 2.

(** The [pop] branch. *)
Definition pop_command (pop_amount : nat) (messages : list MessageDict)
  : list MessageDict :=
  let n_messages := length messages in
  if Nat.leb n_messages MIN_MESSAGES then messages
  else if (Z.of_nat n_messages - Z.of_nat pop_amount <? Z.of_nat MIN_MESSAGES)%Z
       then messages
       else pop_n (Nat.min pop_amount (length messages)) messages.

(** The [while] loop of the [retry] branch; [None] when the fuel runs out. *)
Fixpoint retry_loop (fuel : nat) (messages : list MessageDict)
  : option (list MessageDict) :=
  match fuel with
  | 0 => None
  | S fuel' =>
      if Nat.ltb 0 (length messages) then
        match Py.last messages with
        | Some m =>
            if String.eqb (role m) "user" then Some (Py.pop messages)
            else retry_loop fuel' (Py.pop messages)
        | None => Some messages
        end
      else Some messages
  end.

(** The [retry] branch: each iteration pops one message, so the loop ends
    within [length messages] iterations. *)
Definition retry_command (messages : list MessageDict) : list MessageDict :=
  default messages (retry_loop (S (length messages)) messages).

(** [for x in range(len(messages) - 1, 0, -1)] of the [rethink] branch,
    entered at [x]. *)
Fixpoint rethink_scan (x : nat) (text : string) (messages : list MessageDict)
  : list MessageDict :=
  match x with
  | 0 => messages
  | S x' =>
      match messages !! x with
      | Some m =>
          if String.eqb (role m) "assistant"
          then <[x := update_content m text]> messages
          else rethink_scan x' text messages
      | None => messages
      end
  end.

Definition rethink_command (command : string) (messages : list MessageDict)
  : list MessageDict :=
  if Nat.ltb (String.length command) (String.length "rethink ") then messages
  else rethink_scan (length messages - 1)
         (Py.strip (Py.slice_from (String.length "rethink ") command)) messages.

(** The loop of the [rewrite] branch, entered at [x]. *)
Fixpoint rewrite_scan (x : nat) (text : string) (messages : list MessageDict)
  : result (list MessageDict) :=
  match x with
  | 0 => Return messages
  | S x' =>
      match messages !! x with
      | Some m =>
          if String.eqb (role m) "assistant" then
            match function_call m with
            | None =>
                Raise (AttributeError "'NoneType' object has no attribute 'get'")
            | Some fc =>
                match json_loads (arguments fc) with
                | Raise e => Raise e
                | Return args =>
                    match json_set_message args text with
                    | Raise e => Raise e
                    | Return args' =>
                        Return (<[x := update_arguments m fc (json_dumps args')]>
                                  messages)
                    end
                end
            end
          else rewrite_scan x' text messages
      | None => Return messages
      end
  end.

Definition rewrite_command (command : string) (messages : list MessageDict)
  : result (list MessageDict) :=
  if Nat.ltb (String.length command) (String.length "rewrite ")
  then Return messages
  else rewrite_scan (length messages - 1)
         (Py.strip (Py.slice_from (String.length "rewrite ") command)) messages.

(** [str(command)] once [command] has been rebound to its list of words. *)
Definition repr_words (words : list string) : string :=
  "[" +:+ String.concat ", " ((λ w, "'" +:+ w +:+ "'") <$> words) +:+ "]".

(** [command.lower() == name or command.lower().startswith(name + " ")]. *)
Definition is_command (command name : string) : bool :=
  String.eqb (Py.lower command) name
  || Py.startswith (Py.lower command) (name +:+ " ").

(** The [if]/[elif] chain of [_command], run on the agent object that
    [load_agent] returned.  The value returned is paired with the in-memory
    agent object [letta_agent] as the command left it; [finish] is the tail
    [if not usage: usage = LettaUsageStatistics(); return usage]. *)
Definition _command_branches (actor : User) (user_id agent_id command : string)
    (letta_agent : Agent) : M (Agent * command_return) :=
  let finish (a : Agent) (usage : option LettaUsageStatistics) :=
    mret (a, UsageReturn (default default_usage usage)) in
  if String.eqb (Py.lower command) "exit" then
    raise (ValueError command)
  else if String.eqb (Py.lower command) "save"
          || String.eqb (Py.lower command) "savechat" then
    save_agent letta_agent;; finish letta_agent None
  else if String.eqb (Py.lower command) "attach" then
    let words := Py.split (Py.strip command) in
    match words !! 1 with
    | Some w =>
        if Py.isdecimal w then
          _ ← get_user_by_id user_id;
          emit (EvAttachSource agent_id (Py.int w));;
          finish letta_agent None
        else raise (ValueError (repr_words words))
    | None => raise (ValueError (repr_words words))
    end
  else if is_command command "dump" then
    let words := Py.split (Py.strip command) in
    amount ← lift (amount_argument words 0);
    (if Nat.eqb amount 0
     then emit (EvPrintMessages (messages letta_agent))
     else emit (EvPrintMessages
                  (Py.slice_last
                     (Nat.min amount (length (messages letta_agent)))
                     (messages letta_agent))));;
    finish letta_agent None
  else if String.eqb (Py.lower command) "dumpraw" then
    emit (EvPrintMessagesRaw (messages letta_agent));;
    finish letta_agent None
  else if String.eqb (Py.lower command) "memory" then
    mret (letta_agent, StrReturn (memory_summary letta_agent))
  else if is_command command "pop" then
    let words := Py.split (Py.strip command) in
    pop_amount ← lift (amount_argument words 3);
    finish (set_messages letta_agent
              (pop_command pop_amount (messages letta_agent))) None
  else if String.eqb (Py.lower command) "retry" then
    finish (set_messages letta_agent
              (retry_command (messages letta_agent))) None
  else if is_command command "rethink" then
    finish (set_messages letta_agent
              (rethink_command command (messages letta_agent))) None
  else if is_command command "rewrite" then
    ms ← lift (rewrite_command command (messages letta_agent));
    finish (set_messages letta_agent ms) None
  else if String.eqb (Py.lower command) "wipe" then
    raise (ValueError command)
  else if String.eqb (Py.lower command) "heartbeat" then
    let input_message := get_heartbeat in
    usage ← call__step [("actor", PUser actor); ("agent_id", PStr agent_id);
                        ("input_message", input_message)];
    finish letta_agent (Some usage)
  else if String.eqb (Py.lower command) "memorywarning" then
    let input_message := get_token_limit_warning in
    usage ← call__step [("actor", PUser actor); ("agent_id", PStr agent_id);
                        ("input_message", input_message)];
    finish letta_agent (Some usage)
  else finish letta_agent None.

Definition _command (user_id agent_id command : string)
  : M (Agent * command_return) :=
  actor ← get_user_or_default user_id;
  letta_agent ← load_agent agent_id actor;
  _command_branches actor user_id agent_id command letta_agent.

(** ** [SyncServer.user_message] and [SyncServer.system_message] *)

(** The argument [message: Union[str, Message]]. *)
Inductive message_input : Type :=
| MsgStr (s : string)
| MsgObj (m : Message).

Definition is_NoResultFound (e : exn) : bool :=
  match e with NoResultFound => true | _ => false end.

Definition invalid_input (s : string) : exn :=
  ValueError ("Invalid input: '" +:+ s +:+ "'").

(** [Message(agent_id=..., role=..., text=..., created_at=timestamp)], the
    creation time defaulting to the current time. *)
Definition Message_new (agent_id role text : string) (timestamp : option Z)
  : Message :=
  {| msg_id := fresh_message_id; msg_agent_id := agent_id; msg_role := role;
     text := Some text; created_at := default utc_now timestamp |}.

Definition user_message (user_id agent_id : string) (message : message_input)
    (timestamp : option Z) : M LettaUsageStatistics :=
  actor ← try_except (get_user_by_id user_id) is_NoResultFound
             (λ _, raise (ValueError
                            ("User user_id=" +:+ user_id +:+ " does not exist")));
  agent ← try_except (get_agent_by_id agent_id) is_NoResultFound
             (λ _, raise (ValueError
                            ("Agent agent_id=" +:+ agent_id +:+ " does not exist")));
  message ← match message with
            | MsgStr s =>
                if Nat.eqb (String.length s) 0 then raise (invalid_input s)
                else if Py.startswith s "/" then raise (invalid_input s)
                else
                  let packaged_user_message :=
                    package_user_message s (isoformat <$> timestamp) in
                  mret (Message_new agent_id "user" packaged_user_message
                          timestamp)
            | MsgObj m => mret m
            end;
  call__step [("actor", PUser actor); ("agent_id", PStr agent_id);
              ("input_messages", PMessage message)].

Definition set_created_at (m : Message) (t : Z) : Message :=
  {| msg_id := msg_id m; msg_agent_id := msg_agent_id m;
     msg_role := msg_role m; text := text m; created_at := t |}.

Definition system_message (user_id agent_id : string) (message : message_input)
    (timestamp : option Z) : M LettaUsageStatistics :=
  actor ← try_except (get_user_by_id user_id) is_NoResultFound
             (λ _, raise (ValueError
                            ("User user_id=" +:+ user_id +:+ " does not exist")));
  agent ← try_except (get_agent_by_id agent_id) is_NoResultFound
             (λ _, raise (ValueError
                            ("Agent agent_id=" +:+ agent_id +:+ " does not exist")));
  message ← match message with
            | MsgStr s =>
                if Nat.eqb (String.length s) 0 then raise (invalid_input s)
                else if Py.startswith s "/" then raise (invalid_input s)
                else
                  let packaged_system_message := package_system_message s in
                  mret (Message_new agent_id "system" packaged_system_message
                          timestamp)
            | MsgObj m => mret m
            end;
  match text message with
  | None => raise (ValueError "Invalid input: 'None'")
  | Some t =>
      if Nat.eqb (String.length t) 0 then raise (invalid_input t)
      else if Py.startswith t "/" then raise (invalid_input t)
      else
        let message := match timestamp with
                       | Some ts => set_created_at message ts
                       | None => message
                       end in
        call__step [("actor", PUser actor); ("agent_id", PStr agent_id);
                    ("input_messages", PMessage message)]
  end.

(** ** [SyncServer.get_agent_recall_cursor] *)

(** Modelled from the spec: [MessageManager.get_message_by_id], a lookup of
    the recall store by identifier; reading [created_at] of a missing record
    raises. *)
Definition get_message_created_at (message_id : string) : M Z :=
  s ← get_server;
  match list_find (λ m, msg_id m = message_id) (recall_store s) with
  | Some (_, m) => mret (created_at m)
  | None => raise (AttributeError "'NoneType' object has no attribute 'created_at'")
  end.

Definition in_bounds (agent_id : string) (start_date end_date : option Z)
    (m : Message) : bool :=
  String.eqb (msg_agent_id m) agent_id
  && match start_date with Some t => (t <? created_at m)%Z | None => true end
  && match end_date with Some t => (created_at m <? t)%Z | None => true end.

(** Modelled from the spec: [MessageManager.list_messages_for_agent], the
    recall listing of sections 4.4 and 8 (property 7).  The store keeps the
    records in creation order; the listing keeps those of the agent created
    strictly after [start_date] and strictly before [end_date], in creation
    order when [ascending] and in the exact reverse otherwise, and returns
    the first [limit] of them. *)
Definition list_messages_for_agent (store : list Message) (agent_id : string)
    (start_date end_date : option Z) (limit : option nat) (ascending : bool)
  : list Message :=
  let selected := List.filter (in_bounds agent_id start_date end_date) store in
  let ordered := if ascending then selected else rev selected in
  match limit with
  | Some n => take n ordered
  | None => ordered
  end.

(** The value returned: [List[Message]] or [List[LettaMessage]]. *)
Inductive recall_records : Type :=
| MessageRecords (l : list Message)
| LettaMessageRecords (l : list LettaMessage).

(** Truthiness of an [Optional[str]]: [None] and the empty string are false. *)
Definition truthy (o : option string) : option string :=
  match o with
  | Some EmptyString => None
  | _ => o
  end.

Definition get_agent_recall_cursor (user_id agent_id : string)
    (after before : option string) (limit : option nat) (reverse : bool)
    (return_message_object : bool)
    (assistant_message_tool_name assistant_message_tool_kwarg : string)
  : M recall_records :=
  actor ← get_user_or_default user_id;
  letta_agent ← load_agent agent_id actor;
  start_date ← match truthy after with
               | Some a => t ← get_message_created_at a; mret (Some t)
               | None => mret None
               end;
  end_date ← match truthy before with
             | Some b => t ← get_message_created_at b; mret (Some t)
             | None => mret None
             end;
  s ← get_server;
  let records :=
    list_messages_for_agent (recall_store s) agent_id start_date end_date
      limit (negb reverse) in
  if return_message_object then
    mret (MessageRecords (if reverse then rev records else records))
  else
    let records :=
      concat (List.map (to_letta_message assistant_message_tool_name
                          assistant_message_tool_kwarg) records) in
    mret (LettaMessageRecords (if reverse then rev records else records)).

(** ** [SyncServer.get_error_msg_for_func_return] and
       [SyncServer.run_tool_from_source] *)

Definition get_error_msg_for_func_return (tool_name exception_message : string)
  : string :=
  let error_msg :=
    "Error executing tool " +:+ tool_name +:+ ": " +:+ exception_message in
  if Nat.ltb MAX_ERROR_MESSAGE_CHAR_LIMIT (String.length error_msg)
  then Py.slice_to MAX_ERROR_MESSAGE_CHAR_LIMIT error_msg
  else error_msg.

(** [[s for s in lines if s.strip()]]. *)
Definition nonblank (lines : list string) : list string :=
  List.filter (λ s, negb (String.eqb (Py.strip s) "")) lines.

Definition run_tool_from_source (user_id tool_args tool_source : string)
    (tool_source_type tool_name : option string) : result FunctionReturn :=
  match std_json_loads tool_args with
  | None => Raise (ValueError "Invalid JSON string for tool_args")
  | Some tool_args_dict =>
      if match tool_source_type with
         | Some t => negb (String.eqb t "python")
         | None => false
         end
      then Raise (ValueError "Only Python source code is supported at this time")
      else
        match Tool_new tool_name tool_source with
        | Raise e => Raise e
        | Return tool =>
            match tool_name_of tool with
            | None => Raise (AssertionError "Failed to create tool object")
            | Some name =>
                match sandbox_run name tool_args_dict user_id tool with
                | Return sandbox_run_result =>
                    let function_response := func_return sandbox_run_result in
                    let stdout := nonblank (stdout sandbox_run_result) in
                    let stderr := nonblank (stderr sandbox_run_result) in
                    match Py.last stderr with
                    | Some last_line =>
                        let error_msg :=
                          get_error_msg_for_func_return name last_line in
                        Return {| fr_id := "null"; fr_function_call_id := "null";
                                  fr_date := utc_now; fr_status := "error";
                                  fr_function_return := error_msg;
                                  fr_stdout := stdout; fr_stderr := stderr |}
                    | None =>
                        Return {| fr_id := "null"; fr_function_call_id := "null";
                                  fr_date := utc_now; fr_status := "success";
                                  fr_function_return := function_response;
                                  fr_stdout := stdout; fr_stderr := stderr |}
                    end
                | Raise e =>
                    let error_msg :=
                      get_error_msg_for_func_return name (exn_str e) in
                    Return {| fr_id := "null"; fr_function_call_id := "null";
                              fr_date := utc_now; fr_status := "error";
                              fr_function_return := error_msg;
                              fr_stdout := [""]; fr_stderr := [format_exc e] |}
                end
            end
        end
  end.

(** The checks that [run_tool_from_source] makes before it calls the
    sandbox all pass, the tool being named [name]. *)
Definition reaches_sandbox (tool_args tool_source : string)
    (tool_source_type tool_name : option string) (tool_args_dict : json)
    (tool : Tool) (name : string) : Prop :=
  std_json_loads tool_args = Some tool_args_dict
  ∧ (tool_source_type = None ∨ tool_source_type = Some "python")
  ∧ Tool_new tool_name tool_source = Return tool
  ∧ tool_name_of tool = Some name.

End Methods.

(** ** Threads of server calls under the per-agent locks

    A thread is the list of events it still has to perform; a schedule names
    the thread that moves at each instant.  [EvLockAcquire] of a lock held by
    some thread (the locks are not reentrant) cannot move, [EvLockRelease]
    is performed by the holder, every other event moves freely. *)

Record pool := {
  threads : list (list event);
  holder : gmap string nat;
  history : list (nat * event)
}.

Definition advance (t : nat) (rest : list event) (h : gmap string nat)
    (e : event) (p : pool) : pool :=
  {| threads := <[t := rest]> (threads p); holder := h;
     history := history p ++ [(t, e)] |}.

Definition sched_step (t : nat) (p : pool) : option pool :=
  match threads p !! t with
  | Some (e :: rest) =>
      match e with
      | EvLockAcquire a =>
          match holder p !! a with
          | None => Some (advance t rest (<[a := t]> (holder p)) e p)
          | Some _ => None
          end
      | EvLockRelease a =>
          if decide (holder p !! a = Some t)
          then Some (advance t rest (delete a (holder p)) e p)
          else None
      | _ => Some (advance t rest (holder p) e p)
      end
  | _ => None
  end.

Fixpoint run_schedule (sched : list nat) (p : pool) : option pool :=
  match sched with
  | [] => Some p
  | t :: sched' =>
      match sched_step t p with
      | Some p' => run_schedule sched' p'
      | None => None
      end
  end.

Definition start_pool (ts : list (list event)) : pool :=
  {| threads := ts; holder := ∅; history := [] |}.

(** Whether the lock of [agent_id] is held after the events of a log. *)
Fixpoint lock_held (agent_id : string) (held : bool) (log : list event) : bool :=
  match log with
  | [] => held
  | EvLockAcquire a :: log' =>
      lock_held agent_id (if String.eqb a agent_id then true else held) log'
  | EvLockRelease a :: log' =>
      lock_held agent_id (if String.eqb a agent_id then false else held) log'
  | _ :: log' => lock_held agent_id held log'
  end.

(** Each event of a log with the state of the lock at the time it runs. *)
Fixpoint annotate (agent_id : string) (held : bool) (log : list event)
  : list (bool * event) :=
  match log with
  | [] => []
  | e :: log' =>
      (held, e) :: annotate agent_id (lock_held agent_id held [e]) log'
  end.

(** The positions of the first and of the last event of thread [t]. *)
Definition span (t : nat) (h : list (nat * event)) : option (nat * nat) :=
  match list_find (λ x, x.1 = t) h, list_find (λ x, x.1 = t) (rev h) with
  | Some (i, _), Some (j, _) => Some (i, length h - 1 - j)
  | _, _ => None
  end.

(** Two threads interleave when each starts before the other has ended. *)
Definition spans_interleave (t u : nat) (h : list (nat * event)) : bool :=
  match span t h, span u h with
  | Some (i, j), Some (k, l) => Nat.ltb i l && Nat.ltb k j
  | _, _ => false
  end.

(** ** A sample deployment, for the examples *)

Definition sample_message (r c : string) : MessageDict :=
  {| role := r; content := Some c; function_call := None |}.

Definition sample_usage : LettaUsageStatistics :=
  {| step_count := 1; total_tokens := 7 |}.

(** A decoder that knows the empty object only. *)
Definition sample_json_loads (s : string) : option string :=
  if String.eqb (Py.strip s) "{}" then Some "{}" else None.

(** Collaborators that differ in the sandbox and in the length limit only. *)
Definition make_collaborators
    (sandbox : string → string → string → Tool → result SandboxRunResult)
    (limit : nat) : Collaborators := {|
  rebuild_system_prompt := λ a, a;
  agent_step := λ a _ _ _, Return (a, sample_usage);
  package_user_message := λ s _, s;
  package_system_message := λ s, s;
  get_heartbeat := PStr "heartbeat";
  get_token_limit_warning := PStr "memorywarning";
  isoformat := λ _, "1970-01-01T00:00:00";
  fresh_message_id := "message-0";
  utc_now := 0%Z;
  memory_summary := λ _, "memory";
  json := string;
  json_loads := λ s, Return s;
  json_set_message := λ _ t, Return t;
  json_dumps := λ j, j;
  LettaMessage := Message;
  to_letta_message := λ _ _ m, [m];
  std_json_loads := sample_json_loads;
  Tool_new := λ n src, Return {| tool_name_of := n; source_code := src |};
  sandbox_run := sandbox;
  format_exc := exn_str;
  MAX_ERROR_MESSAGE_CHAR_LIMIT := limit
|}.

Definition sample_collaborators : Collaborators :=
  make_collaborators
    (λ _ _ _ _, Return {| func_return := "ok"; stdout := []; stderr := [] |})
    500.

(** A sandbox that raises, and one whose tool writes to stderr; the limit is
    small enough for the error text to be cut. *)
Definition raising_collaborators : Collaborators :=
  make_collaborators
    (λ _ _ _ _, Raise (OtherException "division by zero")) 30.

Definition stderr_collaborators : Collaborators :=
  make_collaborators
    (λ _ _ _ _, Return {| func_return := "None"; stdout := [];
                          stderr := ["Traceback (most recent call last)";
                                     "ZeroDivisionError: division by zero";
                                     " "] |})
    30.

(** A tool that leaves nothing to read on stderr: an empty line and a
    no-break space (U+00A0). *)
Definition blank_stderr_collaborators : Collaborators :=
  make_collaborators
    (λ _ _ _ _, Return {| func_return := "None"; stdout := [];
                          stderr := [""; String (ascii_of_nat 160) EmptyString] |})
    30.

Definition sample_user : User := {| user_id_of := "user-1" |}.

Definition sample_record (i : string) (t : Z) : Message :=
  {| msg_id := i; msg_agent_id := "agent-1"; msg_role := "user";
     text := Some i; created_at := t |}.

Definition sample_server (buffer : list MessageDict) : Server :=
  {| users := {[ "user-1" := sample_user ]};
     default_user := sample_user;
     agents := {[ "agent-1" :=
                  {| agent_id_of := "agent-1"; created_by_id := Some "user-1";
                     agent_type := memgpt_agent; in_context := buffer |} ]};
     lock_registry := ∅;
     recall_store := [sample_record "m1" 1; sample_record "m2" 2;
                      sample_record "m3" 3];
     chaining := true;
     max_chaining_steps := None |}.

(** The in-context buffer a command leaves in the agent object. *)
Definition buffer_after (o : outcome (Agent * command_return))
  : option (list MessageDict) :=
  match out_result o with
  | Return (a, _) => Some (messages a)
  | Raise _ => None
  end.

Definition sample_buffer5 : list MessageDict :=
  [sample_message "system" "S"; sample_message "user" "U";
   sample_message "assistant" "A"; sample_message "tool" "T";
   sample_message "assistant" "B"].

(** The agent object that [load_agent] builds on the sample deployment. *)
Definition sample_agent (buffer : list MessageDict) : Agent :=
  {| agent_state :=
       {| agent_id_of := "agent-1"; created_by_id := Some "user-1";
          agent_type := memgpt_agent; in_context := buffer |};
     agent_user := sample_user;
     messages := buffer |}.

(** ** Vocabulary of the statements *)

(** The actor that [_command] and [get_agent_recall_cursor] pass to
    [load_agent]. *)
Definition actor_of (s : Server) (user_id : string) : User :=
  default (default_user s) (users s !! user_id).

(** What [pop] leaves of a buffer when asked for [n] messages. *)
Definition popped (n : nat) (buffer : list MessageDict) : list MessageDict :=
  if Nat.leb (length buffer) 2 || Nat.ltb (length buffer) (n + 2)
  then buffer
  else take (length buffer - n) buffer.

(** The log of [load_agent] when it raises, and when it returns the agent
    [a]. *)
Definition load_log_raise (agent_id : string) : list event :=
  [EvLockAcquire agent_id; EvGetAgent agent_id; EvLockRelease agent_id].

Definition load_log_return (agent_id : string) (a : Agent) : list event :=
  [EvLockAcquire agent_id; EvGetAgent agent_id;
   EvRebuildSystemPrompt agent_id;
   EvSaveAgent (agent_id_of (agent_state a)); EvLockRelease agent_id].

(** A call rejected at the door: it raises [ValueError], leaves the server
    (lock registry included) as it was and has acquired no lock. *)
Definition rejected_before_lock {A} (o : outcome A) (s : Server) : Prop :=
  (∃ msg, out_result o = Raise (ValueError msg))
  ∧ out_server o = s
  ∧ ∀ agent_id, EvLockAcquire agent_id ∉ out_log o.

(** Two threads that run the same call: the first performs [k] events, the
    second its [n] events, then the first its remaining [n - k]. *)
Definition nested_schedule (k n : nat) : list nat :=
  replicate k 0 ++ replicate n 1 ++ replicate (n - k) 0.

(** The timestamp that a cursor field [after] or [before] stands for. *)
Definition resolve_bound (store : list Message) (b : option string)
  : result (option Z) :=
  match truthy b with
  | None => Return None
  | Some i =>
      match list_find (λ m, msg_id m = i) store with
      | Some (_, m) => Return (Some (created_at m))
      | None =>
          Raise (AttributeError "'NoneType' object has no attribute 'created_at'")
      end
  end.

Definition cursor_bounds (store : list Message) (after before : option string)
  : result (option Z * option Z) :=
  match resolve_bound store after with
  | Raise e => Raise e
  | Return start_date =>
      match resolve_bound store before with
      | Raise e => Raise e
      | Return end_date => Return (start_date, end_date)
      end
  end.



(** The whitespace characters of Python below 256, by code point. *)
Definition whitespace_code_points : list nat :=
  [9; 10; 11; 12; 13; 28; 29; 30; 31; 32; 133; 160].

(** A line of output with nothing to read on it: every character is
    whitespace (the empty line included). *)
Fixpoint blank_line (line : string) : bool :=
  match line with
  | EmptyString => true
  | String c rest =>
      existsb (Nat.eqb (nat_of_ascii c)) whitespace_code_points
      && blank_line rest
  end.

(** ** Further methods of [SyncServer] *)

(** The agent state that [save_agent] writes for the agent object [a]. *)
Definition persisted_state (a : Agent) : AgentState :=
  {| agent_id_of := agent_id_of (agent_state a);
     created_by_id := created_by_id (agent_state a);
     agent_type := agent_type (agent_state a);
     in_context := messages a |}.

(** [sub in s]. *)
Fixpoint str_contains (sub s : string) : bool :=
  String.prefix sub s
  || match s with
     | EmptyString => false
     | String _ s' => str_contains sub s'
     end.

(** A [MessageCreate] request object. *)
Record MessageCreate := {
  mc_role : string;
  mc_text : string;
  mc_name : option string
}.

(** An element of the [messages] argument of [send_messages]. *)
Inductive send_item : Type :=
| SendCreate (m : MessageCreate)
| SendMessage (m : Message).

Definition is_SendCreate (x : send_item) : bool :=
  match x with SendCreate _ => true | SendMessage _ => false end.

Definition is_SendMessage (x : send_item) : bool :=
  match x with SendMessage _ => true | SendCreate _ => false end.

(** A tool object as listed in [agent_state.tools]. *)
Record AgentTool := {
  at_id : string;
  at_name : string
}.

(** The loop shared by [add_tool_to_agent] and [remove_tool_from_agent]:
    every tool of the agent is fetched again by its id, and kept unless the
    fetched object carries [tool_id]. [get_tool_by_id] is the lookup of the
    tool manager; a missing tool fails the assertion. *)
Fixpoint refetch_other_tools (get_tool_by_id : string → option AgentTool)
    (tool_id : string) (tools : list AgentTool) : result (list AgentTool) :=
  match tools with
  | [] => Return []
  | tool :: rest =>
      match get_tool_by_id (at_id tool) with
      | None =>
          Raise (AssertionError
                   ("Tool with id=" +:+ at_id tool +:+ " does not exist"))
      | Some tool_obj =>
          match refetch_other_tools get_tool_by_id tool_id rest with
          | Raise e => Raise e
          | Return tool_objs =>
              if String.eqb (at_id tool_obj) tool_id then Return tool_objs
              else Return (tool_obj :: tool_objs)
          end
      end
  end.

(** The tool list that [add_tool_to_agent] stores in the agent state. *)
Definition add_tool_to_agent_tools
    (get_tool_by_id : string → option AgentTool) (tool_id : string)
    (tools : list AgentTool) : result (list AgentTool) :=
  match get_tool_by_id tool_id with
  | None =>
      Raise (AssertionError ("Tool with id=" +:+ tool_id +:+ " does not exist"))
  | Some tool_obj =>
      match refetch_other_tools get_tool_by_id tool_id tools with
      | Raise e => Raise e
      | Return tool_objs => Return (tool_obj :: tool_objs)
      end
  end.

(** The tool list that [remove_tool_from_agent] stores in the agent state. *)
Definition remove_tool_from_agent_tools
    (get_tool_by_id : string → option AgentTool) (tool_id : string)
    (tools : list AgentTool) : result (list AgentTool) :=
  refetch_other_tools get_tool_by_id tool_id tools.

(** One of the two [for tool_id in ...] loops of [update_agent]: the call is
    made for each id in turn, each call working on the list that the one
    before it saved. *)
Fixpoint for_each_tool_id
    (call : string → list AgentTool → result (list AgentTool))
    (ids : list string) (tools : list AgentTool) : result (list AgentTool) :=
  match ids with
  | [] => Return tools
  | i :: ids' =>
      match call i tools with
      | Raise e => Raise e
      | Return tools' => for_each_tool_id call ids' tools'
      end
  end.

(** The [if request.tool_ids:] block of [update_agent]: the ids to add and
    to remove are set differences, the tools to remove go first.  A [for]
    loop over a Python set visits its elements in an order that the
    language leaves open: [iteration_order] gives the order taken for each
    set. *)
Definition update_agent_tools
    (get_tool_by_id : string → option AgentTool)
    (iteration_order : gset string → list string)
    (request_tool_ids : list string) (tools : list AgentTool)
  : result (list AgentTool) :=
  match request_tool_ids with
  | [] => Return tools
  | _ =>
      let current_tool_ids : gset string := list_to_set (at_id <$> tools) in
      let target_tool_ids : gset string := list_to_set request_tool_ids in
      let tool_ids_to_add := target_tool_ids ∖ current_tool_ids in
      let tools_ids_to_remove := current_tool_ids ∖ target_tool_ids in
      match for_each_tool_id (remove_tool_from_agent_tools get_tool_by_id)
              (iteration_order tools_ids_to_remove) tools with
      | Raise e => Raise e
      | Return tools' =>
          for_each_tool_id (add_tool_to_agent_tools get_tool_by_id)
            (iteration_order tool_ids_to_add) tools'
      end
  end.

(** An iteration over a set visits each of its elements, once, and nothing
    else. *)
Definition iterates_each_element (iteration_order : gset string → list string)
  : Prop :=
  ∀ X : gset string,
    NoDup (iteration_order X) ∧ ∀ x, x ∈ iteration_order X ↔ x ∈ X.

(** [clean_keys] of [get_server_config]: a copy of the configuration in
    which the value of every key that is "key" or contains "_key" is
    shortened. [shorten] is [server_utils.shorten_key_middle(v,
    chars_each_side=5)]. *)
Definition is_secret_key (k : string) : bool :=
  String.eqb k "key" || str_contains "_key" k.

Definition clean_keys (shorten : string → string) (config : gmap string string)
  : gmap string string :=
  map_fold (λ k v config_copy,
              if is_secret_key k then <[k := shorten v]> config_copy
              else config_copy)
    config config.

(** The loop of [list_llm_models] and [list_embedding_models]: the models of
    each enabled provider are appended, a provider that raises is skipped
    with a warning. *)
Fixpoint list_models_loop {A} (providers : list (result (list A)))
    (models : list A) : list A :=
  match providers with
  | [] => models
  | provider :: rest =>
      match provider with
      | Return l => list_models_loop rest (models ++ l)
      | Raise _ => list_models_loop rest models
      end
  end.

Definition list_models {A} (enabled_providers : list (result (list A)))
  : list A :=
  list_models_loop enabled_providers [].

Section MoreMethods.
Context `{Collaborators}.

(** [SyncServer.run_command] *)
Definition run_command (user_id agent_id command : string)
  : M (Agent * command_return) :=
  let command :=
    if Py.startswith command "/" then
      if Nat.ltb 1 (String.length command) then Py.slice_from 1 command
      else command
    else command in
  _command user_id agent_id command.

(** The loop of [send_messages] over a list of [MessageCreate]: the text is
    wrapped according to the role, any other case raises. *)
Fixpoint wrap_message_creates (agent_id : string)
    (wrap_user_message wrap_system_message : bool) (l : list MessageCreate)
  : result (list Message) :=
  match l with
  | [] => Return []
  | message :: rest =>
      let wrapped :=
        if String.eqb (mc_role message) "user" && wrap_user_message
        then Return (package_user_message (mc_text message) None)
        else if String.eqb (mc_role message) "system" && wrap_system_message
        then Return (package_system_message (mc_text message))
        else Raise (ValueError ("Invalid message role: " +:+ mc_role message)) in
      match wrapped with
      | Raise e => Raise e
      | Return text =>
          match wrap_message_creates agent_id wrap_user_message
                  wrap_system_message rest with
          | Raise e => Raise e
          | Return message_objects =>
              Return (Message_new agent_id (mc_role message) text None
                      :: message_objects)
          end
      end
  end.

Definition as_SendCreate (x : send_item) : option MessageCreate :=
  match x with SendCreate m => Some m | SendMessage _ => None end.

Definition as_SendMessage (x : send_item) : option Message :=
  match x with SendMessage m => Some m | SendCreate _ => None end.

(** The [Message] objects that [send_messages] builds from its argument. *)
Definition message_objects_of (agent_id : string)
    (wrap_user_message wrap_system_message : bool) (messages : list send_item)
  : result (list Message) :=
  if forallb is_SendCreate messages then
    wrap_message_creates agent_id wrap_user_message wrap_system_message
      (omap as_SendCreate messages)
  else if forallb is_SendMessage messages then
    Return (omap as_SendMessage messages)
  else
    Raise (ValueError "All messages must be of type Message or MessageCreate").

(** [SyncServer.send_messages] *)
Definition send_messages (actor : User) (agent_id : string)
    (messages : list send_item) (wrap_user_message wrap_system_message : bool)
  : M LettaUsageStatistics :=
  message_objects ← lift (message_objects_of agent_id wrap_user_message
                            wrap_system_message messages);
  call__step [("actor", PUser actor); ("agent_id", PStr agent_id);
              ("input_messages", PList (PMessage <$> message_objects));
              ("interface", PNone)].

(** What the loop of [rewrite] does at the message it stops on. *)
Definition rewritten_at (x : nat) (text : string) (m : MessageDict)
    (l : list MessageDict) : result (list MessageDict) :=
  match function_call m with
  | None => Raise (AttributeError "'NoneType' object has no attribute 'get'")
  | Some fc =>
      match json_loads (arguments fc) with
      | Raise e => Raise e
      | Return args =>
          match json_set_message args text with
          | Raise e => Raise e
          | Return args' =>
              Return (<[x := {| role := role m; content := content m;
                                function_call :=
                                  Some {| fc_name := fc_name fc;
                                          arguments := json_dumps args' |} |}]>
                        l)
          end
      end
  end.

End MoreMethods.

(** Events of the lock manager. *)
Definition is_lock_event (e : event) : bool :=
  match e with
  | EvLockAcquire _ | EvLockRelease _ => true
  | _ => false
  end.

(** The guards of the [if]/[elif] chain of [_command]: the command is one
    that some branch handles. *)
Definition known_command (command : string) : bool :=
  String.eqb (Py.lower command) "exit"
  || String.eqb (Py.lower command) "save"
  || String.eqb (Py.lower command) "savechat"
  || String.eqb (Py.lower command) "attach"
  || is_command command "dump"
  || String.eqb (Py.lower command) "dumpraw"
  || String.eqb (Py.lower command) "memory"
  || is_command command "pop"
  || String.eqb (Py.lower command) "retry"
  || is_command command "rethink"
  || is_command command "rewrite"
  || String.eqb (Py.lower command) "wipe"
  || String.eqb (Py.lower command) "heartbeat"
  || String.eqb (Py.lower command) "memorywarning".

(** The sample collaborators with a language-model backend that fails:
    [Agent.step] raises. *)
Definition failing_step_collaborators : Collaborators := {|
  rebuild_system_prompt := λ a, a;
  agent_step := λ _ _ _ _, Raise (OtherException "provider error");
  package_user_message := λ s _, s;
  package_system_message := λ s, s;
  get_heartbeat := PStr "heartbeat";
  get_token_limit_warning := PStr "memorywarning";
  isoformat := λ _, "1970-01-01T00:00:00";
  fresh_message_id := "message-0";
  utc_now := 0%Z;
  memory_summary := λ _, "memory";
  json := string;
  json_loads := λ s, Return s;
  json_set_message := λ _ t, Return t;
  json_dumps := λ j, j;
  LettaMessage := Message;
  to_letta_message := λ _ _ m, [m];
  std_json_loads := sample_json_loads;
  Tool_new := λ n src, Return {| tool_name_of := n; source_code := src |};
  sandbox_run := λ _ _ _ _,
    Return {| func_return := "ok"; stdout := []; stderr := [] |};
  format_exc := exn_str;
  MAX_ERROR_MESSAGE_CHAR_LIMIT := 500
|}.

(** A string without whitespace. *)
Fixpoint no_space (s : string) : bool :=
  match s with
  | EmptyString => true
  | String c s' => negb (Py.isspace c) && no_space s'
  end.

(** The roles that [send_messages] can wrap under its two flags. *)
Definition wrappable (wrap_user_message wrap_system_message : bool)
    (m : MessageCreate) : bool :=
  (String.eqb (mc_role m) "user" && wrap_user_message)
  || (String.eqb (mc_role m) "system" && wrap_system_message).

(** The tool manager returns, for an id, an object that carries this id. *)
Definition consistent_tool_table (get_tool_by_id : string → option AgentTool)
  : Prop :=
  ∀ i t, get_tool_by_id i = Some t → at_id t = i.

(** A tool manager that knows three tools. *)
Definition sample_tool (i : string) : AgentTool :=
  {| at_id := i; at_name := "tool " +:+ i |}.

Definition sample_tool_table (i : string) : option AgentTool :=
  if String.eqb i "tool-1" then Some (sample_tool "tool-1")
  else if String.eqb i "tool-2" then Some (sample_tool "tool-2")
  else if String.eqb i "tool-3" then Some (sample_tool "tool-3")
  else None.

(** Collaborators whose records each unfold into two messages, the
    reasoning before the reply. *)
Definition unfolding_collaborators : Collaborators := {|
  rebuild_system_prompt := λ a, a;
  agent_step := λ a _ _ _, Return (a, sample_usage);
  package_user_message := λ s _, s;
  package_system_message := λ s, s;
  get_heartbeat := PStr "heartbeat";
  get_token_limit_warning := PStr "memorywarning";
  isoformat := λ _, "1970-01-01T00:00:00";
  fresh_message_id := "message-0";
  utc_now := 0%Z;
  memory_summary := λ _, "memory";
  json := string;
  json_loads := λ s, Return s;
  json_set_message := λ _ t, Return t;
  json_dumps := λ j, j;
  LettaMessage := string;
  to_letta_message := λ _ _ m,
    [msg_id m +:+ " reasoning"; msg_id m +:+ " reply"];
  std_json_loads := sample_json_loads;
  Tool_new := λ n src, Return {| tool_name_of := n; source_code := src |};
  sandbox_run := λ _ _ _ _,
    Return {| func_return := "ok"; stdout := []; stderr := [] |};
  format_exc := exn_str;
  MAX_ERROR_MESSAGE_CHAR_LIMIT := 500
|}.

(** The one-character strings of the superscript two (U+00B2) and of the
    no-break space (U+00A0). *)
Definition superscript_two : string := String (ascii_of_nat 178) EmptyString.

Definition no_break_space : string := String (ascii_of_nat 160) EmptyString.

(** A buffer whose last assistant message carries a tool call. *)
Definition sample_call_buffer : list MessageDict :=
  [sample_message "system" "S"; sample_message "user" "U";
   {| role := "assistant"; content := Some "A";
      function_call := Some {| fc_name := "send_message";
                               arguments := "old" |} |};
   sample_message "tool" "T"].

(** * Properties *)

(** ** List and string facts used below *)

Lemma pop_take {A} (l : list A) : Py.pop l = take (length l - 1) l.
Proof.
  unfold Py.pop.
  induction l as [|x l IH]; [done|].
  destruct l as [|y l]; [done|].
  change (removelast (x :: y :: l)) with (x :: removelast (y :: l)).
  rewrite IH. simpl. by rewrite Nat.sub_0_r.
Qed.

Lemma pop_n_take (k : nat) (l : list MessageDict) :
  pop_n k l = take (length l - k) l.
Proof.
  revert l. induction k as [|k IH]; intros l; simpl.
  - by rewrite Nat.sub_0_r, firstn_all.
  - rewrite IH, pop_take, length_take, take_take. f_equal. lia.
Qed.

Lemma pop_app_singleton {A} (l : list A) (x : A) : Py.pop (l ++ [x]) = l.
Proof. unfold Py.pop. apply removelast_last. Qed.

Lemma last_app_singleton {A} (l : list A) (x : A) :
  Py.last (l ++ [x]) = Some x.
Proof.
  unfold Py.last. rewrite length_app. simpl.
  replace (length l + 1 - 1) with (length l) by lia.
  by apply list_lookup_middle.
Qed.

Lemma prefix_append (p s : string) :
  String.prefix p s = true → ∃ r, s = p +:+ r.
Proof.
  revert s. induction p as [|c p IH]; intros s Hp.
  - by exists s.
  - destruct s as [|d s]; [done|]. simpl in Hp.
    destruct (ascii_dec c d) as [->|]; [|done].
    destruct (IH s Hp) as [r ->]. by exists r.
Qed.

Lemma append_empty_r (s : string) : s +:+ "" = s.
Proof.
  induction s as [|c s IH]; [done|].
  change (String c (s +:+ "") = String c s). by rewrite IH.
Qed.

Lemma append_assoc (s1 s2 s3 : string) :
  (s1 +:+ s2) +:+ s3 = s1 +:+ (s2 +:+ s3).
Proof.
  induction s1 as [|c s1 IH]; [done|].
  change (String c ((s1 +:+ s2) +:+ s3) = String c (s1 +:+ (s2 +:+ s3))).
  by rewrite IH.
Qed.

Lemma is_command_lower (command name : string) :
  is_command command name = true →
  ∃ rest, Py.lower command = name +:+ rest.
Proof.
  unfold is_command, Py.startswith. intros [Heq|Hp]%orb_true_iff.
  - apply String.eqb_eq in Heq. exists "". by rewrite append_empty_r.
  - destruct (prefix_append _ _ Hp) as [r Hr]. exists (" " +:+ r).
    by rewrite Hr, append_assoc.
Qed.

(** ** Running [_command] *)

Section CommandRuns.
Context `{Collaborators}.

Lemma _command_loaded (user_id agent_id command : string) (s : Server)
    (a : Agent) :
  out_result (load_agent agent_id (actor_of s user_id) s) = Return a →
  _command user_id agent_id command s =
    let o := load_agent agent_id (actor_of s user_id) s in
    let o' := _command_branches (actor_of s user_id) user_id agent_id command a
                (out_server o) in
    mk_outcome (out_result o') (out_server o') (out_log o ++ out_log o').
Proof.
  intros Hload. unfold _command, actor_of in *.
  unfold mbind, M_bind, bind at 1 2, get_user_or_default.
  cbn -[load_agent _command_branches].
  unfold mbind, M_bind, bind at 1. cbn -[load_agent _command_branches].
  by rewrite Hload.
Qed.

Lemma _command_not_loaded (user_id agent_id command : string) (s : Server)
    (e : exn) :
  out_result (load_agent agent_id (actor_of s user_id) s) = Raise e →
  out_result (_command user_id agent_id command s) = Raise e.
Proof.
  intros Hload. unfold _command, actor_of in *.
  unfold mbind, M_bind, bind at 1 2, get_user_or_default.
  cbn -[load_agent _command_branches].
  unfold mbind, M_bind, bind at 1. cbn -[load_agent _command_branches].
  by rewrite Hload.
Qed.

(** The guards of the chain that precede and follow a command, decided from
    the head of the lowered command line. *)
Lemma eqb_lower_false (command name other rest : string) :
  Py.lower command = name +:+ rest →
  String.prefix name other = false →
  String.eqb (Py.lower command) other = false.
Proof.
  intros -> Hp. apply String.eqb_neq. intros Heq.
  assert (String.prefix name (name +:+ rest) = true) as Hn.
  { clear. induction name as [|c n IH]; [by destruct rest|].
    change (String c n +:+ rest) with (String c (n +:+ rest)). simpl.
    destruct (ascii_dec c c); [done|congruence]. }
  congruence.
Qed.

Lemma is_command_false (command name other rest : string) :
  Py.lower command = name +:+ rest →
  String.prefix name other = false →
  String.prefix other name = false →
  is_command command other = false.
Proof.
  intros Hl Hp Hq. unfold is_command, Py.startswith.
  rewrite (eqb_lower_false _ _ _ _ Hl Hp). simpl.
  rewrite Hl. clear Hl.
  destruct (String.prefix (other +:+ " ") (name +:+ rest)) eqn:Hpre; [|done].
  exfalso. revert other Hp Hq Hpre.
  induction name as [|c n IH]; intros [|d o] Hp Hq Hpre; try done.
  change (String d o +:+ " ") with (String d (o +:+ " ")) in Hpre.
  change (String c n +:+ rest) with (String c (n +:+ rest)) in Hpre.
  simpl in Hp, Hq, Hpre.
  destruct (ascii_dec d c) as [->|]; [|done].
  destruct (ascii_dec c c); [|done]. eauto.
Qed.

Lemma branches_pop (actor : User) (user_id agent_id command : string)
    (a : Agent) (s : Server) :
  is_command command "pop" = true →
  _command_branches actor user_id agent_id command a s =
    match amount_argument (Py.split (Py.strip command)) 3 with
    | Return pop_amount =>
        mk_outcome
          (Return (set_messages a (pop_command pop_amount (messages a)),
                   UsageReturn default_usage)) s []
    | Raise e => mk_outcome (Raise e) s []
    end.
Proof.
  intros Hc. destruct (is_command_lower _ _ Hc) as [rest Hl].
  unfold _command_branches.
  rewrite !(eqb_lower_false _ _ _ _ Hl) by reflexivity.
  rewrite (is_command_false _ _ "dump" _ Hl) by reflexivity.
  rewrite Hc.
  unfold mbind, M_bind, bind, lift. simpl.
  by destruct (amount_argument (Py.split (Py.strip command)) 3).
Qed.

Lemma branches_retry (actor : User) (user_id agent_id command : string)
    (a : Agent) (s : Server) :
  Py.lower command = "retry" →
  _command_branches actor user_id agent_id command a s =
    mk_outcome
      (Return (set_messages a (retry_command (messages a)),
               UsageReturn default_usage)) s [].
Proof.
  intros Hl. unfold _command_branches.
  assert (Py.lower command = "retry" +:+ "") as Hl' by done.
  rewrite !(is_command_false _ _ _ _ Hl') by reflexivity.
  by rewrite Hl.
Qed.

Lemma branches_rethink (actor : User) (user_id agent_id command : string)
    (a : Agent) (s : Server) :
  is_command command "rethink" = true →
  _command_branches actor user_id agent_id command a s =
    mk_outcome
      (Return (set_messages a (rethink_command command (messages a)),
               UsageReturn default_usage)) s [].
Proof.
  intros Hc. destruct (is_command_lower _ _ Hc) as [rest Hl].
  unfold _command_branches.
  rewrite !(eqb_lower_false _ _ _ _ Hl) by reflexivity.
  rewrite !(is_command_false _ _ "dump" _ Hl) by reflexivity.
  rewrite !(is_command_false _ _ "pop" _ Hl) by reflexivity.
  by rewrite Hc.
Qed.

Lemma branches_rewrite (actor : User) (user_id agent_id command : string)
    (a : Agent) (s : Server) :
  is_command command "rewrite" = true →
  _command_branches actor user_id agent_id command a s =
    match rewrite_command command (messages a) with
    | Return ms =>
        mk_outcome (Return (set_messages a ms, UsageReturn default_usage)) s []
    | Raise e => mk_outcome (Raise e) s []
    end.
Proof.
  intros Hc. destruct (is_command_lower _ _ Hc) as [rest Hl].
  unfold _command_branches.
  rewrite !(eqb_lower_false _ _ _ _ Hl) by reflexivity.
  rewrite !(is_command_false _ _ "dump" _ Hl) by reflexivity.
  rewrite !(is_command_false _ _ "pop" _ Hl) by reflexivity.
  rewrite !(is_command_false _ _ "rethink" _ Hl) by reflexivity.
  rewrite Hc.
  unfold mbind, M_bind, bind, lift. simpl.
  by destruct (rewrite_command command (messages a)).
Qed.

(** The two commands written to re-enter the step loop: the call of
    [_step] does not bind. *)
Lemma branches_reenter (actor : User) (user_id agent_id command : string)
    (a : Agent) (s : Server) :
  Py.lower command = "heartbeat" ∨ Py.lower command = "memorywarning" →
  _command_branches actor user_id agent_id command a s =
    mk_outcome
      (Raise (TypeError
                "_step() got an unexpected keyword argument 'input_message'"))
      s [].
Proof.
  intros [Hl|Hl]; unfold _command_branches.
  - assert (Py.lower command = "heartbeat" +:+ "") as Hl' by done.
    rewrite !(is_command_false _ _ _ _ Hl') by reflexivity.
    by rewrite Hl.
  - assert (Py.lower command = "memorywarning" +:+ "") as Hl' by done.
    rewrite !(is_command_false _ _ _ _ Hl') by reflexivity.
    by rewrite Hl.
Qed.

End CommandRuns.

(** ** The loops of the command processor *)

Lemma pop_command_eq (n : nat) (messages : list MessageDict) :
  pop_command n messages =
    if Nat.leb (length messages) 2 || Nat.ltb (length messages) (n + 2)
    then messages
    else take (length messages - n) messages.
Proof.
  unfold pop_command, MIN_MESSAGES.
  destruct (Nat.leb_spec (length messages) 2); [done|]. simpl.
  destruct (Z.ltb_spec (Z.of_nat (length messages) - Z.of_nat n)
              (Z.of_nat 2)), (Nat.ltb_spec (length messages) (n + 2));
    try lia; [done|].
  rewrite pop_n_take. f_equal. lia.
Qed.

Lemma retry_loop_user (pre post : list MessageDict) (u : MessageDict)
    (fuel : nat) :
  role u = "user" →
  Forall (λ m, role m ≠ "user") post →
  length post < fuel →
  retry_loop fuel (pre ++ u :: post) = Some pre.
Proof.
  intros Hu. revert fuel.
  induction post as [|x post IH] using rev_ind; intros fuel Hpost Hfuel.
  - destruct fuel as [|fuel]; [simpl in Hfuel; lia|]. simpl.
    rewrite length_app. simpl.
    destruct (Nat.ltb_spec 0 (length pre + 1)); [|lia].
    rewrite last_app_singleton, Hu. simpl.
    by rewrite pop_app_singleton.
  - destruct fuel as [|fuel]; [lia|]. simpl.
    apply Forall_app in Hpost as [Hpost Hx].
    apply Forall_inv in Hx.
    rewrite length_app in Hfuel. simpl in Hfuel.
    change (pre ++ u :: post ++ [x]) with (pre ++ (u :: post) ++ [x]).
    rewrite app_assoc, length_app. simpl.
    destruct (Nat.ltb_spec 0 (length (pre ++ u :: post) + 1)); [|lia].
    rewrite last_app_singleton, pop_app_singleton.
    apply String.eqb_neq in Hx. rewrite Hx.
    apply IH; [done|lia].
Qed.

Lemma retry_loop_no_user (l : list MessageDict) (fuel : nat) :
  Forall (λ m, role m ≠ "user") l →
  length l < fuel →
  retry_loop fuel l = Some [].
Proof.
  revert fuel.
  induction l as [|x l IH] using rev_ind; intros fuel Hl Hfuel.
  - destruct fuel; [simpl in Hfuel; lia|done].
  - destruct fuel as [|fuel]; [lia|]. simpl.
    apply Forall_app in Hl as [Hl Hx]. apply Forall_inv in Hx.
    rewrite length_app in *. simpl in *.
    destruct (Nat.ltb_spec 0 (length l + 1)); [|lia].
    rewrite last_app_singleton, pop_app_singleton.
    apply String.eqb_neq in Hx. rewrite Hx.
    apply IH; [done|lia].
Qed.

(** The loop of [retry] ends within the fuel it is given. *)
Lemma retry_loop_terminates (l : list MessageDict) (fuel : nat) :
  length l < fuel → is_Some (retry_loop fuel l).
Proof.
  revert fuel.
  induction l as [|x l IH] using rev_ind; intros fuel Hfuel.
  - destruct fuel; [simpl in Hfuel; lia|by eexists].
  - destruct fuel as [|fuel]; [lia|]. simpl.
    rewrite length_app in *. simpl in *.
    destruct (Nat.ltb_spec 0 (length l + 1)); [|lia].
    rewrite last_app_singleton, pop_app_singleton.
    destruct (String.eqb (role x) "user"); [by eexists|].
    apply IH. lia.
Qed.

Lemma retry_loop_shorter (l r : list MessageDict) (fuel : nat) :
  retry_loop fuel l = Some r → length r ≤ length l.
Proof.
  revert l. induction fuel as [|fuel IH]; intros l; [done|]. simpl.
  destruct (Nat.ltb_spec 0 (length l)) as [Hpos|]; [|by intros [= ->]].
  destruct (Py.last l) as [m|]; [|by intros [= ->]].
  assert (length (Py.pop l) ≤ length l) as Hpop.
  { rewrite pop_take, length_take. lia. }
  destruct (String.eqb (role m) "user").
  - intros [= <-]. done.
  - intros Hr. apply IH in Hr. lia.
Qed.

Lemma rethink_scan_length (x : nat) (text : string) (l : list MessageDict) :
  length (rethink_scan x text l) = length l.
Proof.
  induction x as [|x IH]; [done|]. simpl.
  destruct (l !! S x) as [m|]; [|done].
  destruct (String.eqb (role m) "assistant"); [|done].
  by rewrite length_insert.
Qed.

Lemma rethink_scan_none (x : nat) (text : string) (l : list MessageDict) :
  (∀ j m, 1 ≤ j ≤ x → l !! j = Some m → role m ≠ "assistant") →
  rethink_scan x text l = l.
Proof.
  induction x as [|x IH]; intros Hno; [done|]. simpl.
  destruct (l !! S x) as [m|] eqn:Hm; [|done].
  assert (role m ≠ "assistant") as Hr by (apply (Hno (S x)); [lia|done]).
  apply String.eqb_neq in Hr. rewrite Hr.
  apply IH. intros j m' Hj. apply Hno. lia.
Qed.

Lemma rethink_scan_found (start x : nat) (text : string)
    (l : list MessageDict) (m : MessageDict) :
  1 ≤ x ≤ start → start < length l →
  l !! x = Some m → role m = "assistant" →
  (∀ j m', x < j ≤ start → l !! j = Some m' → role m' ≠ "assistant") →
  rethink_scan start text l = <[x := update_content m text]> l.
Proof.
  induction start as [|start IH]; intros Hx Hlen Hm Hr Hlater; [lia|].
  simpl. destruct (decide (x = S start)) as [->|Hne].
  - rewrite Hm. apply String.eqb_eq in Hr. by rewrite Hr.
  - destruct (lookup_lt_is_Some_2 l (S start) Hlen) as [m' Hm'].
    rewrite Hm'.
    assert (role m' ≠ "assistant") as Hr' by (apply (Hlater (S start)); [lia|done]).
    apply String.eqb_neq in Hr'. rewrite Hr'.
    apply IH; [lia|lia|done|done|].
    intros j m'' Hj. apply Hlater. lia.
Qed.

Lemma rewrite_scan_length (x : nat) (text : string)
    `{Collaborators} (l ms : list MessageDict) :
  rewrite_scan x text l = Return ms → length ms = length l.
Proof.
  induction x as [|x IH]; [by intros [= ->]|]. simpl.
  destruct (l !! S x) as [m|]; [|by intros [= ->]].
  destruct (String.eqb (role m) "assistant"); [|done].
  destruct (function_call m) as [fc|]; [|done].
  destruct (json_loads (arguments fc)); [done|].
  destruct (json_set_message a text); [done|].
  intros [= <-]. by rewrite length_insert.
Qed.

Lemma lower_length (s : string) : String.length (Py.lower s) = String.length s.
Proof. induction s as [|c s IH]; [done|]. simpl. by rewrite IH. Qed.

Lemma prefix_length (p s : string) :
  String.prefix p s = true → String.length p ≤ String.length s.
Proof.
  intros [r ->]%prefix_append.
  induction p as [|c p IH]; simpl; [lia|].
  change (String c p +:+ r) with (String c (p +:+ r)). simpl. lia.
Qed.

(** ** Reading the argument of [pop] *)

Lemma digit_not_space (c : ascii) :
  Py.is_digit_ascii c = true → Py.isspace c = false.
Proof. by destruct c as [[] [] [] [] [] [] [] []]. Qed.

Lemma rstrip_digits (ds : string) :
  Py.all_digits ds = true → Py.rstrip ds = ds.
Proof.
  induction ds as [|c ds IH]; [done|]. simpl.
  intros [Hc Hds]%andb_true_iff. rewrite (IH Hds).
  destruct ds; [|done]. by rewrite (digit_not_space c Hc).
Qed.

Lemma rstrip_cons (c : ascii) (s : string) :
  s ≠ "" → Py.rstrip s = s → Py.rstrip (String c s) = String c s.
Proof. intros Hs Hr. simpl. rewrite Hr. by destruct s. Qed.

Lemma split_digits (ds : string) :
  Py.isdecimal ds = true → Py.split ds = [ds].
Proof.
  destruct ds as [|c ds]; [done|]. unfold Py.isdecimal.
  revert c. induction ds as [|d ds IH]; intros c.
  - simpl. intros [Hc _]%andb_true_iff. by rewrite (digit_not_space c Hc).
  - intros [Hc Hds]%andb_true_iff.
    change (Py.split (String c (String d ds))) with
      (if Py.isspace c then Py.split (String d ds)
       else if Py.isspace d then String c EmptyString :: Py.split (String d ds)
            else match Py.split (String d ds) with
                 | w :: ws => String c w :: ws
                 | [] => [String c EmptyString]
                 end).
    rewrite (digit_not_space c Hc), (IH d Hds).
    apply andb_true_iff in Hds as [Hd _]. by rewrite (digit_not_space d Hd).
Qed.

Lemma split_space (c : ascii) (s : string) :
  Py.isspace c = true → Py.split (String c s) = Py.split s.
Proof. intros Hc. simpl. by rewrite Hc. Qed.

Lemma split_sep (c d : ascii) (s : string) :
  Py.isspace c = false → Py.isspace d = true →
  Py.split (String c (String d s)) =
    String c EmptyString :: Py.split (String d s).
Proof.
  intros Hc Hd.
  change (Py.split (String c (String d s))) with
    (if Py.isspace c then Py.split (String d s)
     else if Py.isspace d then String c EmptyString :: Py.split (String d s)
          else match Py.split (String d s) with
               | w :: ws => String c w :: ws
               | [] => [String c EmptyString]
               end).
  by rewrite Hc, Hd.
Qed.

Lemma split_join (c d : ascii) (s w : string) (ws : list string) :
  Py.isspace c = false → Py.isspace d = false →
  Py.split (String d s) = w :: ws →
  Py.split (String c (String d s)) = String c w :: ws.
Proof.
  intros Hc Hd Hs.
  change (Py.split (String c (String d s))) with
    (if Py.isspace c then Py.split (String d s)
     else if Py.isspace d then String c EmptyString :: Py.split (String d s)
          else match Py.split (String d s) with
               | w :: ws => String c w :: ws
               | [] => [String c EmptyString]
               end).
  by rewrite Hc, Hd, Hs.
Qed.

Lemma pop_line_words (ds : string) :
  Py.isdecimal ds = true →
  Py.split (Py.strip ("pop " +:+ ds)) = ["pop"; ds].
Proof.
  intros Hds. pose proof (split_digits ds Hds) as Hsplit.
  destruct ds as [|d ds]; [done|]. unfold Py.isdecimal in Hds.
  pose proof (rstrip_digits _ Hds) as Hr.
  assert (Py.strip ("pop " +:+ String d ds) = "pop " +:+ String d ds) as ->.
  { unfold Py.strip.
    change ("pop " +:+ String d ds)
      with (String "p" (String "o" (String "p" (String " " (String d ds))))).
    change (Py.lstrip (String "p" ?s)) with (String "p" s).
    repeat (apply rstrip_cons; [done|]). exact Hr. }
  change ("pop " +:+ String d ds)
    with (String "p" (String "o" (String "p" (String " " (String d ds))))).
  rewrite (split_join "p" "o" _ "op" [String d ds]); [done..|].
  rewrite (split_join "o" "p" _ "p" [String d ds]); [done..|].
  rewrite (split_sep "p" " "); [|done..].
  by rewrite (split_space " "), Hsplit.
Qed.

Lemma decimal_is_digit (c : ascii) :
  Py.is_digit_ascii c = true → Py.is_digit_char c = true.
Proof. unfold Py.is_digit_char. by intros ->. Qed.

Lemma isdecimal_isdigit (ds : string) :
  Py.isdecimal ds = true → Py.isdigit ds = true.
Proof.
  destruct ds as [|c ds]; [done|]. unfold Py.isdecimal, Py.isdigit.
  generalize (String c ds). clear. intros s.
  induction s as [|d s IH]; [done|]. simpl.
  intros [Hd Hs]%andb_true_iff.
  by rewrite (decimal_is_digit d Hd), (IH Hs).
Qed.

Lemma pop_line_amount (ds : string) :
  Py.isdecimal ds = true →
  amount_argument (Py.split (Py.strip ("pop " +:+ ds))) 3
  = Return (Py.int ds).
Proof.
  intros Hds. rewrite (pop_line_words ds Hds).
  unfold amount_argument, int_of_digits.
  cbn [lookup list_lookup]. by rewrite (isdecimal_isdigit ds Hds), Hds.
Qed.

Lemma pop_line_is_command (ds : string) :
  is_command ("pop " +:+ ds) "pop" = true.
Proof.
  unfold is_command, Py.startswith. apply orb_true_iff. right.
  change ("pop " +:+ ds)
    with (String "p" (String "o" (String "p" (String " " ds)))).
  by destruct ds.
Qed.

(** ** Stepping through the server monad *)

Lemma bind_return {A B} (m : M A) (k : A → M B) (s s' : Server) (a : A)
    (l : list event) :
  m s = mk_outcome (Return a) s' l →
  (m ≫= k) s = prepend l (k a s').
Proof. intros Hm. unfold mbind, M_bind, bind. by rewrite Hm. Qed.

Lemma bind_raise {A B} (m : M A) (k : A → M B) (s s' : Server) (e : exn)
    (l : list event) :
  m s = mk_outcome (Raise e) s' l →
  (m ≫= k) s = mk_outcome (Raise e) s' l.
Proof. intros Hm. unfold mbind, M_bind, bind. by rewrite Hm. Qed.

(** Evaluation of the server monad: the combinators and the managers are
    unfolded, lookups in the tables are left alone. *)
Ltac run_server :=
  lazy beta iota zeta delta
    [mbind M_bind bind mret M_ret ret raise emit get_server put_server lift
     try_finally try_except with_lock get_lock get_agent_by_id get_user_by_id
     get_user_or_default save_agent get_message_created_at is_NoResultFound
     out_result out_server out_log app prepend
     users default_user agents lock_registry recall_store chaining
     max_chaining_steps set_agents set_lock_registry].

(** ** What [load_agent] does *)

Section LoadRuns.
Context `{Collaborators}.

Lemma load_agent_cases (agent_id : string) (actor : User) (s : Server) :
  let o := load_agent agent_id actor s in
  (∃ e, out_result o = Raise e ∧ out_log o = load_log_raise agent_id)
  ∨ (∃ a, out_result o = Return a ∧ out_log o = load_log_return agent_id a).
Proof.
  destruct s as [us du ag lr rs ch mx]. unfold load_agent. run_server.
  destruct (ag !! agent_id) as [st|]; run_server; [|left; by eexists].
  destruct (created_by_id st) as [uid|]; run_server; [|left; by eexists].
  destruct (us !! uid) as [u|]; run_server; [|left; by eexists].
  destruct (agent_type st); run_server; (right + left); by eexists.
Qed.

Lemma load_agent_no_step (agent_id : string) (actor : User) (s : Server)
    (other : string) :
  EvAgentStep other ∉ out_log (load_agent agent_id actor s).
Proof.
  destruct (load_agent_cases agent_id actor s) as [(e & _ & ->)|(a & _ & ->)];
    unfold load_log_raise, load_log_return; intros Hin;
    repeat (apply elem_of_cons in Hin as [Hin|Hin]; [done|]);
    by apply elem_of_nil in Hin.
Qed.

Lemma _command_log_not_loaded (user_id agent_id command : string) (s : Server)
    (e : exn) :
  out_result (load_agent agent_id (actor_of s user_id) s) = Raise e →
  out_log (_command user_id agent_id command s)
    = out_log (load_agent agent_id (actor_of s user_id) s).
Proof.
  intros Hload. unfold _command, actor_of in *.
  unfold mbind, M_bind, bind at 1 2, get_user_or_default.
  cbn -[load_agent _command_branches].
  unfold mbind, M_bind, bind at 1. cbn -[load_agent _command_branches].
  by rewrite Hload.
Qed.

End LoadRuns.

(** ** The command processor: [pop], [retry], [rethink], [rewrite] and the
       two re-entrant commands *)

Section CommandClaims.
Context `{Collaborators}.

(** C2 (as amended): on the buffer of the loaded agent, of length m, the
    command [pop n] (and [pop] alone, with n = 3) changes nothing when
    m <= 2 and also when n > m - 2; otherwise it removes exactly n messages
    from the tail, the first m - n staying in place, so at least 2 remain. *)
Theorem pop_removes_all_requested_or_nothing
    (user_id agent_id ds : string) (s : Server) (a : Agent) :
  out_result (load_agent agent_id (actor_of s user_id) s) = Return a →
  Py.isdecimal ds = true →
  buffer_after (_command user_id agent_id ("pop " +:+ ds) s)
    = Some (popped (Py.int ds) (messages a))
  ∧ buffer_after (_command user_id agent_id "pop" s)
    = Some (popped 3 (messages a))
  ∧ ∀ n, length (popped n (messages a)) =
           (if Nat.leb (length (messages a)) 2
               || Nat.ltb (length (messages a)) (n + 2)
            then length (messages a) else length (messages a) - n)
         ∧ (2 ≤ length (messages a) → 2 ≤ length (popped n (messages a))).
Proof.
  intros Hload Hds. split; [|split].
  - rewrite (_command_loaded _ _ _ _ _ Hload). cbn zeta.
    rewrite branches_pop by apply pop_line_is_command.
    rewrite (pop_line_amount ds Hds).
    unfold buffer_after. simpl.
    by rewrite pop_command_eq.
  - rewrite (_command_loaded _ _ _ _ _ Hload). cbn zeta.
    rewrite branches_pop by done.
    unfold buffer_after. simpl.
    by rewrite pop_command_eq.
  - intros n. unfold popped.
    destruct (Nat.leb_spec (length (messages a)) 2);
      destruct (Nat.ltb_spec (length (messages a)) (n + 2)); simpl;
      rewrite ?length_take; lia.
Qed.

(** C4 (as amended): [pop], [rethink] and [rewrite] leave a buffer of 0 or
    of at least 2 messages whenever the loaded buffer had 0 or at least 2
    ([rethink] and [rewrite] keep its length, [pop] never goes below 2);
    [retry] only shortens the buffer, and may leave any shorter length. *)
Theorem command_mutations_buffer_size
    (user_id agent_id command : string) (s : Server) (a : Agent)
    (buffer : list MessageDict) :
  out_result (load_agent agent_id (actor_of s user_id) s) = Return a →
  length (messages a) = 0 ∨ 2 ≤ length (messages a) →
  buffer_after (_command user_id agent_id command s) = Some buffer →
  (is_command command "pop" = true →
     length buffer = 0 ∨ 2 ≤ length buffer)
  ∧ (is_command command "rethink" = true →
     length buffer = length (messages a))
  ∧ (is_command command "rewrite" = true →
     length buffer = length (messages a))
  ∧ (Py.lower command = "retry" →
     length buffer ≤ length (messages a)).
Proof.
  intros Hload Hsize. rewrite (_command_loaded _ _ _ _ _ Hload). cbn zeta.
  unfold buffer_after. simpl. intros Hbuf. repeat split; intros Hc.
  - rewrite branches_pop in Hbuf by done.
    destruct (amount_argument (Py.split (Py.strip command)) 3)
      as [e|pop_amount]; simpl in Hbuf; [done|].
    injection Hbuf as <-. rewrite pop_command_eq.
    destruct (Nat.leb_spec (length (messages a)) 2);
      destruct (Nat.ltb_spec (length (messages a)) (pop_amount + 2));
      simpl; rewrite ?length_take; lia.
  - rewrite branches_rethink in Hbuf by done. simpl in Hbuf.
    injection Hbuf as <-. unfold rethink_command.
    destruct (Nat.ltb _ _); [done|]. apply rethink_scan_length.
  - rewrite branches_rewrite in Hbuf by done.
    destruct (rewrite_command command (messages a)) as [e|ms] eqn:Hrw;
      simpl in Hbuf; [done|]. injection Hbuf as <-.
    unfold rewrite_command in Hrw.
    destruct (Nat.ltb _ _); [by injection Hrw as <-|].
    by apply rewrite_scan_length in Hrw.
  - rewrite branches_retry in Hbuf by done. simpl in Hbuf.
    injection Hbuf as <-. unfold retry_command.
    destruct (retry_loop (S (length (messages a))) (messages a)) as [r|] eqn:Hr;
      simpl; [|done].
    by apply retry_loop_shorter in Hr.
Qed.

(** C5: [retry] pops the buffer of the loaded agent from the tail until it
    has popped a message of role user, that one included, and then stops;
    with no message of role user it stops on the empty buffer.  The loop
    always ends. *)
Theorem retry_pops_through_last_user
    (user_id agent_id command : string) (s : Server) (a : Agent) :
  out_result (load_agent agent_id (actor_of s user_id) s) = Return a →
  Py.lower command = "retry" →
  (∀ pre u post,
     messages a = pre ++ u :: post →
     role u = "user" →
     Forall (λ m, role m ≠ "user") post →
     buffer_after (_command user_id agent_id command s) = Some pre)
  ∧ (Forall (λ m, role m ≠ "user") (messages a) →
     buffer_after (_command user_id agent_id command s) = Some [])
  ∧ is_Some (retry_loop (S (length (messages a))) (messages a)).
Proof.
  intros Hload Hc. rewrite (_command_loaded _ _ _ _ _ Hload). cbn zeta.
  rewrite branches_retry by done. unfold buffer_after, retry_command.
  cbn [out_result messages set_messages].
  split; [|split].
  - intros pre u post Hm Hu Hpost. rewrite Hm.
    rewrite (retry_loop_user pre post u _ Hu Hpost); [done|].
    rewrite length_app. simpl. lia.
  - intros Hno. rewrite (retry_loop_no_user _ _ Hno); [done|lia].
  - apply retry_loop_terminates. lia.
Qed.

(** C6: [rethink <text>] looks from the tail of the loaded buffer down to
    index 1 for the nearest message of role assistant and replaces the
    content of that message by the text; every other message, index 0 and
    the earlier assistant messages included, stays as it was, and so do the
    other entries of the message found.  With no assistant message at an
    index >= 1 the buffer is unchanged. *)
Theorem rethink_rewrites_nearest_assistant
    (user_id agent_id command : string) (s : Server) (a : Agent) :
  out_result (load_agent agent_id (actor_of s user_id) s) = Return a →
  Py.startswith (Py.lower command) "rethink " = true →
  let text := Py.strip (Py.slice_from 8 command) in
  (∀ x m,
     1 ≤ x → messages a !! x = Some m → role m = "assistant" →
     (∀ j m', x < j → messages a !! j = Some m' → role m' ≠ "assistant") →
     buffer_after (_command user_id agent_id command s)
       = Some (<[x := {| role := role m; content := Some text;
                         function_call := function_call m |}]> (messages a)))
  ∧ ((∀ j m', 1 ≤ j → messages a !! j = Some m' → role m' ≠ "assistant") →
     buffer_after (_command user_id agent_id command s) = Some (messages a)).
Proof.
  intros Hload Hc text.
  assert (is_command command "rethink" = true) as Hcmd.
  { unfold is_command. apply orb_true_iff. by right. }
  assert (Nat.ltb (String.length command) 8 = false) as Hlen.
  { apply Nat.ltb_ge. rewrite <- (lower_length command).
    by apply prefix_length in Hc. }
  rewrite (_command_loaded _ _ _ _ _ Hload). cbn zeta.
  rewrite branches_rethink by done. unfold buffer_after, rethink_command.
  cbn [out_result messages set_messages].
  change (String.length "rethink ") with 8. rewrite Hlen. fold text.
  split.
  - intros x m Hx Hm Hr Hlater. f_equal.
    pose proof (lookup_lt_Some _ _ _ Hm) as Hlt.
    apply (rethink_scan_found _ x text _ m); [lia|lia|done|done|].
    intros j m' Hj. apply Hlater. lia.
  - intros Hno. f_equal. apply rethink_scan_none.
    intros j m' Hj. apply Hno. lia.
Qed.

(** C3 (the code at the failing input): [heartbeat] and [memorywarning]
    never return usage statistics and never reach [Agent.step]: when the
    agent loads, the call [self._step(..., input_message=...)] fails to bind
    its keyword and raises [TypeError]; when it does not load, the error of
    [load_agent] is raised. *)
Theorem reentrant_commands_raise
    (user_id agent_id command : string) (s : Server) :
  Py.lower command = "heartbeat" ∨ Py.lower command = "memorywarning" →
  match out_result (load_agent agent_id (actor_of s user_id) s) with
  | Return _ =>
      out_result (_command user_id agent_id command s)
        = Raise (TypeError
                   "_step() got an unexpected keyword argument 'input_message'")
  | Raise e => out_result (_command user_id agent_id command s) = Raise e
  end
  ∧ EvAgentStep agent_id ∉ out_log (_command user_id agent_id command s).
Proof.
  intros Hc.
  destruct (out_result (load_agent agent_id (actor_of s user_id) s))
    as [e|a] eqn:Hload.
  - split; [by apply _command_not_loaded|].
    rewrite (_command_log_not_loaded _ _ _ _ _ Hload).
    apply load_agent_no_step.
  - rewrite (_command_loaded _ _ _ _ _ Hload). cbn zeta.
    rewrite branches_reenter by done. cbn [out_result out_log].
    split; [done|]. rewrite app_nil_r. apply load_agent_no_step.
Qed.

End CommandClaims.

(** ** The command processor on the sample deployment *)

Lemma pop_removes_all_requested_or_nothing_witness :
  buffer_after (@_command sample_collaborators "user-1" "agent-1"
                  ("pop " +:+ "2") (sample_server sample_buffer5))
    = Some (popped (Py.int "2") sample_buffer5)
  ∧ buffer_after (@_command sample_collaborators "user-1" "agent-1" "pop"
                    (sample_server sample_buffer5))
    = Some (popped 3 sample_buffer5)
  ∧ ∀ n, length (popped n sample_buffer5) =
           (if Nat.leb (length sample_buffer5) 2
               || Nat.ltb (length sample_buffer5) (n + 2)
            then length sample_buffer5 else length sample_buffer5 - n)
         ∧ (2 ≤ length sample_buffer5 → 2 ≤ length (popped n sample_buffer5)).
Proof.
  apply (@pop_removes_all_requested_or_nothing sample_collaborators
           "user-1" "agent-1" "2" (sample_server sample_buffer5)
           (sample_agent sample_buffer5)).
  - vm_compute. reflexivity.
  - reflexivity.
Defined.

(** A buffer of 5 messages is left at 5 by [pop 10], not cut to 2. *)
Lemma pop_10_of_5_keeps_5 :
  length <$> buffer_after (@_command sample_collaborators "user-1" "agent-1"
                             "pop 10" (sample_server sample_buffer5))
    = Some 5
  ∧ 5 - Nat.min 10 (5 - 2) = 2.
Proof. split; vm_compute; reflexivity. Qed.

Lemma command_mutations_buffer_size_witness :
  (is_command "pop 3" "pop" = true →
     length (take 2 sample_buffer5) = 0 ∨ 2 ≤ length (take 2 sample_buffer5))
  ∧ (is_command "pop 3" "rethink" = true →
     length (take 2 sample_buffer5) = length sample_buffer5)
  ∧ (is_command "pop 3" "rewrite" = true →
     length (take 2 sample_buffer5) = length sample_buffer5)
  ∧ (Py.lower "pop 3" = "retry" →
     length (take 2 sample_buffer5) ≤ length sample_buffer5).
Proof.
  apply (@command_mutations_buffer_size sample_collaborators
           "user-1" "agent-1" "pop 3" (sample_server sample_buffer5)
           (sample_agent sample_buffer5) (take 2 sample_buffer5)).
  - vm_compute. reflexivity.
  - right. simpl. lia.
  - vm_compute. reflexivity.
Defined.

(** [retry] on [system, user, assistant, tool, assistant] leaves exactly one
    message. *)
Lemma retry_leaves_one_message :
  length <$> buffer_after (@_command sample_collaborators "user-1" "agent-1"
                             "retry" (sample_server sample_buffer5))
    = Some 1.
Proof. vm_compute. reflexivity. Qed.

Lemma retry_pops_through_last_user_witness :
  buffer_after (@_command sample_collaborators "user-1" "agent-1" "retry"
                  (sample_server sample_buffer5))
    = Some [sample_message "system" "S"].
Proof.
  apply (proj1 (@retry_pops_through_last_user sample_collaborators
                  "user-1" "agent-1" "retry" (sample_server sample_buffer5)
                  (sample_agent sample_buffer5)
                  ltac:(vm_compute; reflexivity) ltac:(reflexivity))
           [sample_message "system" "S"] (sample_message "user" "U")
           [sample_message "assistant" "A"; sample_message "tool" "T";
            sample_message "assistant" "B"]).
  - reflexivity.
  - reflexivity.
  - repeat constructor; simpl; discriminate.
Defined.

Lemma rethink_rewrites_nearest_assistant_witness :
  buffer_after (@_command sample_collaborators "user-1" "agent-1" "rethink C"
                  (sample_server sample_buffer5))
    = Some [sample_message "system" "S"; sample_message "user" "U";
            sample_message "assistant" "A"; sample_message "tool" "T";
            sample_message "assistant" "C"].
Proof.
  apply (proj1 (@rethink_rewrites_nearest_assistant sample_collaborators
                  "user-1" "agent-1" "rethink C" (sample_server sample_buffer5)
                  (sample_agent sample_buffer5)
                  ltac:(vm_compute; reflexivity) ltac:(reflexivity))
           4 (sample_message "assistant" "B")).
  - lia.
  - reflexivity.
  - reflexivity.
  - intros j m' Hj Hm'. apply lookup_lt_Some in Hm'. simpl in Hm'. lia.
Defined.

(** The text is stripped of every whitespace character of Python: a
    no-break space around it goes like a space. *)
Lemma rethink_strips_no_break_space :
  buffer_after (@_command sample_collaborators "user-1" "agent-1"
                  ("rethink " +:+ no_break_space +:+ "C" +:+ no_break_space)
                  (sample_server sample_buffer5))
    = Some [sample_message "system" "S"; sample_message "user" "U";
            sample_message "assistant" "A"; sample_message "tool" "T";
            sample_message "assistant" "C"].
Proof. vm_compute. reflexivity. Qed.

Lemma reentrant_commands_raise_witness :
  match out_result (@load_agent sample_collaborators "agent-1"
                      (actor_of (sample_server sample_buffer5) "user-1")
                      (sample_server sample_buffer5)) with
  | Return _ =>
      out_result (@_command sample_collaborators "user-1" "agent-1"
                    "heartbeat" (sample_server sample_buffer5))
        = Raise (TypeError
                   "_step() got an unexpected keyword argument 'input_message'")
  | Raise e =>
      out_result (@_command sample_collaborators "user-1" "agent-1"
                    "heartbeat" (sample_server sample_buffer5)) = Raise e
  end
  ∧ EvAgentStep "agent-1"
      ∉ out_log (@_command sample_collaborators "user-1" "agent-1"
                   "heartbeat" (sample_server sample_buffer5)).
Proof.
  apply (@reentrant_commands_raise sample_collaborators "user-1" "agent-1"
           "heartbeat" (sample_server sample_buffer5)).
  left. reflexivity.
Defined.

(** ** The message entry points *)

Section EntryPoints.
Context `{Collaborators}.

Lemma startswith_nonempty (s p : string) :
  p ≠ "" → Py.startswith s p = true → Nat.eqb (String.length s) 0 = false.
Proof. destruct p; [done|]. by destruct s. Qed.

(** The two lookups that open [user_message] and [system_message]. *)
Lemma door_user (user_id : string) (msg : string) (s : Server) :
  try_except (get_user_by_id user_id) is_NoResultFound
    (λ _, raise (ValueError msg)) s
  = mk_outcome
      (match users s !! user_id with
       | Some u => Return u
       | None => Raise (ValueError msg)
       end) s [].
Proof.
  unfold try_except, get_user_by_id, mbind, M_bind, bind, mret, M_ret, ret,
    raise, get_server. cbn.
  by destruct (users s !! user_id).
Qed.

Lemma door_agent (agent_id : string) (msg : string) (s : Server) :
  try_except (get_agent_by_id agent_id) is_NoResultFound
    (λ _, raise (ValueError msg)) s
  = mk_outcome
      (match agents s !! agent_id with
       | Some st => Return (Some st)
       | None => Raise (ValueError msg)
       end) s [EvGetAgent agent_id].
Proof.
  unfold try_except, get_agent_by_id, mbind, M_bind, bind, mret, M_ret, ret,
    raise, emit, get_server. cbn.
  by destruct (agents s !! agent_id).
Qed.

(** What the two entry points do with a string that fails the sanitization:
    the outcome is that of the first check that fails. *)
Lemma user_message_door (user_id agent_id message : string)
    (timestamp : option Z) (s : Server) :
  Nat.eqb (String.length message) 0 || Py.startswith message "/" = true →
  user_message user_id agent_id (MsgStr message) timestamp s =
    match users s !! user_id with
    | None =>
        mk_outcome
          (Raise (ValueError ("User user_id=" +:+ user_id +:+ " does not exist")))
          s []
    | Some _ =>
        match agents s !! agent_id with
        | None =>
            mk_outcome
              (Raise (ValueError
                        ("Agent agent_id=" +:+ agent_id +:+ " does not exist")))
              s [EvGetAgent agent_id]
        | Some _ =>
            mk_outcome (Raise (invalid_input message)) s [EvGetAgent agent_id]
        end
    end.
Proof.
  intros Hbad. unfold user_message.
  pose proof (door_user user_id
                ("User user_id=" +:+ user_id +:+ " does not exist") s) as Hu.
  pose proof (door_agent agent_id
                ("Agent agent_id=" +:+ agent_id +:+ " does not exist") s) as Ha.
  destruct (users s !! user_id) as [u|]; [|by rewrite (bind_raise _ _ _ _ _ _ Hu)].
  rewrite (bind_return _ _ _ _ _ _ Hu).
  destruct (agents s !! agent_id) as [st|];
    [|by rewrite (bind_raise _ _ _ _ _ _ Ha)].
  rewrite (bind_return _ _ _ _ _ _ Ha).
  erewrite bind_raise; [reflexivity|].
  destruct (Nat.eqb (String.length message) 0); [done|].
  simpl in Hbad. by rewrite Hbad.
Qed.

Lemma system_message_door (user_id agent_id message : string)
    (timestamp : option Z) (s : Server) :
  Nat.eqb (String.length message) 0 || Py.startswith message "/" = true →
  system_message user_id agent_id (MsgStr message) timestamp s =
    match users s !! user_id with
    | None =>
        mk_outcome
          (Raise (ValueError ("User user_id=" +:+ user_id +:+ " does not exist")))
          s []
    | Some _ =>
        match agents s !! agent_id with
        | None =>
            mk_outcome
              (Raise (ValueError
                        ("Agent agent_id=" +:+ agent_id +:+ " does not exist")))
              s [EvGetAgent agent_id]
        | Some _ =>
            mk_outcome (Raise (invalid_input message)) s [EvGetAgent agent_id]
        end
    end.
Proof.
  intros Hbad. unfold system_message.
  pose proof (door_user user_id
                ("User user_id=" +:+ user_id +:+ " does not exist") s) as Hu.
  pose proof (door_agent agent_id
                ("Agent agent_id=" +:+ agent_id +:+ " does not exist") s) as Ha.
  destruct (users s !! user_id) as [u|]; [|by rewrite (bind_raise _ _ _ _ _ _ Hu)].
  rewrite (bind_return _ _ _ _ _ _ Hu).
  destruct (agents s !! agent_id) as [st|];
    [|by rewrite (bind_raise _ _ _ _ _ _ Ha)].
  rewrite (bind_return _ _ _ _ _ _ Ha).
  erewrite bind_raise; [reflexivity|].
  destruct (Nat.eqb (String.length message) 0); [done|].
  simpl in Hbad. by rewrite Hbad.
Qed.

(** C8: a string message that is empty or starts with "/" makes
    [user_message] and [system_message] raise [ValueError] -- "Invalid
    input" when the user and the agent exist -- before [load_agent] is
    reached: no lock is allocated or acquired and the server is unchanged. *)
Theorem invalid_text_rejected_before_lock
    (user_id agent_id message : string) (timestamp : option Z) (s : Server) :
  message = "" ∨ Py.startswith message "/" = true →
  rejected_before_lock
    (user_message user_id agent_id (MsgStr message) timestamp s) s
  ∧ rejected_before_lock
      (system_message user_id agent_id (MsgStr message) timestamp s) s
  ∧ (is_Some (users s !! user_id) → is_Some (agents s !! agent_id) →
     out_result (user_message user_id agent_id (MsgStr message) timestamp s)
       = Raise (invalid_input message)
     ∧ out_result (system_message user_id agent_id (MsgStr message) timestamp s)
       = Raise (invalid_input message)).
Proof.
  intros Hbad.
  assert (Nat.eqb (String.length message) 0 = true
          ∨ (Nat.eqb (String.length message) 0 = false
             ∧ Py.startswith message "/" = true)) as Hcase.
  { destruct Hbad as [->|Hp]; [by left|right].
    split; [|done]. by apply (startswith_nonempty _ "/"). }
  assert (Nat.eqb (String.length message) 0 || Py.startswith message "/"
          = true) as Hdoor.
  { destruct Hcase as [->|[-> ->]]; done. }
  rewrite (user_message_door _ _ _ _ _ Hdoor),
    (system_message_door _ _ _ _ _ Hdoor).
  unfold rejected_before_lock.
  destruct (users s !! user_id) as [u|];
    [destruct (agents s !! agent_id) as [st|]|];
    cbn [out_result out_server out_log];
    repeat split; eauto;
    try (intros ? Hin; repeat (apply elem_of_cons in Hin as [Hin|Hin]; [done|]);
         by apply elem_of_nil in Hin);
    try match goal with Hn : is_Some None |- _ => by destruct Hn end.
Qed.

End EntryPoints.

Lemma invalid_text_rejected_before_lock_witness :
  rejected_before_lock
    (@user_message sample_collaborators "user-1" "agent-1" (MsgStr "/heartbeat")
       None (sample_server sample_buffer5))
    (sample_server sample_buffer5)
  ∧ rejected_before_lock
      (@system_message sample_collaborators "user-1" "agent-1"
         (MsgStr "/heartbeat") None (sample_server sample_buffer5))
      (sample_server sample_buffer5)
  ∧ (is_Some (users (sample_server sample_buffer5) !! "user-1") →
     is_Some (agents (sample_server sample_buffer5) !! "agent-1") →
     out_result (@user_message sample_collaborators "user-1" "agent-1"
                   (MsgStr "/heartbeat") None (sample_server sample_buffer5))
       = Raise (invalid_input "/heartbeat")
     ∧ out_result (@system_message sample_collaborators "user-1" "agent-1"
                     (MsgStr "/heartbeat") None (sample_server sample_buffer5))
       = Raise (invalid_input "/heartbeat")).
Proof.
  apply (@invalid_text_rejected_before_lock sample_collaborators
           "user-1" "agent-1" "/heartbeat" None (sample_server sample_buffer5)).
  right. reflexivity.
Defined.

(** ** [_step] and the per-agent lock *)

Section StepLock.
Context `{Collaborators}.

Lemma annotate_app (agent_id : string) (held : bool) (l1 l2 : list event) :
  annotate agent_id held (l1 ++ l2) =
    annotate agent_id held l1
    ++ annotate agent_id (lock_held agent_id held l1) l2.
Proof.
  revert held. induction l1 as [|e l1 IH]; intros held; [done|].
  simpl. rewrite IH. by destruct e.
Qed.

(** The log of [_step] once its input is validated and the agent loaded. *)
Lemma _step_log (actor : User) (agent_id : string) (input_messages : pyarg)
    (s : Server) (ms : list Message) :
  validate_input_messages input_messages = Return ms →
  let o := load_agent agent_id actor s in
  out_log (_step actor agent_id input_messages s) =
    out_log o ++
    match out_result o with
    | Raise _ => []
    | Return a =>
        EvAgentStep agent_id ::
        match agent_step a ms (chaining (out_server o))
                (max_chaining_steps (out_server o)) with
        | Return r => [EvSaveAgent (agent_id_of (agent_state r.1))]
        | Raise _ => []
        end ++ [EvStepYield agent_id]
    end.
Proof.
  intros Hv. cbn zeta. unfold _step.
  rewrite (bind_return _ _ s s ms []); [|by unfold lift; rewrite Hv].
  destruct (load_agent agent_id actor s) as [[e|a] s' l] eqn:Hload.
  - rewrite (bind_raise _ _ _ _ _ _ Hload).
    cbn [prepend out_log out_result app]. by rewrite app_nil_r.
  - rewrite (bind_return _ _ _ _ _ _ Hload).
    destruct s' as [us du ag lr rs ch mx]. run_server.
    destruct (agent_step a ms ch mx) as [e|[a' u]]; run_server; done.
Qed.

(** C1 (as amended): every event of a [_step] call, with the state of the
    agent's lock when it runs.  The lock is taken and released inside
    [load_agent]: it is held for the read of the agent state, the rebuild of
    the system prompt and the save that ends the load, and it is free again
    when [Agent.step], the save after the step and [step_yield] run. *)
Theorem step_holds_lock_for_load_only
    (actor : User) (agent_id : string) (input_messages : pyarg) (s : Server) :
  annotate agent_id false (out_log (_step actor agent_id input_messages s)) =
    match validate_input_messages input_messages with
    | Raise _ => []
    | Return ms =>
        let o := load_agent agent_id actor s in
        match out_result o with
        | Raise _ =>
            [(false, EvLockAcquire agent_id); (true, EvGetAgent agent_id);
             (true, EvLockRelease agent_id)]
        | Return a =>
            [(false, EvLockAcquire agent_id); (true, EvGetAgent agent_id);
             (true, EvRebuildSystemPrompt agent_id);
             (true, EvSaveAgent (agent_id_of (agent_state a)));
             (true, EvLockRelease agent_id);
             (false, EvAgentStep agent_id)]
            ++ match agent_step a ms (chaining (out_server o))
                       (max_chaining_steps (out_server o)) with
               | Return r =>
                   [(false, EvSaveAgent (agent_id_of (agent_state r.1)))]
               | Raise _ => []
               end
            ++ [(false, EvStepYield agent_id)]
        end
    end.
Proof.
  destruct (validate_input_messages input_messages) as [e|ms] eqn:Hv.
  - unfold _step, mbind, M_bind, bind, lift. by rewrite Hv.
  - rewrite (_step_log _ _ _ _ ms Hv). cbn zeta.
    destruct (load_agent_cases agent_id actor s) as [(e & -> & ->)|(a & -> & ->)].
    + rewrite app_nil_r. unfold load_log_raise. simpl.
      by rewrite String.eqb_refl.
    + rewrite annotate_app. unfold load_log_return. simpl.
      rewrite !String.eqb_refl. do 6 f_equal.
      by destruct (agent_step a ms _ _).
Qed.

End StepLock.

(** On the sample deployment [Agent.step] runs with the agent's lock free,
    and two [_step] calls for the same agent can be scheduled so that the
    second loads, steps and persists between the load and the step of the
    first: their load-step-persist spans interleave. *)
Lemma step_spans_interleave :
  let log := out_log (@_step sample_collaborators sample_user "agent-1"
                        (PMessage (sample_record "m4" 4))
                        (sample_server sample_buffer5)) in
  (false, EvAgentStep "agent-1") ∈ annotate "agent-1" false log
  ∧ ∃ p, run_schedule (nested_schedule 5 (length log))
           (start_pool [log; log]) = Some p
         ∧ threads p = [[]; []]
         ∧ spans_interleave 0 1 (history p) = true
         ∧ history p !! 4 = Some (0, EvLockRelease "agent-1")
         ∧ history p !! 10 = Some (1, EvAgentStep "agent-1")
         ∧ history p !! 13 = Some (0, EvAgentStep "agent-1").
Proof.
  split.
  - vm_compute. do 5 (apply elem_of_cons; right). apply elem_of_cons. by left.
  - eexists. split; [vm_compute; reflexivity|].
    repeat split; vm_compute; reflexivity.
Qed.

(** ** The recall cursor *)

Section RecallCursor.
Context `{Collaborators}.

Lemma load_agent_recall_store (agent_id : string) (actor : User) (s : Server) :
  recall_store (out_server (load_agent agent_id actor s)) = recall_store s.
Proof.
  destruct s as [us du ag lr rs ch mx]. unfold load_agent. run_server.
  destruct (ag !! agent_id) as [st|]; run_server; [|done].
  destruct (created_by_id st) as [uid|]; run_server; [|done].
  destruct (us !! uid) as [u|]; run_server; [|done].
  by destruct (agent_type st).
Qed.

Lemma bound_run (b : option string) (s : Server) :
  match truthy b with
  | Some a => t ← get_message_created_at a; mret (Some t)
  | None => mret None
  end s
  = mk_outcome (resolve_bound (recall_store s) b) s [].
Proof.
  unfold resolve_bound. destruct (truthy b) as [i|]; [|done].
  unfold get_message_created_at, mbind, M_bind, bind, mret, M_ret, ret, raise,
    get_server. cbn.
  by destruct (list_find _ (recall_store s)) as [[? m]|].
Qed.




End RecallCursor.



(** ** The tool runner *)

Section ToolRunner.
Context `{Collaborators}.

Lemma slice_to_length (n : nat) (s : string) :
  String.length (Py.slice_to n s) ≤ n.
Proof.
  revert s. induction n as [|n IH]; intros [|c s]; simpl; try lia.
  specialize (IH s). lia.
Qed.

Lemma error_msg_bounded (tool_name exception_message : string) :
  String.length (get_error_msg_for_func_return tool_name exception_message)
    ≤ MAX_ERROR_MESSAGE_CHAR_LIMIT.
Proof.
  unfold get_error_msg_for_func_return.
  destruct (Nat.ltb_spec MAX_ERROR_MESSAGE_CHAR_LIMIT
              (String.length ("Error executing tool " +:+ tool_name +:+ ": "
                              +:+ exception_message))); [|done].
  apply slice_to_length.
Qed.

Lemma run_tool_at_sandbox (user_id tool_args tool_source : string)
    (tool_source_type tool_name : option string) (tool_args_dict : json)
    (tool : Tool) (name : string) :
  reaches_sandbox tool_args tool_source tool_source_type tool_name
    tool_args_dict tool name →
  run_tool_from_source user_id tool_args tool_source tool_source_type tool_name
  = match sandbox_run name tool_args_dict user_id tool with
    | Return r =>
        match Py.last (nonblank (stderr r)) with
        | Some last_line =>
            Return {| fr_id := "null"; fr_function_call_id := "null";
                      fr_date := utc_now; fr_status := "error";
                      fr_function_return :=
                        get_error_msg_for_func_return name last_line;
                      fr_stdout := nonblank (stdout r);
                      fr_stderr := nonblank (stderr r) |}
        | None =>
            Return {| fr_id := "null"; fr_function_call_id := "null";
                      fr_date := utc_now; fr_status := "success";
                      fr_function_return := func_return r;
                      fr_stdout := nonblank (stdout r);
                      fr_stderr := nonblank (stderr r) |}
        end
    | Raise e =>
        Return {| fr_id := "null"; fr_function_call_id := "null";
                  fr_date := utc_now; fr_status := "error";
                  fr_function_return :=
                    get_error_msg_for_func_return name (exn_str e);
                  fr_stdout := [""]; fr_stderr := [format_exc e] |}
    end.
Proof.
  intros (Hj & Hty & Htool & Hname). unfold run_tool_from_source.
  rewrite Hj, Htool, Hname. by destruct Hty as [->| ->].
Qed.

Lemma isspace_code_points (c : ascii) :
  Py.isspace c = existsb (Nat.eqb (nat_of_ascii c)) whitespace_code_points.
Proof. by destruct c as [[] [] [] [] [] [] [] []]. Qed.

Lemma strip_blank (line : string) :
  blank_line line = true → Py.strip line = "".
Proof.
  unfold Py.strip. induction line as [|c line IH]; [done|].
  cbn [blank_line Py.lstrip]. rewrite <- isspace_code_points.
  intros [Hc Hl]%andb_true_iff. rewrite Hc. by apply IH.
Qed.

Lemma strip_visible (line : string) :
  blank_line line = false → Py.strip line ≠ "".
Proof.
  unfold Py.strip. induction line as [|c line IH]; [done|].
  cbn [blank_line Py.lstrip]. rewrite <- isspace_code_points.
  destruct (Py.isspace c) eqn:Hc; [exact IH|].
  intros _. cbn [Py.rstrip]. rewrite Hc. by destruct (Py.rstrip line).
Qed.

Lemma nonblank_cons (line : string) (lines : list string) :
  nonblank (line :: lines)
  = if blank_line line then nonblank lines else line :: nonblank lines.
Proof.
  unfold nonblank. cbn [List.filter].
  destruct (blank_line line) eqn:Hb.
  - by rewrite (strip_blank _ Hb).
  - apply strip_visible, String.eqb_neq in Hb. by rewrite Hb.
Qed.

Lemma nonblank_all_blank (lines : list string) :
  nonblank lines = [] ↔ forallb blank_line lines = true.
Proof.
  induction lines as [|line lines IH]; [done|].
  rewrite nonblank_cons. cbn [forallb].
  destruct (blank_line line); [exact IH|]. by split.
Qed.

Lemma nonblank_last_visible (pre post : list string) (line : string) :
  blank_line line = false → forallb blank_line post = true →
  Py.last (nonblank (pre ++ line :: post)) = Some line.
Proof.
  intros Hline Hpost.
  assert (nonblank (pre ++ line :: post) = nonblank pre ++ [line]) as ->.
  { induction pre as [|p pre IH].
    - cbn [app]. rewrite nonblank_cons, Hline.
      by apply nonblank_all_blank in Hpost as ->.
    - cbn [app]. rewrite !nonblank_cons, IH. by destruct (blank_line p). }
  unfold Py.last. rewrite length_app. cbn [length].
  replace (length (nonblank pre) + 1 - 1) with (length (nonblank pre)) by lia.
  by rewrite lookup_app_r, Nat.sub_diag.
Qed.

(** C9: whatever the tool name and the error, the text built by
    [get_error_msg_for_func_return] is at most
    [MAX_ERROR_MESSAGE_CHAR_LIMIT] characters long; and when the sandbox
    raises, or the tool leaves on stderr a line with a character that is
    not whitespace, [run_tool_from_source] returns a result of status error
    whose text is that bounded message: for the exception, or for the last
    such line of stderr. *)
Theorem tool_error_text_bounded
    (user_id tool_args tool_source : string)
    (tool_source_type tool_name : option string) (tool_args_dict : json)
    (tool : Tool) (name : string) :
  reaches_sandbox tool_args tool_source tool_source_type tool_name
    tool_args_dict tool name →
  (∀ tn em, String.length (get_error_msg_for_func_return tn em)
              ≤ MAX_ERROR_MESSAGE_CHAR_LIMIT)
  ∧ (∀ e, sandbox_run name tool_args_dict user_id tool = Raise e →
       ∃ fr, run_tool_from_source user_id tool_args tool_source
               tool_source_type tool_name = Return fr
             ∧ fr_status fr = "error"
             ∧ fr_function_return fr
               = get_error_msg_for_func_return name (exn_str e)
             ∧ String.length (fr_function_return fr)
               ≤ MAX_ERROR_MESSAGE_CHAR_LIMIT)
  ∧ (∀ r pre line post,
       sandbox_run name tool_args_dict user_id tool = Return r →
       stderr r = pre ++ line :: post →
       blank_line line = false →
       forallb blank_line post = true →
       ∃ fr, run_tool_from_source user_id tool_args tool_source
               tool_source_type tool_name = Return fr
             ∧ fr_status fr = "error"
             ∧ fr_function_return fr
               = get_error_msg_for_func_return name line
             ∧ String.length (fr_function_return fr)
               ≤ MAX_ERROR_MESSAGE_CHAR_LIMIT).
Proof.
  intros Hreach. split; [apply error_msg_bounded|]. split.
  - intros e He. rewrite (run_tool_at_sandbox _ _ _ _ _ _ _ _ Hreach), He.
    eexists. split; [done|]. simpl. repeat split. apply error_msg_bounded.
  - intros r pre line post Hr Hstderr Hline Hpost.
    rewrite (run_tool_at_sandbox _ _ _ _ _ _ _ _ Hreach), Hr, Hstderr.
    rewrite (nonblank_last_visible pre post line Hline Hpost).
    eexists. split; [done|]. simpl. repeat split. apply error_msg_bounded.
Qed.

Lemma last_nil_iff {A} (l : list A) : Py.last l = None ↔ l = [].
Proof.
  unfold Py.last. split; [|by intros ->].
  destruct l as [|x l]; [done|]. intros Hl.
  apply lookup_ge_None in Hl. simpl in Hl. lia.
Qed.

(** C10 (as amended): [run_tool_from_source] raises [ValueError] when
    [tool_args] is not valid JSON and when [tool_source_type] is neither
    [None] nor "python".  Past these two checks, an exception of the [Tool]
    constructor propagates, a tool left without a name fails the assertion
    ([AssertionError]), and in every other case the call returns a
    [FunctionReturn]: of status error when the sandbox raises or the tool
    leaves on stderr a line with a character that is not whitespace, of
    status success otherwise. *)
Theorem run_tool_outcomes
    (user_id tool_args tool_source : string)
    (tool_source_type tool_name : option string) :
  let run := run_tool_from_source user_id tool_args tool_source
               tool_source_type tool_name in
  let python_or_none :=
    tool_source_type = None ∨ tool_source_type = Some "python" in
  (std_json_loads tool_args = None ∨ ¬ python_or_none →
   ∃ msg, run = Raise (ValueError msg))
  ∧ (∀ tool_args_dict, std_json_loads tool_args = Some tool_args_dict →
     python_or_none →
     match Tool_new tool_name tool_source with
     | Raise e => run = Raise e
     | Return tool =>
         match tool_name_of tool with
         | None => run = Raise (AssertionError "Failed to create tool object")
         | Some name =>
             ∃ fr, run = Return fr
                   ∧ fr_status fr
                     = match sandbox_run name tool_args_dict user_id tool with
                       | Raise _ => "error"
                       | Return r =>
                           if forallb blank_line (stderr r) then "success"
                           else "error"
                       end
         end
     end)
  ∧ (∀ msg, run = Raise (ValueError msg) →
     std_json_loads tool_args = None ∨ ¬ python_or_none
     ∨ Tool_new tool_name tool_source = Raise (ValueError msg)).
Proof.
  cbn zeta. split; [|split].
  - intros [Hj|Hty]; unfold run_tool_from_source.
    + rewrite Hj. by eexists.
    + destruct (std_json_loads tool_args); [|by eexists].
      destruct tool_source_type as [t|]; [|by destruct Hty; left].
      destruct (String.eqb_spec t "python") as [->|Hne]; simpl.
      * destruct Hty. by right.
      * by eexists.
  - intros j Hj Hty.
    destruct (Tool_new tool_name tool_source) as [e|tool] eqn:Htool.
    { unfold run_tool_from_source. rewrite Hj, Htool.
      by destruct Hty as [->| ->]. }
    destruct (tool_name_of tool) as [name|] eqn:Hname.
    + rewrite (run_tool_at_sandbox _ _ _ _ _ j tool name) by done.
      destruct (sandbox_run name j user_id tool) as [e|r]; [by eexists|].
      destruct (Py.last (nonblank (stderr r))) as [line|] eqn:Hlast.
      * eexists. split; [done|]. simpl.
        destruct (forallb blank_line (stderr r)) eqn:Hall; [|done].
        apply nonblank_all_blank in Hall. by rewrite Hall in Hlast.
      * apply last_nil_iff, nonblank_all_blank in Hlast. rewrite Hlast.
        by eexists.
    + unfold run_tool_from_source. rewrite Hj, Htool, Hname.
      by destruct Hty as [->| ->].
  - unfold run_tool_from_source. intros msg.
    destruct (std_json_loads tool_args) as [j|]; [|by left].
    destruct tool_source_type as [t|].
    + destruct (String.eqb_spec t "python") as [->|Hne]; simpl.
      * destruct (Tool_new tool_name tool_source) as [e|tool];
          [intros [= ->]; by right; right|].
        destruct (tool_name_of tool); [|done].
        destruct (sandbox_run _ _ _ _); [done|].
        by destruct (Py.last _).
      * intros _. right; left. intros [?|[= ?]]; done.
    + simpl. destruct (Tool_new tool_name tool_source) as [e|tool];
        [intros [= ->]; by right; right|].
      destruct (tool_name_of tool); [|done].
      destruct (sandbox_run _ _ _ _); [done|].
      by destruct (Py.last _).
Qed.

End ToolRunner.

Lemma tool_error_text_bounded_witness :
  (∃ fr, @run_tool_from_source raising_collaborators "user-1" "{}" ""
           (Some "python") (Some "divide") = Return fr
         ∧ fr_status fr = "error"
         ∧ fr_function_return fr
           = @get_error_msg_for_func_return raising_collaborators "divide"
               "division by zero"
         ∧ String.length (fr_function_return fr) ≤ 30)
  ∧ (∃ fr, @run_tool_from_source stderr_collaborators "user-1" "{}" ""
             (Some "python") (Some "divide") = Return fr
           ∧ fr_status fr = "error"
           ∧ fr_function_return fr
             = @get_error_msg_for_func_return stderr_collaborators "divide"
                 "ZeroDivisionError: division by zero"
           ∧ String.length (fr_function_return fr) ≤ 30).
Proof.
  split.
  - apply (proj1 (proj2
             (@tool_error_text_bounded raising_collaborators "user-1" "{}" ""
                (Some "python") (Some "divide") "{}"
                {| tool_name_of := Some "divide"; source_code := "" |}
                "divide"
                ltac:(repeat split; try reflexivity; right; reflexivity)))
             (OtherException "division by zero")).
    reflexivity.
  - apply (proj2 (proj2
             (@tool_error_text_bounded stderr_collaborators "user-1" "{}" ""
                (Some "python") (Some "divide") "{}"
                {| tool_name_of := Some "divide"; source_code := "" |}
                "divide"
                ltac:(repeat split; try reflexivity; right; reflexivity)))
             {| func_return := "None"; stdout := [];
                stderr := ["Traceback (most recent call last)";
                           "ZeroDivisionError: division by zero"; " "] |}
             ["Traceback (most recent call last)"]
             "ZeroDivisionError: division by zero" [" "]);
      reflexivity.
Defined.

(** The two error paths on concrete runs: the text is cut at the limit of 30
    characters, and a trailing blank stderr line is not the one reported. *)
Lemma tool_error_text_cut :
  fr_function_return
    <$> returned (@run_tool_from_source raising_collaborators "user-1" "{}" ""
                    None (Some "divide"))
    = Some "Error executing tool divide: d"
  ∧ fr_function_return
      <$> returned (@run_tool_from_source stderr_collaborators "user-1" "{}" ""
                      None (Some "divide"))
      = Some "Error executing tool divide: Z"
  ∧ fr_status
      <$> returned (@run_tool_from_source stderr_collaborators "user-1" "{}" ""
                      None (Some "divide"))
      = Some "error".
Proof. repeat split; vm_compute; reflexivity. Qed.

Lemma run_tool_outcomes_witness :
  (∃ fr, @run_tool_from_source sample_collaborators "user-1" "{}" ""
           (Some "python") (Some "divide") = Return fr
         ∧ fr_status fr = "success")
  ∧ (∃ fr, @run_tool_from_source stderr_collaborators "user-1" "{}" ""
             (Some "python") (Some "divide") = Return fr
           ∧ fr_status fr = "error")
  ∧ (∃ fr, @run_tool_from_source blank_stderr_collaborators "user-1" "{}" ""
             (Some "python") (Some "divide") = Return fr
           ∧ fr_status fr = "success").
Proof.
  split; [|split].
  - apply (proj1 (proj2 (@run_tool_outcomes sample_collaborators "user-1"
                           "{}" "" (Some "python") (Some "divide")))
             "{}" ltac:(reflexivity) ltac:(right; reflexivity)).
  - apply (proj1 (proj2 (@run_tool_outcomes stderr_collaborators "user-1"
                           "{}" "" (Some "python") (Some "divide")))
             "{}" ltac:(reflexivity) ltac:(right; reflexivity)).
  - apply (proj1 (proj2 (@run_tool_outcomes blank_stderr_collaborators
                           "user-1" "{}" "" (Some "python") (Some "divide")))
             "{}" ltac:(reflexivity) ltac:(right; reflexivity)).
Defined.

(** Valid JSON arguments and no source type, but no tool name: the call
    neither raises [ValueError] nor returns a [FunctionReturn]. *)
Lemma unnamed_tool_fails_assertion :
  @std_json_loads sample_collaborators "{}" = Some "{}"
  ∧ @run_tool_from_source sample_collaborators "user-1" "{}" "" None None
    = Raise (AssertionError "Failed to create tool object").
Proof. split; vm_compute; reflexivity. Qed.

(** * Further properties *)

(** ** [load_agent] *)

Section LoadProperties.
Context `{Collaborators}.

(** The whole outcome of [load_agent], case by case. *)
Lemma load_agent_outcome (agent_id : string) (actor : User) (s : Server) :
  let s1 := set_lock_registry s ({[agent_id]} ∪ lock_registry s) in
  load_agent agent_id actor s =
    match agents s !! agent_id with
    | None => mk_outcome (Raise NoResultFound) s1 (load_log_raise agent_id)
    | Some st =>
        match created_by_id st with
        | None =>
            mk_outcome
              (Raise (ValueError ("Agent (agent_id=" +:+ agent_id +:+
                                  ") does not have a user_id")))
              s1 (load_log_raise agent_id)
        | Some uid =>
            match users s !! uid with
            | None =>
                mk_outcome (Raise NoResultFound) s1 (load_log_raise agent_id)
            | Some u =>
                match agent_type st with
                | other_agent_type name =>
                    mk_outcome
                      (Raise (ValueError ("Invalid agent type " +:+ name)))
                      s1 (load_log_raise agent_id)
                | _ =>
                    let a := rebuild_system_prompt (Agent_init st u) in
                    mk_outcome (Return a)
                      (set_agents s1
                         (<[agent_id_of (agent_state a) := persisted_state a]>
                            (agents s)))
                      (load_log_return agent_id a)
                end
            end
        end
    end.
Proof.
  destruct s as [us du ag lr rs ch mx]. unfold load_agent. run_server.
  destruct (ag !! agent_id) as [st|]; run_server; [|done].
  destruct (created_by_id st) as [uid|]; run_server; [|done].
  destruct (us !! uid) as [u|]; run_server; [|done].
  by destruct (agent_type st).
Qed.

Lemma lock_held_no_lock_events (agent_id : string) (held : bool)
    (l : list event) :
  existsb is_lock_event l = false → lock_held agent_id held l = held.
Proof.
  revert held. induction l as [|e l IH]; intros held; [done|].
  simpl. intros [He Hl]%orb_false_iff. destruct e; try done; by apply IH.
Qed.

(** X1: Whatever [load_agent] does, it takes the lock of the agent first and
    gives it back last, also when it raises; no other lock is touched.  The
    lock is registered with the lock manager, whose registry only grows, and
    the users, the recall store and the chaining settings are not
    written. *)
Theorem load_agent_brackets_lock (agent_id : string) (actor : User)
    (s : Server) :
  let o := load_agent agent_id actor s in
  (∃ body, out_log o = EvLockAcquire agent_id :: body ++ [EvLockRelease agent_id]
           ∧ existsb is_lock_event body = false)
  ∧ lock_held agent_id false (out_log o) = false
  ∧ lock_registry (out_server o) = {[agent_id]} ∪ lock_registry s
  ∧ users (out_server o) = users s
  ∧ recall_store (out_server o) = recall_store s
  ∧ chaining (out_server o) = chaining s
  ∧ max_chaining_steps (out_server o) = max_chaining_steps s.
Proof.
  cbn zeta. rewrite load_agent_outcome. cbn zeta.
  assert (∀ r s' , ∃ body,
            out_log (@mk_outcome Agent r s' (load_log_raise agent_id))
            = EvLockAcquire agent_id :: body ++ [EvLockRelease agent_id]
            ∧ existsb is_lock_event body = false) as Hraise.
  { intros. by exists [EvGetAgent agent_id]. }
  assert (∀ r s' a, ∃ body,
            out_log (@mk_outcome Agent r s' (load_log_return agent_id a))
            = EvLockAcquire agent_id :: body ++ [EvLockRelease agent_id]
            ∧ existsb is_lock_event body = false) as Hreturn.
  { intros. by exists [EvGetAgent agent_id; EvRebuildSystemPrompt agent_id;
                       EvSaveAgent (agent_id_of (agent_state a))]. }
  destruct (agents s !! agent_id) as [st|];
    [destruct (created_by_id st) as [uid|];
     [destruct (users s !! uid) as [u|]; [destruct (agent_type st)|]|]|];
    (split; [apply Hraise || apply Hreturn|]);
    cbn [out_log out_server load_log_raise load_log_return lock_held];
    rewrite ?String.eqb_refl; done.
Qed.

(** X2: When [load_agent] raises, nothing has been persisted: the stored agent
    states are as before.  The error is [NoResultFound] for an unknown agent
    or an unknown creator, and a [ValueError] for an agent without creator
    or of an unsupported type. *)
Theorem load_agent_failure_persists_nothing (agent_id : string) (actor : User)
    (s : Server) (e : exn) :
  out_result (load_agent agent_id actor s) = Raise e →
  agents (out_server (load_agent agent_id actor s)) = agents s
  ∧ out_log (load_agent agent_id actor s) = load_log_raise agent_id
  ∧ match agents s !! agent_id with
    | None => e = NoResultFound
    | Some st =>
        match created_by_id st with
        | None => is_ValueError e = true
        | Some uid =>
            match users s !! uid with
            | None => e = NoResultFound
            | Some _ =>
                is_ValueError e = true
                ∧ ∃ name, agent_type st = other_agent_type name
            end
        end
    end.
Proof.
  rewrite load_agent_outcome. cbn zeta.
  destruct (agents s !! agent_id) as [st|];
    [destruct (created_by_id st) as [uid|];
     [destruct (users s !! uid) as [u|]; [destruct (agent_type st)|]|]|];
    cbn [out_result out_server out_log]; intros [= <-]; eauto.
Qed.

(** X3: When [load_agent] returns, the agent object is the one built from the
    stored state and from the creator of the agent (not from the actor of
    the call), with its system prompt rebuilt; its state, with its message
    buffer, is what the store now holds under its id, and the states of the
    other agents are untouched. *)
Theorem load_agent_persists_loaded_agent (agent_id : string) (actor : User)
    (s : Server) (a : Agent) :
  out_result (load_agent agent_id actor s) = Return a →
  let s' := out_server (load_agent agent_id actor s) in
  (∃ st uid u,
     agents s !! agent_id = Some st ∧ created_by_id st = Some uid
     ∧ users s !! uid = Some u
     ∧ a = rebuild_system_prompt (Agent_init st u))
  ∧ agents s' !! agent_id_of (agent_state a) = Some (persisted_state a)
  ∧ in_context (persisted_state a) = messages a
  ∧ ∀ other, other ≠ agent_id_of (agent_state a) →
             agents s' !! other = agents s !! other.
Proof.
  cbn zeta. rewrite load_agent_outcome. cbn zeta.
  destruct (agents s !! agent_id) as [st|] eqn:Hst; [|done].
  destruct (created_by_id st) as [uid|] eqn:Huid; [|done].
  destruct (users s !! uid) as [u|] eqn:Hu; [|done].
  destruct (agent_type st); cbn [out_result out_server]; intros [= <-];
    (split; [by eexists _, _, _|]);
    (split; [apply lookup_insert_eq|]);
    (split; [done|]);
    intros other Hother; by apply lookup_insert_ne.
Qed.

End LoadProperties.

Lemma load_agent_failure_persists_nothing_witness :
  agents (out_server (@load_agent sample_collaborators "agent-2" sample_user
                        (sample_server sample_buffer5)))
    = agents (sample_server sample_buffer5)
  ∧ out_log (@load_agent sample_collaborators "agent-2" sample_user
               (sample_server sample_buffer5))
    = load_log_raise "agent-2"
  ∧ match agents (sample_server sample_buffer5) !! "agent-2" with
    | None => NoResultFound = NoResultFound
    | Some st =>
        match created_by_id st with
        | None => is_ValueError NoResultFound = true
        | Some uid =>
            match users (sample_server sample_buffer5) !! uid with
            | None => NoResultFound = NoResultFound
            | Some _ =>
                is_ValueError NoResultFound = true
                ∧ ∃ name, agent_type st = other_agent_type name
            end
        end
    end.
Proof.
  apply (@load_agent_failure_persists_nothing sample_collaborators "agent-2"
           sample_user (sample_server sample_buffer5) NoResultFound).
  vm_compute. reflexivity.
Defined.

Lemma load_agent_persists_loaded_agent_witness :
  let s' := out_server (@load_agent sample_collaborators "agent-1" sample_user
                          (sample_server sample_buffer5)) in
  (∃ st uid u,
     agents (sample_server sample_buffer5) !! "agent-1" = Some st
     ∧ created_by_id st = Some uid
     ∧ users (sample_server sample_buffer5) !! uid = Some u
     ∧ sample_agent sample_buffer5
       = @rebuild_system_prompt sample_collaborators (Agent_init st u))
  ∧ agents s' !! agent_id_of (agent_state (sample_agent sample_buffer5))
    = Some (persisted_state (sample_agent sample_buffer5))
  ∧ in_context (persisted_state (sample_agent sample_buffer5))
    = messages (sample_agent sample_buffer5)
  ∧ ∀ other, other ≠ agent_id_of (agent_state (sample_agent sample_buffer5)) →
             agents s' !! other
             = agents (sample_server sample_buffer5) !! other.
Proof.
  apply (@load_agent_persists_loaded_agent sample_collaborators "agent-1"
           sample_user (sample_server sample_buffer5)
           (sample_agent sample_buffer5)).
  vm_compute. reflexivity.
Defined.

(** ** [_step] *)

Section StepProperties.
Context `{Collaborators}.

(** The whole outcome of [_step] on a valid input. *)
Lemma _step_outcome (actor : User) (agent_id : string) (input_messages : pyarg)
    (s : Server) (ms : list Message) :
  validate_input_messages input_messages = Return ms →
  _step actor agent_id input_messages s =
    let o := load_agent agent_id actor s in
    match out_result o with
    | Raise e => mk_outcome (Raise e) (out_server o) (out_log o)
    | Return a =>
        match agent_step a ms (chaining (out_server o))
                (max_chaining_steps (out_server o)) with
        | Raise e =>
            mk_outcome (Raise e) (out_server o)
              (out_log o ++ [EvAgentStep agent_id; EvStepYield agent_id])
        | Return r =>
            mk_outcome (Return r.2)
              (set_agents (out_server o)
                 (<[agent_id_of (agent_state r.1) := persisted_state r.1]>
                    (agents (out_server o))))
              (out_log o ++ [EvAgentStep agent_id;
                             EvSaveAgent (agent_id_of (agent_state r.1));
                             EvStepYield agent_id])
        end
    end.
Proof.
  intros Hv. cbn zeta. unfold _step.
  rewrite (bind_return _ _ s s ms []); [|by unfold lift; rewrite Hv].
  destruct (load_agent agent_id actor s) as [[e|a] s' l] eqn:Hload.
  - rewrite (bind_raise _ _ _ _ _ _ Hload). done.
  - rewrite (bind_return _ _ _ _ _ _ Hload).
    destruct s' as [us du ag lr rs ch mx]. run_server.
    destruct (agent_step a ms ch mx) as [e|[a' u]]; run_server; done.
Qed.

Lemma load_agent_keeps_settings (agent_id : string) (actor : User)
    (s : Server) :
  chaining (out_server (load_agent agent_id actor s)) = chaining s
  ∧ max_chaining_steps (out_server (load_agent agent_id actor s))
    = max_chaining_steps s.
Proof.
  rewrite load_agent_outcome. cbn zeta.
  destruct (agents s !! agent_id) as [st|];
    [destruct (created_by_id st) as [uid|];
     [destruct (users s !! uid) as [u|]; [destruct (agent_type st)|]|]|];
    done.
Qed.

(** X4: A list that holds something else than [Message] objects is refused with
    a [ValueError] before the agent is loaded: no lock is taken, nothing is
    logged and the server is unchanged. *)
Theorem step_refuses_non_messages (actor : User) (agent_id : string)
    (l : list pyarg) (s : Server) :
  forallb is_Message l = false →
  ∃ msg, _step actor agent_id (PList l) s
         = mk_outcome (Raise (ValueError msg)) s [].
Proof.
  intros Hl. eexists. unfold _step.
  apply bind_raise. unfold lift. simpl. by rewrite Hl.
Qed.

(** X5: When [Agent.step] raises, [_step] raises the same exception and the turn
    is not persisted: the server is as [load_agent] left it.  [step_yield]
    is still called, last. *)
Theorem step_failure_is_not_persisted (actor : User) (agent_id : string)
    (input_messages : pyarg) (s : Server) (ms : list Message) (a : Agent)
    (e : exn) :
  let o := load_agent agent_id actor s in
  validate_input_messages input_messages = Return ms →
  out_result o = Return a →
  agent_step a ms (chaining s) (max_chaining_steps s) = Raise e →
  _step actor agent_id input_messages s
  = mk_outcome (Raise e) (out_server o)
      (out_log o ++ [EvAgentStep agent_id; EvStepYield agent_id]).
Proof.
  cbn zeta. intros Hv Hload Hstep. rewrite (_step_outcome _ _ _ _ _ Hv).
  cbn zeta. rewrite Hload.
  destruct (load_agent_keeps_settings agent_id actor s) as [-> ->].
  by rewrite Hstep.
Qed.

(** X6: When [Agent.step] returns, [_step] returns its usage statistics, and the
    state of the agent as the step left it, message buffer included, is
    what the store holds under its id afterwards; the other stored states
    are as [load_agent] left them. *)
Theorem step_success_is_persisted (actor : User) (agent_id : string)
    (input_messages : pyarg) (s : Server) (ms : list Message) (a a' : Agent)
    (usage : LettaUsageStatistics) :
  let o := load_agent agent_id actor s in
  let o' := _step actor agent_id input_messages s in
  validate_input_messages input_messages = Return ms →
  out_result o = Return a →
  agent_step a ms (chaining s) (max_chaining_steps s) = Return (a', usage) →
  out_result o' = Return usage
  ∧ agents (out_server o') !! agent_id_of (agent_state a')
    = Some (persisted_state a')
  ∧ (∀ other, other ≠ agent_id_of (agent_state a') →
       agents (out_server o') !! other = agents (out_server o) !! other)
  ∧ out_log o' = out_log o ++ [EvAgentStep agent_id;
                               EvSaveAgent (agent_id_of (agent_state a'));
                               EvStepYield agent_id].
Proof.
  cbn zeta. intros Hv Hload Hstep. rewrite (_step_outcome _ _ _ _ _ Hv).
  cbn zeta. rewrite Hload.
  destruct (load_agent_keeps_settings agent_id actor s) as [-> ->].
  rewrite Hstep. cbn [out_result out_server out_log fst snd].
  split; [done|]. split; [apply lookup_insert_eq|]. split; [|done].
  intros other Hother. by apply lookup_insert_ne.
Qed.

End StepProperties.

Lemma step_refuses_non_messages_witness :
  ∃ msg, @_step sample_collaborators sample_user "agent-1"
           (PList [PMessage (sample_record "m4" 4); PStr "hello"])
           (sample_server sample_buffer5)
         = mk_outcome (Raise (ValueError msg)) (sample_server sample_buffer5) [].
Proof.
  apply (@step_refuses_non_messages sample_collaborators sample_user "agent-1"
           [PMessage (sample_record "m4" 4); PStr "hello"]
           (sample_server sample_buffer5)).
  reflexivity.
Defined.

Lemma step_failure_is_not_persisted_witness :
  let o := @load_agent failing_step_collaborators "agent-1" sample_user
             (sample_server sample_buffer5) in
  @_step failing_step_collaborators sample_user "agent-1"
    (PMessage (sample_record "m4" 4)) (sample_server sample_buffer5)
  = mk_outcome (Raise (OtherException "provider error")) (out_server o)
      (out_log o ++ [EvAgentStep "agent-1"; EvStepYield "agent-1"]).
Proof.
  apply (@step_failure_is_not_persisted failing_step_collaborators sample_user
           "agent-1" (PMessage (sample_record "m4" 4))
           (sample_server sample_buffer5) [sample_record "m4" 4]
           (sample_agent sample_buffer5) (OtherException "provider error")).
  - reflexivity.
  - vm_compute. reflexivity.
  - reflexivity.
Defined.

Lemma step_success_is_persisted_witness :
  let o := @load_agent sample_collaborators "agent-1" sample_user
             (sample_server sample_buffer5) in
  let o' := @_step sample_collaborators sample_user "agent-1"
              (PMessage (sample_record "m4" 4)) (sample_server sample_buffer5) in
  out_result o' = Return sample_usage
  ∧ agents (out_server o')
      !! agent_id_of (agent_state (sample_agent sample_buffer5))
    = Some (persisted_state (sample_agent sample_buffer5))
  ∧ (∀ other, other ≠ agent_id_of (agent_state (sample_agent sample_buffer5)) →
       agents (out_server o') !! other = agents (out_server o) !! other)
  ∧ out_log o'
    = out_log o
      ++ [EvAgentStep "agent-1";
          EvSaveAgent (agent_id_of (agent_state (sample_agent sample_buffer5)));
          EvStepYield "agent-1"].
Proof.
  apply (@step_success_is_persisted sample_collaborators sample_user
           "agent-1" (PMessage (sample_record "m4" 4))
           (sample_server sample_buffer5) [sample_record "m4" 4]
           (sample_agent sample_buffer5) (sample_agent sample_buffer5)
           sample_usage).
  - reflexivity.
  - vm_compute. reflexivity.
  - reflexivity.
Defined.

(** ** Words of a command line *)

Lemma lower_ascii_space (c : ascii) :
  Py.isspace (Py.lower_ascii c) = Py.isspace c.
Proof. by destruct c as [[] [] [] [] [] [] [] []]. Qed.

Lemma no_space_lower (s : string) : no_space (Py.lower s) = no_space s.
Proof.
  induction s as [|c s IH]; [done|]. simpl.
  by rewrite lower_ascii_space, IH.
Qed.

Lemma rstrip_no_space (s : string) : no_space s = true → Py.rstrip s = s.
Proof.
  induction s as [|c s IH]; [done|]. simpl.
  intros [Hc Hs]%andb_true_iff. rewrite (IH Hs).
  destruct s; [|done]. apply negb_true_iff in Hc. by rewrite Hc.
Qed.

Lemma strip_no_space (s : string) : no_space s = true → Py.strip s = s.
Proof.
  intros Hs. unfold Py.strip.
  assert (Py.lstrip s = s) as ->; [|by apply rstrip_no_space].
  destruct s as [|c s]; [done|]. simpl in *.
  apply andb_true_iff in Hs as [Hc _]. apply negb_true_iff in Hc.
  by rewrite Hc.
Qed.

Lemma split_no_space (s : string) :
  s ≠ "" → no_space s = true → Py.split s = [s].
Proof.
  destruct s as [|c s]; [done|]. intros _.
  revert c. induction s as [|d s IH]; intros c.
  - simpl. intros [Hc _]%andb_true_iff. apply negb_true_iff in Hc.
    by rewrite Hc.
  - intros [Hc Hs]%andb_true_iff. apply negb_true_iff in Hc.
    pose proof Hs as [Hd _]%andb_true_iff. apply negb_true_iff in Hd.
    by rewrite (split_join c d s (String d s) []); [|done|done|apply IH].
Qed.

(** The words of [pop w], for a word [w]. *)
Lemma pop_word_words (w : string) :
  w ≠ "" → no_space w = true →
  Py.split (Py.strip ("pop " +:+ w)) = ["pop"; w].
Proof.
  intros Hne Hw. pose proof (split_no_space w Hne Hw) as Hsplit.
  pose proof (rstrip_no_space w Hw) as Hr.
  destruct w as [|d w]; [done|].
  assert (Py.strip ("pop " +:+ String d w) = "pop " +:+ String d w) as ->.
  { unfold Py.strip.
    change ("pop " +:+ String d w)
      with (String "p" (String "o" (String "p" (String " " (String d w))))).
    change (Py.lstrip (String "p" ?s)) with (String "p" s).
    repeat (apply rstrip_cons; [done|]). exact Hr. }
  change ("pop " +:+ String d w)
    with (String "p" (String "o" (String "p" (String " " (String d w))))).
  rewrite (split_join "p" "o" _ "op" [String d w]); [done..|].
  rewrite (split_join "o" "p" _ "p" [String d w]); [done..|].
  rewrite (split_sep "p" " "); [|done..].
  by rewrite (split_space " "), Hsplit.
Qed.

(** ** More of [_command] *)

Section MoreCommands.
Context `{Collaborators}.

Lemma branches_unknown (actor : User) (user_id agent_id command : string)
    (a : Agent) (s : Server) :
  known_command command = false →
  _command_branches actor user_id agent_id command a s
  = mk_outcome (Return (a, UsageReturn default_usage)) s [].
Proof.
  unfold known_command. rewrite !orb_false_iff.
  intros (((((((((((((H1 & H2) & H3) & H4) & H5) & H6) & H7) & H8) & H9)
                & H10) & H11) & H12) & H13) & H14).
  unfold _command_branches.
  by rewrite H1, H2, H3, H4, H5, H6, H7, H8, H9, H10, H11, H12, H13, H14.
Qed.

Lemma branches_refused (actor : User) (user_id agent_id command : string)
    (a : Agent) (s : Server) :
  Py.lower command = "exit" ∨ Py.lower command = "wipe" →
  _command_branches actor user_id agent_id command a s
  = mk_outcome (Raise (ValueError command)) s [].
Proof.
  intros [Hl|Hl]; unfold _command_branches.
  - by rewrite Hl.
  - assert (Py.lower command = "wipe" +:+ "") as Hl' by done.
    rewrite !(is_command_false _ _ _ _ Hl') by reflexivity.
    by rewrite Hl.
Qed.

Lemma branches_dump (actor : User) (user_id agent_id command : string)
    (a : Agent) (s : Server) :
  is_command command "dump" = true →
  _command_branches actor user_id agent_id command a s
  = match amount_argument (Py.split (Py.strip command)) 0 with
    | Return amount =>
        mk_outcome (Return (a, UsageReturn default_usage)) s
          [EvPrintMessages
             (if Nat.eqb amount 0 then messages a
              else Py.slice_last (Nat.min amount (length (messages a)))
                     (messages a))]
    | Raise e => mk_outcome (Raise e) s []
    end.
Proof.
  intros Hc. destruct (is_command_lower _ _ Hc) as [rest Hl].
  unfold _command_branches.
  rewrite !(eqb_lower_false _ _ _ _ Hl) by reflexivity.
  rewrite Hc. cbn zeta.
  unfold mbind, M_bind, bind, lift. simpl.
  destruct (amount_argument (Py.split (Py.strip command)) 0) as [e|amount];
    [done|].
  by destruct (Nat.eqb amount 0).
Qed.

Lemma slice_last_min {A} (n : nat) (l : list A) :
  n ≠ 0 → Py.slice_last (Nat.min n (length l)) l = drop (length l - n) l.
Proof.
  intros Hn. unfold Py.slice_last.
  destruct (Nat.eqb_spec (Nat.min n (length l)) 0) as [Hz|Hnz].
  - assert (length l = 0) as Hl by lia. by destruct l.
  - f_equal. lia.
Qed.

Lemma attach_words (command : string) :
  Py.lower command = "attach" → Py.split (Py.strip command) = [command].
Proof.
  intros Hl.
  assert (no_space command = true) as Hns.
  { by rewrite <- no_space_lower, Hl. }
  rewrite (strip_no_space _ Hns). apply split_no_space; [|done].
  intros ->. done.
Qed.

Lemma branches_attach (actor : User) (user_id agent_id command : string)
    (a : Agent) (s : Server) :
  Py.lower command = "attach" →
  _command_branches actor user_id agent_id command a s
  = mk_outcome (Raise (ValueError (repr_words [command]))) s [].
Proof.
  intros Hl. unfold _command_branches.
  rewrite (attach_words _ Hl). by rewrite Hl.
Qed.

(** X7: A command that no branch recognises does nothing: [_command] loads the
    agent, leaves it and its buffer as loaded, and returns the default
    (zero) usage statistics. *)
Theorem unknown_command_does_nothing
    (user_id agent_id command : string) (s : Server) (a : Agent) :
  let o := load_agent agent_id (actor_of s user_id) s in
  out_result o = Return a →
  known_command command = false →
  _command user_id agent_id command s
  = mk_outcome (Return (a, UsageReturn default_usage))
      (out_server o) (out_log o).
Proof.
  cbn zeta. intros Hload Hc. rewrite (_command_loaded _ _ _ _ _ Hload).
  cbn zeta. rewrite branches_unknown by done.
  cbn [out_result out_server out_log]. by rewrite app_nil_r.
Qed.

(** X8: [exit] and [wipe], in any letter case, are refused with a [ValueError]
    that carries the command as typed; the agent has been loaded (and saved
    by the load) before the refusal. *)
Theorem exit_and_wipe_are_refused
    (user_id agent_id command : string) (s : Server) (a : Agent) :
  let o := load_agent agent_id (actor_of s user_id) s in
  out_result o = Return a →
  Py.lower command = "exit" ∨ Py.lower command = "wipe" →
  _command user_id agent_id command s
  = mk_outcome (Raise (ValueError command)) (out_server o) (out_log o).
Proof.
  cbn zeta. intros Hload Hc. rewrite (_command_loaded _ _ _ _ _ Hload).
  cbn zeta. rewrite branches_refused by done.
  cbn [out_result out_server out_log]. by rewrite app_nil_r.
Qed.

(** X9: The [attach] branch is entered only by the bare word, so the source
    argument it reads at index 1 is never there: the command always raises,
    a [ValueError] once the agent is loaded, and no source is ever
    attached. *)
Theorem attach_command_always_raises
    (user_id agent_id command : string) (s : Server) :
  Py.lower command = "attach" →
  match out_result (load_agent agent_id (actor_of s user_id) s) with
  | Return _ =>
      out_result (_command user_id agent_id command s)
      = Raise (ValueError (repr_words [command]))
  | Raise e => out_result (_command user_id agent_id command s) = Raise e
  end
  ∧ ∀ i n, EvAttachSource i n ∉ out_log (_command user_id agent_id command s).
Proof.
  intros Hc.
  assert (∀ i n, EvAttachSource i n
                 ∉ out_log (load_agent agent_id (actor_of s user_id) s))
    as Hlog.
  { intros i n.
    destruct (load_agent_cases agent_id (actor_of s user_id) s)
      as [(e & _ & ->)|(a & _ & ->)];
      unfold load_log_raise, load_log_return; intros Hin;
      repeat (apply elem_of_cons in Hin as [Hin|Hin]; [done|]);
      by apply elem_of_nil in Hin. }
  destruct (out_result (load_agent agent_id (actor_of s user_id) s))
    as [e|a] eqn:Hload.
  - split; [by apply _command_not_loaded|].
    by rewrite (_command_log_not_loaded _ _ _ _ _ Hload).
  - rewrite (_command_loaded _ _ _ _ _ Hload). cbn zeta.
    rewrite branches_attach by done. cbn [out_result out_log].
    split; [done|]. by rewrite app_nil_r.
Qed.

(** X10: [dump] is read-only, and on a loaded agent it does one of three
    things, by the second word of the command line.  With no second word,
    or one that is not a digit string, it prints the whole buffer.  With a
    string of decimal digits that write n, it prints the whole buffer when
    n = 0 and otherwise the buffer without its first [length - n] messages
    (all of it once n reaches the length).  With a digit string that holds
    a superscript digit, [int] raises [ValueError] and nothing is printed.
    In the first two cases the agent is returned as loaded with default
    usage statistics; in all three the server is as the load left it. *)
Theorem dump_is_read_only
    (user_id agent_id command : string) (s : Server) (a : Agent) :
  let o := load_agent agent_id (actor_of s user_id) s in
  let run := _command user_id agent_id command s in
  let second := Py.split (Py.strip command) !! 1 in
  let prints (printed : list MessageDict) :=
    run = mk_outcome (Return (a, UsageReturn default_usage)) (out_server o)
            (out_log o ++ [EvPrintMessages printed]) in
  out_result o = Return a →
  is_command command "dump" = true →
  out_server run = out_server o
  ∧ (second = None ∨ (∃ w, second = Some w ∧ Py.isdigit w = false) →
     prints (messages a))
  ∧ (∀ w, second = Some w → Py.isdecimal w = true →
     prints (if Nat.eqb (Py.int w) 0 then messages a
             else drop (length (messages a) - Py.int w) (messages a)))
  ∧ (∀ w, second = Some w → Py.isdigit w = true → Py.isdecimal w = false →
     ∃ msg, run = mk_outcome (Raise (ValueError msg)) (out_server o) (out_log o)).
Proof.
  cbn zeta. intros Hload Hc. rewrite (_command_loaded _ _ _ _ _ Hload).
  cbn zeta. rewrite branches_dump by done. unfold amount_argument.
  destruct (Py.split (Py.strip command) !! 1) as [w|] eqn:Hw.
  - unfold int_of_digits.
    destruct (Py.isdigit w) eqn:Hd; [destruct (Py.isdecimal w) eqn:Hdec|];
      cbn [out_result out_server out_log].
    + split; [done|]. split.
      { intros [Hn|(w' & Hw' & Hd')]; [done|]. congruence. }
      split; [|intros w' Hw'; congruence].
      intros w' [= <-] _.
      destruct (Nat.eqb_spec (Py.int w) 0) as [Hz|Hnz]; [done|].
      by rewrite slice_last_min.
    + split; [done|]. split.
      { intros [Hn|(w' & Hw' & Hd')]; [done|]. congruence. }
      split; [intros w' Hw'; congruence|].
      intros w' _ _ _. rewrite app_nil_r. by eexists.
    + split; [done|]. split; [done|].
      split; intros w' [= <-] Hd'; [|congruence].
      by rewrite (isdecimal_isdigit _ Hd') in Hd.
  - cbn [out_result out_server out_log].
    split; [done|]. split; [done|]. split; intros w' Hw'; congruence.
Qed.

(** X11: [pop w] with a word [w] that is not a digit string (a name, a negative
    or a fractional number) pops the default amount of 3; with a digit
    string that holds a superscript digit, [int] raises [ValueError] and
    the command fails. *)
Theorem pop_with_bad_amount_pops_three
    (user_id agent_id w : string) (s : Server) (a : Agent) :
  out_result (load_agent agent_id (actor_of s user_id) s) = Return a →
  w ≠ "" → no_space w = true →
  (Py.isdigit w = false →
   buffer_after (_command user_id agent_id ("pop " +:+ w) s)
   = Some (popped 3 (messages a)))
  ∧ (Py.isdigit w = true → Py.isdecimal w = false →
     ∃ msg, out_result (_command user_id agent_id ("pop " +:+ w) s)
            = Raise (ValueError msg)).
Proof.
  intros Hload Hne Hw. rewrite (_command_loaded _ _ _ _ _ Hload).
  cbn zeta. rewrite branches_pop by apply pop_line_is_command.
  rewrite (pop_word_words w Hne Hw). unfold amount_argument, int_of_digits.
  cbn [lookup list_lookup]. split.
  - intros ->. unfold buffer_after. cbn [out_result set_messages messages].
    by rewrite pop_command_eq.
  - intros -> ->. cbn [out_result]. by eexists.
Qed.

(** X12: [run_command] removes one leading "/" and no more: a command line
    without the prefix, or with one, reaches [_command] without it; a line
    with a doubled prefix reaches it with one "/" left, which no branch
    recognises, so it is silently accepted and does nothing. *)
Theorem run_command_strips_only_one_slash
    (user_id agent_id command : string) (s : Server) (a : Agent) :
  let o := load_agent agent_id (actor_of s user_id) s in
  out_result o = Return a →
  command ≠ "" →
  Py.startswith command "/" = false →
  run_command user_id agent_id command s = _command user_id agent_id command s
  ∧ run_command user_id agent_id ("/" +:+ command) s
    = _command user_id agent_id command s
  ∧ run_command user_id agent_id ("//" +:+ command) s
    = mk_outcome (Return (a, UsageReturn default_usage))
        (out_server o) (out_log o).
Proof.
  cbn zeta. intros Hload Hne Hp. split; [|split].
  - unfold run_command. by rewrite Hp.
  - by destruct command.
  - assert (run_command user_id agent_id ("//" +:+ command)
            = _command user_id agent_id ("/" +:+ command)) as ->.
    { by destruct command. }
    rewrite (_command_loaded _ _ _ _ _ Hload). cbn zeta.
    rewrite branches_unknown by reflexivity.
    cbn [out_result out_server out_log]. by rewrite app_nil_r.
Qed.

End MoreCommands.

Lemma unknown_command_does_nothing_witness :
  let o := @load_agent sample_collaborators "agent-1"
             (actor_of (sample_server sample_buffer5) "user-1")
             (sample_server sample_buffer5) in
  @_command sample_collaborators "user-1" "agent-1" "undo"
    (sample_server sample_buffer5)
  = mk_outcome (Return (sample_agent sample_buffer5, UsageReturn default_usage))
      (out_server o) (out_log o).
Proof.
  apply (@unknown_command_does_nothing sample_collaborators "user-1" "agent-1"
           "undo" (sample_server sample_buffer5) (sample_agent sample_buffer5)).
  - vm_compute. reflexivity.
  - reflexivity.
Defined.

Lemma exit_and_wipe_are_refused_witness :
  let o := @load_agent sample_collaborators "agent-1"
             (actor_of (sample_server sample_buffer5) "user-1")
             (sample_server sample_buffer5) in
  @_command sample_collaborators "user-1" "agent-1" "Exit"
    (sample_server sample_buffer5)
  = mk_outcome (Raise (ValueError "Exit")) (out_server o) (out_log o).
Proof.
  apply (@exit_and_wipe_are_refused sample_collaborators "user-1" "agent-1"
           "Exit" (sample_server sample_buffer5) (sample_agent sample_buffer5)).
  - vm_compute. reflexivity.
  - left. reflexivity.
Defined.

Lemma attach_command_always_raises_witness :
  match out_result (@load_agent sample_collaborators "agent-1"
                      (actor_of (sample_server sample_buffer5) "user-1")
                      (sample_server sample_buffer5)) with
  | Return _ =>
      out_result (@_command sample_collaborators "user-1" "agent-1" "attach"
                    (sample_server sample_buffer5))
      = Raise (ValueError (repr_words ["attach"]))
  | Raise e =>
      out_result (@_command sample_collaborators "user-1" "agent-1" "attach"
                    (sample_server sample_buffer5)) = Raise e
  end
  ∧ ∀ i n, EvAttachSource i n
           ∉ out_log (@_command sample_collaborators "user-1" "agent-1"
                        "attach" (sample_server sample_buffer5)).
Proof.
  apply (@attach_command_always_raises sample_collaborators "user-1" "agent-1"
           "attach" (sample_server sample_buffer5)).
  reflexivity.
Defined.

Lemma dump_is_read_only_witness :
  let o := @load_agent sample_collaborators "agent-1"
             (actor_of (sample_server sample_buffer5) "user-1")
             (sample_server sample_buffer5) in
  @_command sample_collaborators "user-1" "agent-1" "dump 2"
    (sample_server sample_buffer5)
  = mk_outcome (Return (sample_agent sample_buffer5, UsageReturn default_usage))
      (out_server o)
      (out_log o ++ [EvPrintMessages [sample_message "tool" "T";
                                      sample_message "assistant" "B"]])
  ∧ ∃ msg, @_command sample_collaborators "user-1" "agent-1"
             ("dump " +:+ superscript_two) (sample_server sample_buffer5)
           = mk_outcome (Raise (ValueError msg)) (out_server o) (out_log o).
Proof.
  split.
  - apply (proj1 (proj2 (proj2
             (@dump_is_read_only sample_collaborators "user-1" "agent-1"
                "dump 2" (sample_server sample_buffer5)
                (sample_agent sample_buffer5)
                ltac:(vm_compute; reflexivity) ltac:(reflexivity))))
             "2"); reflexivity.
  - apply (proj2 (proj2 (proj2
             (@dump_is_read_only sample_collaborators "user-1" "agent-1"
                ("dump " +:+ superscript_two) (sample_server sample_buffer5)
                (sample_agent sample_buffer5)
                ltac:(vm_compute; reflexivity) ltac:(reflexivity))))
             superscript_two); reflexivity.
Defined.

Lemma pop_with_bad_amount_pops_three_witness :
  buffer_after (@_command sample_collaborators "user-1" "agent-1"
                  ("pop " +:+ "-1") (sample_server sample_buffer5))
  = Some (popped 3 (messages (sample_agent sample_buffer5)))
  ∧ ∃ msg, out_result (@_command sample_collaborators "user-1" "agent-1"
                         ("pop " +:+ superscript_two)
                         (sample_server sample_buffer5))
           = Raise (ValueError msg).
Proof.
  split.
  - apply (proj1 (@pop_with_bad_amount_pops_three sample_collaborators
                    "user-1" "agent-1" "-1" (sample_server sample_buffer5)
                    (sample_agent sample_buffer5)
                    ltac:(vm_compute; reflexivity) ltac:(discriminate)
                    ltac:(reflexivity)));
      reflexivity.
  - apply (proj2 (@pop_with_bad_amount_pops_three sample_collaborators
                    "user-1" "agent-1" superscript_two
                    (sample_server sample_buffer5)
                    (sample_agent sample_buffer5)
                    ltac:(vm_compute; reflexivity) ltac:(discriminate)
                    ltac:(reflexivity)));
      reflexivity.
Defined.

Lemma run_command_strips_only_one_slash_witness :
  let o := @load_agent sample_collaborators "agent-1"
             (actor_of (sample_server sample_buffer5) "user-1")
             (sample_server sample_buffer5) in
  @run_command sample_collaborators "user-1" "agent-1" "retry"
    (sample_server sample_buffer5)
  = @_command sample_collaborators "user-1" "agent-1" "retry"
      (sample_server sample_buffer5)
  ∧ @run_command sample_collaborators "user-1" "agent-1" ("/" +:+ "retry")
      (sample_server sample_buffer5)
    = @_command sample_collaborators "user-1" "agent-1" "retry"
        (sample_server sample_buffer5)
  ∧ @run_command sample_collaborators "user-1" "agent-1" ("//" +:+ "retry")
      (sample_server sample_buffer5)
    = mk_outcome
        (Return (sample_agent sample_buffer5, UsageReturn default_usage))
        (out_server o) (out_log o).
Proof.
  apply (@run_command_strips_only_one_slash sample_collaborators "user-1"
           "agent-1" "retry" (sample_server sample_buffer5)
           (sample_agent sample_buffer5)).
  - vm_compute. reflexivity.
  - discriminate.
  - reflexivity.
Defined.

(** ** More of the message entry points *)

Section MoreEntryPoints.
Context `{Collaborators}.

(** The calls of [_step] that name its parameters bind. *)
Lemma call__step_binds (actor : User) (agent_id : string)
    (input_messages : pyarg) :
  call__step [("actor", PUser actor); ("agent_id", PStr agent_id);
              ("input_messages", input_messages)]
  = _step actor agent_id input_messages.
Proof. reflexivity. Qed.

Lemma call__step_binds_interface (actor : User) (agent_id : string)
    (input_messages interface : pyarg) :
  call__step [("actor", PUser actor); ("agent_id", PStr agent_id);
              ("input_messages", input_messages); ("interface", interface)]
  = _step actor agent_id input_messages.
Proof. reflexivity. Qed.

Lemma door_user_found (user_id msg : string) (s : Server) (u : User) :
  users s !! user_id = Some u →
  try_except (get_user_by_id user_id) is_NoResultFound
    (λ _, raise (ValueError msg)) s
  = mk_outcome (Return u) s [].
Proof. intros Hu. by rewrite door_user, Hu. Qed.

Lemma door_agent_found (agent_id msg : string) (s : Server) (st : AgentState) :
  agents s !! agent_id = Some st →
  try_except (get_agent_by_id agent_id) is_NoResultFound
    (λ _, raise (ValueError msg)) s
  = mk_outcome (Return (Some st)) s [EvGetAgent agent_id].
Proof. intros Ha. by rewrite door_agent, Ha. Qed.

Lemma prepend_nil {A} (o : outcome A) : prepend [] o = o.
Proof. by destruct o. Qed.

(** X13: A non-empty string that does not start with "/" reaches [_step] as one
    message of role user for the agent, whose text is the packaged string
    and whose creation time is the timestamp of the call (the current time
    without one). *)
Theorem user_message_packages_text
    (user_id agent_id message : string) (timestamp : option Z) (s : Server)
    (u : User) :
  users s !! user_id = Some u →
  is_Some (agents s !! agent_id) →
  message ≠ "" →
  Py.startswith message "/" = false →
  user_message user_id agent_id (MsgStr message) timestamp s
  = prepend [EvGetAgent agent_id]
      (_step u agent_id
         (PMessage {| msg_id := fresh_message_id; msg_agent_id := agent_id;
                      msg_role := "user";
                      text := Some (package_user_message message
                                      (isoformat <$> timestamp));
                      created_at := default utc_now timestamp |}) s).
Proof.
  intros Hu [st Hst] Hne Hp. unfold user_message.
  rewrite (bind_return _ _ _ _ _ _ (door_user_found _ _ _ _ Hu)), prepend_nil.
  rewrite (bind_return _ _ _ _ _ _ (door_agent_found _ _ _ _ Hst)).
  f_equal.
  assert (Nat.eqb (String.length message) 0 = false) as ->.
  { by destruct message. }
  rewrite Hp.
  erewrite bind_return; [|reflexivity].
  by rewrite prepend_nil, call__step_binds.
Qed.

(** X14: [user_message] does not look into a [Message] object: whatever its
    text -- empty, missing or starting with "/" -- it is handed to [_step]
    as it is, and the timestamp of the call is ignored. *)
Theorem user_message_passes_objects_unchecked
    (user_id agent_id : string) (m : Message) (timestamp : option Z)
    (s : Server) (u : User) :
  users s !! user_id = Some u →
  is_Some (agents s !! agent_id) →
  user_message user_id agent_id (MsgObj m) timestamp s
  = prepend [EvGetAgent agent_id] (_step u agent_id (PMessage m) s).
Proof.
  intros Hu [st Hst]. unfold user_message.
  rewrite (bind_return _ _ _ _ _ _ (door_user_found _ _ _ _ Hu)), prepend_nil.
  rewrite (bind_return _ _ _ _ _ _ (door_agent_found _ _ _ _ Hst)).
  by f_equal.
Qed.

(** X15: [system_message] does check a [Message] object: one whose text is
    missing, empty or starts with "/" is refused with a [ValueError] before
    any lock is taken and with the server unchanged. *)
Theorem system_message_checks_objects
    (user_id agent_id : string) (m : Message) (timestamp : option Z)
    (s : Server) :
  text m = None ∨ text m = Some ""
  ∨ (∃ t, text m = Some t ∧ Py.startswith t "/" = true) →
  rejected_before_lock
    (system_message user_id agent_id (MsgObj m) timestamp s) s.
Proof.
  intros Hbad. unfold system_message.
  pose proof (door_user user_id
                ("User user_id=" +:+ user_id +:+ " does not exist") s) as Hu.
  pose proof (door_agent agent_id
                ("Agent agent_id=" +:+ agent_id +:+ " does not exist") s) as Ha.
  assert (∀ l : list event, (∀ i, EvLockAcquire i ∉ EvGetAgent agent_id :: l)
                            ↔ (∀ i, EvLockAcquire i ∉ l)) as Hlog.
  { intros l. split; intros Hl i Hin.
    - apply (Hl i). apply elem_of_cons. by right.
    - apply elem_of_cons in Hin as [?|Hin]; [done|]. by apply (Hl i). }
  assert (∀ i, EvLockAcquire i ∉ @nil event) as Hnil.
  { intros i Hin. by apply elem_of_nil in Hin. }
  destruct (users s !! user_id) as [u|].
  2: { rewrite (bind_raise _ _ _ _ _ _ Hu). repeat split; eauto. }
  rewrite (bind_return _ _ _ _ _ _ Hu), prepend_nil.
  destruct (agents s !! agent_id) as [st|].
  2: { rewrite (bind_raise _ _ _ _ _ _ Ha). repeat split; eauto.
       by apply Hlog. }
  rewrite (bind_return _ _ _ _ _ _ Ha).
  erewrite bind_return; [|reflexivity]. rewrite prepend_nil.
  unfold rejected_before_lock, prepend. cbn [out_result out_server out_log].
  destruct Hbad as [->|[->|(t & -> & Ht)]].
  - repeat split; eauto. by apply Hlog.
  - repeat split; eauto. by apply Hlog.
  - destruct (Nat.eqb (String.length t) 0); [|rewrite Ht];
      repeat split; eauto; by apply Hlog.
Qed.

(** X16: A [Message] object that passes the check reaches [_step] with its
    creation time replaced by the timestamp of the call, when there is
    one. *)
Theorem system_message_overrides_timestamp
    (user_id agent_id : string) (m : Message) (t : string)
    (timestamp : option Z) (s : Server) (u : User) :
  users s !! user_id = Some u →
  is_Some (agents s !! agent_id) →
  text m = Some t → t ≠ "" → Py.startswith t "/" = false →
  system_message user_id agent_id (MsgObj m) timestamp s
  = prepend [EvGetAgent agent_id]
      (_step u agent_id
         (PMessage {| msg_id := msg_id m; msg_agent_id := msg_agent_id m;
                      msg_role := msg_role m; text := text m;
                      created_at := default (created_at m) timestamp |}) s).
Proof.
  intros Hu [st Hst] Ht Hne Hp. unfold system_message.
  rewrite (bind_return _ _ _ _ _ _ (door_user_found _ _ _ _ Hu)), prepend_nil.
  rewrite (bind_return _ _ _ _ _ _ (door_agent_found _ _ _ _ Hst)).
  f_equal. erewrite bind_return; [|reflexivity]. rewrite prepend_nil.
  rewrite Ht.
  assert (Nat.eqb (String.length t) 0 = false) as ->.
  { by destruct t. }
  rewrite Hp, call__step_binds.
  destruct timestamp as [ts|]; unfold set_created_at; cbn [default];
    [by rewrite Ht|].
  destruct m; cbn in *. by rewrite Ht.
Qed.

End MoreEntryPoints.

Lemma user_message_packages_text_witness :
  @user_message sample_collaborators "user-1" "agent-1" (MsgStr "hello")
    (Some 5%Z) (sample_server sample_buffer5)
  = prepend [EvGetAgent "agent-1"]
      (@_step sample_collaborators sample_user "agent-1"
         (PMessage {| msg_id := @fresh_message_id sample_collaborators;
                      msg_agent_id := "agent-1"; msg_role := "user";
                      text := Some (@package_user_message sample_collaborators
                                      "hello"
                                      (@isoformat sample_collaborators
                                         <$> Some 5%Z));
                      created_at := default (@utc_now sample_collaborators)
                                      (Some 5%Z) |})
         (sample_server sample_buffer5)).
Proof.
  apply (@user_message_packages_text sample_collaborators "user-1" "agent-1"
           "hello" (Some 5%Z) (sample_server sample_buffer5) sample_user).
  - reflexivity.
  - eexists. reflexivity.
  - discriminate.
  - reflexivity.
Defined.

Lemma user_message_passes_objects_unchecked_witness :
  @user_message sample_collaborators "user-1" "agent-1"
    (MsgObj (sample_record "/exit" 4)) (Some 9%Z) (sample_server sample_buffer5)
  = prepend [EvGetAgent "agent-1"]
      (@_step sample_collaborators sample_user "agent-1"
         (PMessage (sample_record "/exit" 4)) (sample_server sample_buffer5)).
Proof.
  apply (@user_message_passes_objects_unchecked sample_collaborators "user-1"
           "agent-1" (sample_record "/exit" 4) (Some 9%Z)
           (sample_server sample_buffer5) sample_user).
  - reflexivity.
  - eexists. reflexivity.
Defined.

Lemma system_message_checks_objects_witness :
  rejected_before_lock
    (@system_message sample_collaborators "user-1" "agent-1"
       (MsgObj (sample_record "/exit" 4)) None (sample_server sample_buffer5))
    (sample_server sample_buffer5).
Proof.
  apply (@system_message_checks_objects sample_collaborators "user-1"
           "agent-1" (sample_record "/exit" 4) None
           (sample_server sample_buffer5)).
  right. right. exists "/exit". split; reflexivity.
Defined.

Lemma system_message_overrides_timestamp_witness :
  @system_message sample_collaborators "user-1" "agent-1"
    (MsgObj (sample_record "m4" 4)) (Some 9%Z) (sample_server sample_buffer5)
  = prepend [EvGetAgent "agent-1"]
      (@_step sample_collaborators sample_user "agent-1"
         (PMessage {| msg_id := msg_id (sample_record "m4" 4);
                      msg_agent_id := msg_agent_id (sample_record "m4" 4);
                      msg_role := msg_role (sample_record "m4" 4);
                      text := text (sample_record "m4" 4);
                      created_at := default (created_at (sample_record "m4" 4))
                                      (Some 9%Z) |})
         (sample_server sample_buffer5)).
Proof.
  apply (@system_message_overrides_timestamp sample_collaborators "user-1"
           "agent-1" (sample_record "m4" 4) "m4" (Some 9%Z)
           (sample_server sample_buffer5) sample_user).
  - reflexivity.
  - eexists. reflexivity.
  - reflexivity.
  - discriminate.
  - reflexivity.
Defined.

(** ** [send_messages] *)

Section SendMessages.
Context `{Collaborators}.

Lemma omap_as_SendMessage (ms : list Message) :
  omap as_SendMessage (SendMessage <$> ms) = ms.
Proof. induction ms as [|m ms IH]; [done|]. cbn. by f_equal. Qed.

Lemma omap_as_SendCreate (mcs : list MessageCreate) :
  omap as_SendCreate (SendCreate <$> mcs) = mcs.
Proof. induction mcs as [|m ms IH]; [done|]. cbn. by f_equal. Qed.

Lemma forallb_SendMessage (ms : list Message) :
  forallb is_SendMessage (SendMessage <$> ms) = true.
Proof. by induction ms. Qed.

Lemma forallb_SendCreate (mcs : list MessageCreate) :
  forallb is_SendCreate (SendCreate <$> mcs) = true.
Proof. by induction mcs. Qed.

Lemma validate_messages (ms : list Message) :
  validate_input_messages (PList (PMessage <$> ms)) = Return ms.
Proof.
  simpl.
  assert (forallb is_Message (PMessage <$> ms) = true) as ->.
  { by induction ms. }
  f_equal. induction ms as [|m ms IH]; [done|]. cbn. by f_equal.
Qed.

Lemma send_messages_run (actor : User) (agent_id : string)
    (messages : list send_item) (w_user w_system : bool) (s : Server) :
  send_messages actor agent_id messages w_user w_system s
  = match message_objects_of agent_id w_user w_system messages with
    | Raise e => mk_outcome (Raise e) s []
    | Return message_objects =>
        _step actor agent_id (PList (PMessage <$> message_objects)) s
    end.
Proof.
  unfold send_messages.
  destruct (message_objects_of agent_id w_user w_system messages) as [e|ms].
  - by apply bind_raise.
  - erewrite bind_return; [|reflexivity].
    by rewrite prepend_nil, call__step_binds_interface.
Qed.

Lemma wrap_unwrappable (agent_id : string) (w_user w_system : bool)
    (mcs : list MessageCreate) (mc : MessageCreate) :
  mc ∈ mcs → wrappable w_user w_system mc = false →
  ∃ msg, wrap_message_creates agent_id w_user w_system mcs
         = Raise (ValueError msg).
Proof.
  intros Hin Hw. induction mcs as [|m mcs IH]; [by apply elem_of_nil in Hin|].
  simpl.
  destruct (String.eqb (mc_role m) "user" && w_user) eqn:Hu.
  - apply elem_of_cons in Hin as [->|Hin].
    { unfold wrappable in Hw. by rewrite Hu in Hw. }
    destruct (IH Hin) as [msg ->]. by eexists.
  - destruct (String.eqb (mc_role m) "system" && w_system) eqn:Hs.
    + apply elem_of_cons in Hin as [->|Hin].
      { unfold wrappable in Hw. by rewrite Hu, Hs in Hw. }
      destruct (IH Hin) as [msg ->]. by eexists.
    + by eexists.
Qed.

(** X17: [send_messages] refuses its argument with a [ValueError], before the
    agent is loaded and with the server untouched, when the list mixes
    [MessageCreate] and [Message] objects, and when one of its
    [MessageCreate] objects cannot be wrapped: its role is neither user nor
    system, or the wrapping of its role is switched off -- a user message
    with [wrap_user_message=False] is refused, not sent unwrapped. *)
Theorem send_messages_refusals (actor : User) (agent_id : string)
    (messages : list send_item) (wrap_user_message wrap_system_message : bool)
    (s : Server) :
  (forallb is_SendCreate messages = false
   ∧ forallb is_SendMessage messages = false)
  ∨ (∃ mcs mc, messages = SendCreate <$> mcs ∧ mc ∈ mcs
               ∧ wrappable wrap_user_message wrap_system_message mc = false) →
  ∃ msg, send_messages actor agent_id messages wrap_user_message
           wrap_system_message s
         = mk_outcome (Raise (ValueError msg)) s [].
Proof.
  intros Hbad. rewrite send_messages_run. unfold message_objects_of.
  destruct Hbad as [[-> ->]|(mcs & mc & -> & Hin & Hw)]; [by eexists|].
  rewrite forallb_SendCreate, omap_as_SendCreate.
  destruct (wrap_unwrappable agent_id _ _ mcs mc Hin Hw) as [msg ->].
  by eexists.
Qed.

(** X18: A list of [Message] objects is handed to [_step] as it is, in its
    order, and passes the validation of [_step]; this includes the empty
    list, which is not refused: the agent is loaded and stepped with no
    input message. *)
Theorem send_messages_passes_message_objects (actor : User)
    (agent_id : string) (ms : list Message)
    (wrap_user_message wrap_system_message : bool) (s : Server) :
  send_messages actor agent_id (SendMessage <$> ms) wrap_user_message
    wrap_system_message s
  = _step actor agent_id (PList (PMessage <$> ms)) s
  ∧ validate_input_messages (PList (PMessage <$> ms)) = Return ms.
Proof.
  split; [|apply validate_messages].
  rewrite send_messages_run. unfold message_objects_of.
  destruct ms as [|m ms]; [done|].
  change (forallb is_SendCreate (SendMessage <$> m :: ms)) with false.
  cbv iota. by rewrite forallb_SendMessage, omap_as_SendMessage.
Qed.

(** X19: When every [MessageCreate] of the list can be wrapped, [_step] receives
    one message per request, in the same order, with the role of the request
    and the packaged text. *)
Theorem send_messages_wraps_each_request (actor : User) (agent_id : string)
    (mcs : list MessageCreate) (wrap_user_message wrap_system_message : bool)
    (s : Server) :
  forallb (wrappable wrap_user_message wrap_system_message) mcs = true →
  let wrapped (mc : MessageCreate) :=
    Message_new agent_id (mc_role mc)
      (if String.eqb (mc_role mc) "user"
       then package_user_message (mc_text mc) None
       else package_system_message (mc_text mc)) None in
  send_messages actor agent_id (SendCreate <$> mcs) wrap_user_message
    wrap_system_message s
  = _step actor agent_id (PList (PMessage <$> (wrapped <$> mcs))) s.
Proof.
  intros Hw wrapped. rewrite send_messages_run. unfold message_objects_of.
  rewrite forallb_SendCreate, omap_as_SendCreate.
  assert (wrap_message_creates agent_id wrap_user_message wrap_system_message
            mcs = Return (wrapped <$> mcs)) as ->; [|done].
  induction mcs as [|mc mcs IH]; [done|].
  simpl in Hw. apply andb_true_iff in Hw as [Hmc Hw].
  simpl. rewrite (IH Hw). unfold wrappable in Hmc. unfold wrapped.
  destruct (String.eqb_spec (mc_role mc) "user") as [Hu|Hu],
    wrap_user_message,
    (String.eqb_spec (mc_role mc) "system") as [Hs|Hs], wrap_system_message;
    simpl in *; try done; congruence.
Qed.

End SendMessages.

Lemma send_messages_refusals_witness :
  ∃ msg, @send_messages sample_collaborators sample_user "agent-1"
           [SendCreate {| mc_role := "user"; mc_text := "hi";
                          mc_name := None |}]
           false true (sample_server sample_buffer5)
         = mk_outcome (Raise (ValueError msg)) (sample_server sample_buffer5) [].
Proof.
  apply (@send_messages_refusals sample_collaborators sample_user "agent-1"
           [SendCreate {| mc_role := "user"; mc_text := "hi";
                          mc_name := None |}]
           false true (sample_server sample_buffer5)).
  right. exists [{| mc_role := "user"; mc_text := "hi"; mc_name := None |}],
    {| mc_role := "user"; mc_text := "hi"; mc_name := None |}.
  split; [reflexivity|]. split; [|reflexivity].
  apply elem_of_cons. by left.
Defined.

Lemma send_messages_wraps_each_request_witness :
  let wrapped (mc : MessageCreate) :=
    @Message_new sample_collaborators "agent-1" (mc_role mc)
      (if String.eqb (mc_role mc) "user"
       then @package_user_message sample_collaborators (mc_text mc) None
       else @package_system_message sample_collaborators (mc_text mc)) None in
  @send_messages sample_collaborators sample_user "agent-1"
    (SendCreate <$> [{| mc_role := "user"; mc_text := "hi"; mc_name := None |};
                     {| mc_role := "system"; mc_text := "note";
                        mc_name := None |}])
    true true (sample_server sample_buffer5)
  = @_step sample_collaborators sample_user "agent-1"
      (PList (PMessage
                <$> (wrapped
                       <$> [{| mc_role := "user"; mc_text := "hi";
                               mc_name := None |};
                            {| mc_role := "system"; mc_text := "note";
                               mc_name := None |}])))
      (sample_server sample_buffer5).
Proof.
  apply (@send_messages_wraps_each_request sample_collaborators sample_user
           "agent-1"
           [{| mc_role := "user"; mc_text := "hi"; mc_name := None |};
            {| mc_role := "system"; mc_text := "note"; mc_name := None |}]
           true true (sample_server sample_buffer5)).
  reflexivity.
Defined.

(** ** The tool list of an agent *)

Section ToolLists.
Variable get_tool_by_id : string → option AgentTool.

Lemma refetch_ids (tool_id : string) (tools r : list AgentTool) :
  consistent_tool_table get_tool_by_id →
  refetch_other_tools get_tool_by_id tool_id tools = Return r →
  at_id <$> r = filter (λ i, i ≠ tool_id) (at_id <$> tools)
  ∧ Forall (λ t, get_tool_by_id (at_id t) = Some t) r.
Proof.
  intros Hc. revert r. induction tools as [|t tools IH]; intros r.
  - intros [= <-]. by split.
  - cbn [refetch_other_tools].
    destruct (get_tool_by_id (at_id t)) as [obj|] eqn:Hobj; [|done].
    destruct (refetch_other_tools get_tool_by_id tool_id tools) as [e|r'];
      [done|].
    destruct (IH r' eq_refl) as [Hids Hall].
    pose proof (Hc _ _ Hobj) as Hid.
    rewrite fmap_cons, filter_cons.
    destruct (String.eqb_spec (at_id obj) tool_id) as [Heq|Hne];
      intros [= <-].
    + rewrite decide_False by (intros ?; congruence). by split.
    + rewrite decide_True by congruence. split.
      * rewrite fmap_cons, Hids. by f_equal.
      * constructor; [by rewrite Hid|done].
Qed.

Lemma refetch_fixed (tool_id : string) (r : list AgentTool) :
  Forall (λ t, get_tool_by_id (at_id t) = Some t) r →
  tool_id ∉ (at_id <$> r) →
  refetch_other_tools get_tool_by_id tool_id r = Return r.
Proof.
  induction r as [|t r IH]; [done|].
  intros Hall Hnot. apply Forall_cons in Hall as [Ht Hall].
  rewrite fmap_cons in Hnot. apply not_elem_of_cons in Hnot as [Hne Hnot].
  simpl. rewrite Ht, (IH Hall Hnot).
  destruct (String.eqb_spec (at_id t) tool_id); [congruence|done].
Qed.

Lemma not_in_filter_ne (tool_id : string) (ids : list string) :
  tool_id ∉ filter (λ i, i ≠ tool_id) ids.
Proof. intros [Hne _]%list_elem_of_filter. done. Qed.

(** X20: When [remove_tool_from_agent] succeeds, every entry with the id is gone,
    the other tools keep their order, and each tool kept is the object that
    the tool manager holds for its id. *)
Theorem remove_tool_removes_every_entry (tool_id : string)
    (tools r : list AgentTool) :
  consistent_tool_table get_tool_by_id →
  remove_tool_from_agent_tools get_tool_by_id tool_id tools = Return r →
  at_id <$> r = filter (λ i, i ≠ tool_id) (at_id <$> tools)
  ∧ (tool_id ∉ at_id <$> r)
  ∧ Forall (λ t, get_tool_by_id (at_id t) = Some t) r.
Proof.
  intros Hc Hr. destruct (refetch_ids _ _ _ Hc Hr) as [Hids Hall].
  split; [done|]. split; [|done]. rewrite Hids. apply not_in_filter_ne.
Qed.

Lemma add_tool_ids (tool_id : string) (tools r : list AgentTool) :
  consistent_tool_table get_tool_by_id →
  add_tool_to_agent_tools get_tool_by_id tool_id tools = Return r →
  at_id <$> r = tool_id :: filter (λ i, i ≠ tool_id) (at_id <$> tools).
Proof.
  intros Hc. unfold add_tool_to_agent_tools.
  destruct (get_tool_by_id tool_id) as [obj|] eqn:Hobj; [|done].
  destruct (refetch_other_tools get_tool_by_id tool_id tools) as [e|r']
    eqn:Hr'; [done|].
  intros [= <-]. destruct (refetch_ids _ _ _ Hc Hr') as [Hids Hall].
  by rewrite fmap_cons, Hids, (Hc _ _ Hobj).
Qed.

(** X21: When [add_tool_to_agent] succeeds, the tool is at the head of the list
    and occurs only there, an entry that the agent already had for this id
    being dropped; the other tools follow in their order. *)
Theorem add_tool_puts_tool_first_once (tool_id : string)
    (tools r : list AgentTool) :
  consistent_tool_table get_tool_by_id →
  add_tool_to_agent_tools get_tool_by_id tool_id tools = Return r →
  at_id <$> r = tool_id :: filter (λ i, i ≠ tool_id) (at_id <$> tools)
  ∧ (∃ t rest, r = t :: rest ∧ get_tool_by_id tool_id = Some t
               ∧ tool_id ∉ (at_id <$> rest)).
Proof.
  intros Hc. unfold add_tool_to_agent_tools.
  destruct (get_tool_by_id tool_id) as [obj|] eqn:Hobj; [|done].
  destruct (refetch_other_tools get_tool_by_id tool_id tools) as [e|r']
    eqn:Hr'; [done|].
  intros [= <-]. destruct (refetch_ids _ _ _ Hc Hr') as [Hids Hall].
  split.
  - by rewrite fmap_cons, Hids, (Hc _ _ Hobj).
  - exists obj, r'. split; [done|]. split; [done|].
    rewrite Hids. apply not_in_filter_ne.
Qed.

(** X22: Adding a tool twice is adding it once, and removing a tool that has just
    been added gives what removing it from the first list gives. *)
Theorem add_tool_is_idempotent (tool_id : string)
    (tools r : list AgentTool) :
  consistent_tool_table get_tool_by_id →
  add_tool_to_agent_tools get_tool_by_id tool_id tools = Return r →
  add_tool_to_agent_tools get_tool_by_id tool_id r = Return r
  ∧ remove_tool_from_agent_tools get_tool_by_id tool_id r
    = remove_tool_from_agent_tools get_tool_by_id tool_id tools.
Proof.
  intros Hc. unfold add_tool_to_agent_tools, remove_tool_from_agent_tools.
  destruct (get_tool_by_id tool_id) as [obj|] eqn:Hobj; [|done].
  destruct (refetch_other_tools get_tool_by_id tool_id tools) as [e|r']
    eqn:Hr'; [done|].
  intros [= <-]. destruct (refetch_ids _ _ _ Hc Hr') as [Hids Hall].
  assert (tool_id ∉ (at_id <$> r')) as Hnot.
  { rewrite Hids. apply not_in_filter_ne. }
  pose proof (Hc _ _ Hobj) as Hid.
  assert (refetch_other_tools get_tool_by_id tool_id (obj :: r') = Return r')
    as Hre.
  { simpl. rewrite Hid, Hobj, (refetch_fixed _ _ Hall Hnot), Hid.
    by rewrite String.eqb_refl. }
  by rewrite Hre.
Qed.

(** X23: A tool of the agent that the tool manager no longer knows makes both
    operations fail their assertion, and so does adding an unknown tool:
    nothing is stored. *)
Theorem tool_operations_need_every_tool (tool_id : string)
    (tools : list AgentTool) :
  (get_tool_by_id tool_id = None →
   ∃ msg, add_tool_to_agent_tools get_tool_by_id tool_id tools
          = Raise (AssertionError msg))
  ∧ ((∃ t, t ∈ tools ∧ get_tool_by_id (at_id t) = None) →
     (∃ msg, add_tool_to_agent_tools get_tool_by_id tool_id tools
             = Raise (AssertionError msg))
     ∧ ∃ msg, remove_tool_from_agent_tools get_tool_by_id tool_id tools
              = Raise (AssertionError msg)).
Proof.
  assert ((∃ t, t ∈ tools ∧ get_tool_by_id (at_id t) = None) →
          ∃ msg, refetch_other_tools get_tool_by_id tool_id tools
                 = Raise (AssertionError msg)) as Hre.
  { intros (t & Hin & Hnone). induction tools as [|t' tools IH];
      [by apply elem_of_nil in Hin|].
    simpl. destruct (get_tool_by_id (at_id t')) as [obj|] eqn:Hobj;
      [|by eexists].
    apply elem_of_cons in Hin as [->|Hin]; [congruence|].
    destruct (IH Hin) as [msg ->]. by eexists. }
  split.
  - intros Hnone. unfold add_tool_to_agent_tools. rewrite Hnone. by eexists.
  - intros Hmiss. destruct (Hre Hmiss) as [msg Hmsg]. split; [|by eexists].
    unfold add_tool_to_agent_tools.
    destruct (get_tool_by_id tool_id); [|by eexists].
    rewrite Hmsg. by eexists.
Qed.

Lemma remove_loop_ids (ids : list string) (tools r : list AgentTool) :
  consistent_tool_table get_tool_by_id →
  for_each_tool_id (remove_tool_from_agent_tools get_tool_by_id) ids tools
  = Return r →
  (list_to_set (at_id <$> r) : gset string)
  = list_to_set (at_id <$> tools) ∖ list_to_set ids.
Proof.
  intros Hc. revert tools. induction ids as [|i ids IH]; intros tools.
  - intros [= <-]. simpl. apply set_eq. intros x.
    rewrite elem_of_difference, elem_of_empty. tauto.
  - simpl.
    destruct (remove_tool_from_agent_tools get_tool_by_id i tools) as [e|t']
      eqn:Hrm; [done|].
    intros Hr. rewrite (IH _ Hr).
    destruct (refetch_ids _ _ _ Hc Hrm) as [Hids _]. rewrite Hids.
    apply set_eq. intros x.
    repeat (rewrite ?elem_of_difference, ?elem_of_union, ?elem_of_singleton,
              ?elem_of_list_to_set, ?list_elem_of_filter).
    tauto.
Qed.

Lemma add_loop_ids (ids : list string) (tools r : list AgentTool) :
  consistent_tool_table get_tool_by_id →
  for_each_tool_id (add_tool_to_agent_tools get_tool_by_id) ids tools
  = Return r →
  (list_to_set (at_id <$> r) : gset string)
  = list_to_set (at_id <$> tools) ∪ list_to_set ids.
Proof.
  intros Hc. revert tools. induction ids as [|i ids IH]; intros tools.
  - intros [= <-]. simpl. apply set_eq. intros x.
    rewrite elem_of_union, elem_of_empty. tauto.
  - simpl.
    destruct (add_tool_to_agent_tools get_tool_by_id i tools) as [e|t']
      eqn:Hadd; [done|].
    intros Hr. rewrite (IH _ Hr).
    rewrite (add_tool_ids _ _ _ Hc Hadd).
    apply set_eq. intros x.
    repeat (rewrite ?elem_of_union, ?elem_of_singleton, ?elem_of_list_to_set,
              ?elem_of_cons, ?list_elem_of_filter).
    destruct (decide (x = i)); tauto.
Qed.

Lemma iterated_set (iteration_order : gset string → list string)
    (X : gset string) :
  iterates_each_element iteration_order →
  (list_to_set (iteration_order X) : gset string) = X.
Proof.
  intros Hit. apply set_eq. intros x. rewrite elem_of_list_to_set.
  apply (Hit X).
Qed.

(** X24: When [update_agent] is given a non-empty list of tool ids and succeeds,
    the agent ends with exactly the requested set of tool ids, in whatever
    order the two loops visit the elements of the two set differences; an
    empty list of ids leaves the tools as they are (it cannot be used to
    remove them all). *)
Theorem update_agent_sets_requested_tools
    (iteration_order : gset string → list string)
    (request_tool_ids : list string) (tools r : list AgentTool) :
  iterates_each_element iteration_order →
  consistent_tool_table get_tool_by_id →
  update_agent_tools get_tool_by_id iteration_order request_tool_ids tools
  = Return r →
  (request_tool_ids = [] → r = tools)
  ∧ (request_tool_ids ≠ [] →
     (list_to_set (at_id <$> r) : gset string) = list_to_set request_tool_ids).
Proof.
  intros Hit Hc. unfold update_agent_tools.
  destruct request_tool_ids as [|i ids]; [by intros [= <-]|].
  cbn zeta.
  destruct (for_each_tool_id (remove_tool_from_agent_tools get_tool_by_id)
              _ tools) as [e|t'] eqn:Hrm; [done|].
  intros Hadd. split; [done|]. intros _.
  rewrite (add_loop_ids _ _ _ Hc Hadd), (remove_loop_ids _ _ _ Hc Hrm).
  rewrite !(iterated_set iteration_order _ Hit).
  generalize (list_to_set (at_id <$> tools) : gset string).
  generalize (list_to_set (i :: ids) : gset string).
  intros target current. apply set_eq. intros x.
  rewrite !elem_of_union, !elem_of_difference.
  destruct (decide (x ∈ current)), (decide (x ∈ target)); tauto.
Qed.

End ToolLists.

Lemma sample_tool_table_consistent : consistent_tool_table sample_tool_table.
Proof.
  intros i t. unfold sample_tool_table.
  destruct (String.eqb_spec i "tool-1") as [->|_]; [by intros [= <-]|].
  destruct (String.eqb_spec i "tool-2") as [->|_]; [by intros [= <-]|].
  destruct (String.eqb_spec i "tool-3") as [->|_]; [by intros [= <-]|done].
Qed.

Lemma remove_tool_removes_every_entry_witness :
  at_id <$> [sample_tool "tool-1"; sample_tool "tool-3"]
  = filter (λ i, i ≠ "tool-2")
      (at_id <$> [sample_tool "tool-1"; sample_tool "tool-2";
                  sample_tool "tool-3"; sample_tool "tool-2"])
  ∧ ("tool-2" ∉ at_id <$> [sample_tool "tool-1"; sample_tool "tool-3"])
  ∧ Forall (λ t, sample_tool_table (at_id t) = Some t)
      [sample_tool "tool-1"; sample_tool "tool-3"].
Proof.
  apply (remove_tool_removes_every_entry sample_tool_table "tool-2"
           [sample_tool "tool-1"; sample_tool "tool-2"; sample_tool "tool-3";
            sample_tool "tool-2"]
           [sample_tool "tool-1"; sample_tool "tool-3"]).
  - exact sample_tool_table_consistent.
  - reflexivity.
Defined.

Lemma add_tool_puts_tool_first_once_witness :
  at_id <$> [sample_tool "tool-2"; sample_tool "tool-1"; sample_tool "tool-3"]
  = "tool-2" :: filter (λ i, i ≠ "tool-2")
                  (at_id <$> [sample_tool "tool-1"; sample_tool "tool-2";
                              sample_tool "tool-3"])
  ∧ (∃ t rest,
       [sample_tool "tool-2"; sample_tool "tool-1"; sample_tool "tool-3"]
       = t :: rest
       ∧ sample_tool_table "tool-2" = Some t
       ∧ ("tool-2" ∉ at_id <$> rest)).
Proof.
  apply (add_tool_puts_tool_first_once sample_tool_table "tool-2"
           [sample_tool "tool-1"; sample_tool "tool-2"; sample_tool "tool-3"]
           [sample_tool "tool-2"; sample_tool "tool-1"; sample_tool "tool-3"]).
  - exact sample_tool_table_consistent.
  - reflexivity.
Defined.

Lemma add_tool_is_idempotent_witness :
  add_tool_to_agent_tools sample_tool_table "tool-2"
    [sample_tool "tool-2"; sample_tool "tool-1"; sample_tool "tool-3"]
  = Return [sample_tool "tool-2"; sample_tool "tool-1"; sample_tool "tool-3"]
  ∧ remove_tool_from_agent_tools sample_tool_table "tool-2"
      [sample_tool "tool-2"; sample_tool "tool-1"; sample_tool "tool-3"]
    = remove_tool_from_agent_tools sample_tool_table "tool-2"
        [sample_tool "tool-1"; sample_tool "tool-3"].
Proof.
  apply (add_tool_is_idempotent sample_tool_table "tool-2"
           [sample_tool "tool-1"; sample_tool "tool-3"]
           [sample_tool "tool-2"; sample_tool "tool-1"; sample_tool "tool-3"]).
  - exact sample_tool_table_consistent.
  - reflexivity.
Defined.

Lemma tool_operations_need_every_tool_witness :
  (∃ msg, add_tool_to_agent_tools sample_tool_table "tool-1"
            [sample_tool "tool-2"; sample_tool "tool-9"]
          = Raise (AssertionError msg))
  ∧ ∃ msg, remove_tool_from_agent_tools sample_tool_table "tool-1"
             [sample_tool "tool-2"; sample_tool "tool-9"]
           = Raise (AssertionError msg).
Proof.
  apply (proj2 (tool_operations_need_every_tool sample_tool_table "tool-1"
                  [sample_tool "tool-2"; sample_tool "tool-9"])).
  exists (sample_tool "tool-9"). split; [|reflexivity].
  apply elem_of_cons. right. apply elem_of_cons. by left.
Defined.

Lemma reverse_elements_iterates :
  iterates_each_element (λ X, reverse (elements X)).
Proof.
  intros X. split.
  - rewrite reverse_Permutation. apply NoDup_elements.
  - intros x. by rewrite elem_of_reverse, elem_of_elements.
Qed.

Lemma update_agent_sets_requested_tools_witness :
  ∃ r, update_agent_tools sample_tool_table (λ X, reverse (elements X))
         ["tool-3"; "tool-2"] [sample_tool "tool-1"; sample_tool "tool-2"]
       = Return r
       ∧ (list_to_set (at_id <$> r) : gset string)
         = list_to_set ["tool-3"; "tool-2"].
Proof.
  destruct (update_agent_tools sample_tool_table (λ X, reverse (elements X))
              ["tool-3"; "tool-2"]
              [sample_tool "tool-1"; sample_tool "tool-2"]) as [e|r] eqn:Hr;
    [vm_compute in Hr; discriminate|].
  exists r. split; [reflexivity|].
  apply (update_agent_sets_requested_tools sample_tool_table
           (λ X, reverse (elements X))
           ["tool-3"; "tool-2"] [sample_tool "tool-1"; sample_tool "tool-2"] r
           reverse_elements_iterates sample_tool_table_consistent Hr).
  discriminate.
Defined.

(** ** Configuration keys, model listings, error texts *)

(** X25: Every key of the configuration is still there after [clean_keys], with
    its value shortened when the key is "key" or contains "_key" and
    untouched otherwise. *)
Theorem clean_keys_shortens_secret_values (shorten : string → string)
    (config : gmap string string) (k : string) :
  clean_keys shorten config !! k
  = (λ v, if is_secret_key k then shorten v else v) <$> config !! k.
Proof.
  unfold clean_keys.
  assert (∀ (acc0 m : gmap string string) k,
            map_fold (λ k v config_copy,
                        if is_secret_key k then <[k := shorten v]> config_copy
                        else config_copy) acc0 m !! k
            = match m !! k with
              | Some v => if is_secret_key k then Some (shorten v)
                          else acc0 !! k
              | None => acc0 !! k
              end) as Hfold.
  { intros acc0 m.
    apply (map_fold_weak_ind
             (λ (r m : gmap string string),
                ∀ k, r !! k = match m !! k with
                              | Some v => if is_secret_key k
                                          then Some (shorten v)
                                          else acc0 !! k
                              | None => acc0 !! k
                              end)).
    - intros k'. by rewrite lookup_empty.
    - intros i x m' r Hi IH k'.
      destruct (decide (i = k')) as [->|Hne].
      + rewrite lookup_insert_eq.
        destruct (is_secret_key k'); [by rewrite lookup_insert_eq|].
        by rewrite IH, Hi.
      + rewrite (lookup_insert_ne m') by done.
        destruct (is_secret_key i); [rewrite lookup_insert_ne by done|];
          apply IH. }
  rewrite Hfold. destruct (config !! k) as [v|] eqn:Hk; simpl; [|done].
  by destruct (is_secret_key k).
Qed.

Lemma list_models_loop_eq {A} (providers : list (result (list A)))
    (models : list A) :
  list_models_loop providers models
  = models ++ concat (omap returned providers).
Proof.
  revert models. induction providers as [|p ps IH]; intros models.
  - by rewrite app_nil_r.
  - destruct p as [e|l]; cbn; rewrite IH; [done|]. by rewrite app_assoc.
Qed.

(** X26: [list_llm_models] and [list_embedding_models] never raise: the listing
    is the models of the providers that answered, provider after provider;
    a provider that raises contributes nothing and hides nothing. *)
Theorem list_models_skips_failing_providers {A}
    (providers : list (result (list A))) (x : A) :
  list_models providers = concat (omap returned providers)
  ∧ (x ∈ list_models providers ↔ ∃ l, Return l ∈ providers ∧ x ∈ l).
Proof.
  unfold list_models. rewrite list_models_loop_eq. split; [done|].
  cbn [app]. induction providers as [|p ps IH].
  - split; [by intros ?%elem_of_nil|].
    by intros (l & ?%elem_of_nil & _).
  - destruct p as [e|l]; cbn.
    + rewrite IH. split.
      * intros (l & Hl & Hx). exists l. split; [|done].
        apply elem_of_cons. by right.
      * intros (l & Hl & Hx). apply elem_of_cons in Hl as [?|Hl]; [done|].
        by exists l.
    + rewrite elem_of_app, IH. split.
      * intros [Hx|(l' & Hl & Hx)].
        -- exists l. split; [|done]. apply elem_of_cons. by left.
        -- exists l'. split; [|done]. apply elem_of_cons. by right.
      * intros (l' & Hl & Hx). apply elem_of_cons in Hl as [[= ->]|Hl].
        -- by left.
        -- right. by exists l'.
Qed.

Section ErrorTexts.
Context `{Collaborators}.

Lemma slice_to_prefix (n : nat) (s : string) :
  String.prefix (Py.slice_to n s) s = true.
Proof.
  revert s. induction n as [|n IH]; intros [|c s]; simpl; try done.
  destruct (ascii_dec c c); [apply IH|done].
Qed.

Lemma slice_to_length_min (n : nat) (s : string) :
  String.length (Py.slice_to n s) = Nat.min n (String.length s).
Proof.
  revert s. induction n as [|n IH]; intros [|c s]; simpl; try done.
  by rewrite IH.
Qed.

Lemma prefix_refl (s : string) : String.prefix s s = true.
Proof.
  induction s as [|c s IH]; [done|]. simpl.
  by destruct (ascii_dec c c).
Qed.

(** X27: The error text is the start of "Error executing tool <name>: <message>":
    all of it when it fits the limit, and its first
    [MAX_ERROR_MESSAGE_CHAR_LIMIT] characters otherwise. *)
Theorem error_msg_is_cut_prefix (tool_name exception_message : string) :
  let full :=
    "Error executing tool " +:+ tool_name +:+ ": " +:+ exception_message in
  let msg := get_error_msg_for_func_return tool_name exception_message in
  String.prefix msg full = true
  ∧ String.length msg
    = Nat.min MAX_ERROR_MESSAGE_CHAR_LIMIT (String.length full)
  ∧ (String.length full ≤ MAX_ERROR_MESSAGE_CHAR_LIMIT → msg = full).
Proof.
  cbn zeta. unfold get_error_msg_for_func_return.
  destruct (Nat.ltb_spec MAX_ERROR_MESSAGE_CHAR_LIMIT
              (String.length ("Error executing tool " +:+ tool_name +:+ ": "
                              +:+ exception_message))) as [Hlt|Hle].
  - split; [apply slice_to_prefix|]. split; [apply slice_to_length_min|lia].
  - split; [apply prefix_refl|]. split; [lia|done].
Qed.

(** X28: Whatever [run_tool_from_source] returns has status "error" or
    "success", and the status is "error" exactly when the [stderr] of the
    result is not empty; no line of the returned [stderr] is blank unless it
    is the traceback of a sandbox failure, in which case [stdout] is the
    single empty line. *)
Theorem tool_status_follows_stderr
    (user_id tool_args tool_source : string)
    (tool_source_type tool_name : option string) (fr : FunctionReturn) :
  run_tool_from_source user_id tool_args tool_source tool_source_type tool_name
  = Return fr →
  (fr_status fr = "error" ∨ fr_status fr = "success")
  ∧ (fr_status fr = "error" ↔ fr_stderr fr ≠ [])
  ∧ (fr_stdout fr = [""]
     ∨ (Forall (λ line, Py.strip line ≠ "") (fr_stdout fr)
        ∧ Forall (λ line, Py.strip line ≠ "") (fr_stderr fr))).
Proof.
  assert (∀ lines, Forall (λ line, Py.strip line ≠ "") (nonblank lines))
    as Hnb.
  { intros lines. unfold nonblank. apply Forall_forall. intros line Hin.
    apply list_elem_of_In, filter_In in Hin as [_ Hline].
    apply negb_true_iff in Hline. by apply String.eqb_neq in Hline. }
  unfold run_tool_from_source.
  destruct (std_json_loads tool_args) as [j|]; [|done].
  destruct (match tool_source_type with
            | Some t => negb (String.eqb t "python")
            | None => false
            end); [done|].
  destruct (Tool_new tool_name tool_source) as [e|tool]; [done|].
  destruct (tool_name_of tool) as [name|]; [|done].
  destruct (sandbox_run name j user_id tool) as [e|r].
  - intros [= <-]. cbn. split; [by left|]. split; [done|]. by left.
  - destruct (Py.last (nonblank (stderr r))) as [line|] eqn:Hlast;
      intros [= <-]; cbn.
    + split; [by left|]. split; [|right; by split].
      split; [|done]. intros _ Hnil. by rewrite Hnil in Hlast.
    + apply last_nil_iff in Hlast. rewrite Hlast.
      split; [by right|]. split; [done|]. right. by split.
Qed.

End ErrorTexts.

Lemma tool_status_follows_stderr_witness :
  let fr :=
    {| fr_id := "null"; fr_function_call_id := "null"; fr_date := 0%Z;
       fr_status := "error";
       fr_function_return := "Error executing tool divide: Z";
       fr_stdout := [];
       fr_stderr := ["Traceback (most recent call last)";
                     "ZeroDivisionError: division by zero"] |} in
  (fr_status fr = "error" ∨ fr_status fr = "success")
  ∧ (fr_status fr = "error" ↔ fr_stderr fr ≠ [])
  ∧ (fr_stdout fr = [""]
     ∨ (Forall (λ line, Py.strip line ≠ "") (fr_stdout fr)
        ∧ Forall (λ line, Py.strip line ≠ "") (fr_stderr fr))).
Proof.
  apply (@tool_status_follows_stderr stderr_collaborators "user-1" "{}" ""
           None (Some "divide")).
  vm_compute. reflexivity.
Defined.

(** ** [rewrite] *)

Section RewriteCommand.
Context `{Collaborators}.

Lemma rewrite_scan_none (x : nat) (text : string) (l : list MessageDict) :
  (∀ j m, 1 ≤ j ≤ x → l !! j = Some m → role m ≠ "assistant") →
  rewrite_scan x text l = Return l.
Proof.
  induction x as [|x IH]; intros Hno; [done|]. simpl.
  destruct (l !! S x) as [m|] eqn:Hm; [|done].
  assert (role m ≠ "assistant") as Hr by (apply (Hno (S x)); [lia|done]).
  apply String.eqb_neq in Hr. rewrite Hr.
  apply IH. intros j m' Hj. apply Hno. lia.
Qed.

Lemma rewrite_scan_found (start x : nat) (text : string)
    (l : list MessageDict) (m : MessageDict) :
  1 ≤ x ≤ start → start < length l →
  l !! x = Some m → role m = "assistant" →
  (∀ j m', x < j ≤ start → l !! j = Some m' → role m' ≠ "assistant") →
  rewrite_scan start text l = rewritten_at x text m l.
Proof.
  induction start as [|start IH]; intros Hx Hlen Hm Hr Hlater; [lia|].
  simpl. destruct (decide (x = S start)) as [->|Hne].
  - rewrite Hm. apply String.eqb_eq in Hr. rewrite Hr. unfold rewritten_at.
    destruct (function_call m) as [fc|]; [|done].
    destruct (json_loads (arguments fc)); [done|].
    by destruct (json_set_message _ _).
  - destruct (lookup_lt_is_Some_2 l (S start) Hlen) as [m' Hm'].
    rewrite Hm'.
    assert (role m' ≠ "assistant") as Hr' by (apply (Hlater (S start)); [lia|done]).
    apply String.eqb_neq in Hr'. rewrite Hr'.
    apply IH; [lia|lia|done|done|].
    intros j m'' Hj. apply Hlater. lia.
Qed.

(** X29: [rewrite <text>] stops on the same message as [rethink]: the nearest
    message of role assistant from the tail, index 0 excluded.  It decodes
    the arguments of the tool call of that message, sets their "message"
    entry to the text and stores the encoded result in place, leaving the
    role, the content and every other message alone.  A message without a
    tool call makes the command raise [AttributeError], arguments that do
    not decode make it raise the decoder's error, and without any assistant
    message the buffer is unchanged. *)
Theorem rewrite_edits_nearest_tool_call
    (user_id agent_id command : string) (s : Server) (a : Agent) :
  out_result (load_agent agent_id (actor_of s user_id) s) = Return a →
  Py.startswith (Py.lower command) "rewrite " = true →
  let text := Py.strip (Py.slice_from 8 command) in
  (∀ x m,
     1 ≤ x → messages a !! x = Some m → role m = "assistant" →
     (∀ j m', x < j → messages a !! j = Some m' → role m' ≠ "assistant") →
     match rewritten_at x text m (messages a) with
     | Return buffer =>
         buffer_after (_command user_id agent_id command s) = Some buffer
     | Raise e => out_result (_command user_id agent_id command s) = Raise e
     end)
  ∧ ((∀ j m', 1 ≤ j → messages a !! j = Some m' → role m' ≠ "assistant") →
     buffer_after (_command user_id agent_id command s) = Some (messages a)).
Proof.
  intros Hload Hc text.
  assert (is_command command "rewrite" = true) as Hcmd.
  { unfold is_command. apply orb_true_iff. by right. }
  assert (Nat.ltb (String.length command) 8 = false) as Hlen.
  { apply Nat.ltb_ge. rewrite <- (lower_length command).
    by apply prefix_length in Hc. }
  rewrite (_command_loaded _ _ _ _ _ Hload). cbn zeta.
  rewrite branches_rewrite by done. unfold buffer_after, rewrite_command.
  change (String.length "rewrite ") with 8. rewrite Hlen. fold text.
  split.
  - intros x m Hx Hm Hr Hlater.
    pose proof (lookup_lt_Some _ _ _ Hm) as Hlt.
    assert (rewrite_scan (length (messages a) - 1) text (messages a)
            = rewritten_at x text m (messages a)) as ->.
    { apply rewrite_scan_found; [lia|lia|done|done|].
      intros j m' Hj. apply Hlater. lia. }
    by destruct (rewritten_at x text m (messages a)).
  - intros Hno. rewrite rewrite_scan_none; [done|].
    intros j m' Hj. apply Hno. lia.
Qed.

End RewriteCommand.

Lemma rewrite_edits_nearest_tool_call_witness :
  buffer_after (@_command sample_collaborators "user-1" "agent-1"
                  "rewrite hello" (sample_server sample_call_buffer))
  = Some [sample_message "system" "S"; sample_message "user" "U";
          {| role := "assistant"; content := Some "A";
             function_call := Some {| fc_name := "send_message";
                                      arguments := "hello" |} |};
          sample_message "tool" "T"].
Proof.
  apply (proj1 (@rewrite_edits_nearest_tool_call sample_collaborators
                  "user-1" "agent-1" "rewrite hello"
                  (sample_server sample_call_buffer)
                  (sample_agent sample_call_buffer)
                  ltac:(vm_compute; reflexivity) ltac:(reflexivity))
           2 {| role := "assistant"; content := Some "A";
                function_call := Some {| fc_name := "send_message";
                                         arguments := "old" |} |}).
  - lia.
  - reflexivity.
  - reflexivity.
  - intros j m' Hj Hm'.
    assert (j = 3) as ->.
    { apply lookup_lt_Some in Hm'. simpl in Hm'. lia. }
    injection Hm' as <-. discriminate.
Defined.

(** The text is stripped as for [rethink]: a leading no-break space is not
    part of the message stored. *)
Lemma rewrite_strips_no_break_space :
  buffer_after (@_command sample_collaborators "user-1" "agent-1"
                  ("rewrite " +:+ no_break_space +:+ "hello")
                  (sample_server sample_call_buffer))
  = Some [sample_message "system" "S"; sample_message "user" "U";
          {| role := "assistant"; content := Some "A";
             function_call := Some {| fc_name := "send_message";
                                      arguments := "hello" |} |};
          sample_message "tool" "T"].
Proof. vm_compute. reflexivity. Qed.

(** ** The recall cursor without message objects *)

Section RecallLettaMessages.
Context `{Collaborators}.

Lemma cursor_result_letta (user_id agent_id : string)
    (after before : option string) (limit : option nat) (reverse : bool)
    (tool_name tool_kwarg : string) (s : Server) :
  out_result (get_agent_recall_cursor user_id agent_id after before limit
                reverse false tool_name tool_kwarg s) =
    match out_result (load_agent agent_id (actor_of s user_id) s) with
    | Raise e => Raise e
    | Return _ =>
        match cursor_bounds (recall_store s) after before with
        | Raise e => Raise e
        | Return (start_date, end_date) =>
            let records :=
              concat (List.map (to_letta_message tool_name tool_kwarg)
                        (list_messages_for_agent (recall_store s) agent_id
                           start_date end_date limit (negb reverse))) in
            Return (LettaMessageRecords
                      (if reverse then rev records else records))
        end
    end.
Proof.
  pose proof (load_agent_recall_store agent_id (actor_of s user_id) s) as Hst.
  unfold get_agent_recall_cursor, cursor_bounds.
  rewrite (bind_return _ _ s s (actor_of s user_id) []) by reflexivity.
  destruct (load_agent agent_id (actor_of s user_id) s) as [[e|a] s' l]
    eqn:Hload; cbn [out_server out_result] in *.
  { by rewrite (bind_raise _ _ _ _ _ _ Hload). }
  rewrite (bind_return _ _ _ _ _ _ Hload).
  pose proof (bound_run after s') as Ha. pose proof (bound_run before s') as Hb.
  rewrite Hst in Ha, Hb.
  destruct (resolve_bound (recall_store s) after) as [e|sd].
  { by rewrite (bind_raise _ _ _ _ _ _ Ha). }
  rewrite (bind_return _ _ _ _ _ _ Ha).
  destruct (resolve_bound (recall_store s) before) as [e|ed].
  { by rewrite (bind_raise _ _ _ _ _ _ Hb). }
  rewrite (bind_return _ _ _ _ _ _ Hb).
  rewrite (bind_return _ _ s' s' s' []) by reflexivity.
  cbn [prepend out_result]. by rewrite Hst.
Qed.

Lemma rev_concat_map {A B} (f : A → list B) (l : list A) :
  rev (concat (List.map f l)) = concat (List.map (λ x, rev (f x)) (rev l)).
Proof.
  induction l as [|x l IH]; [done|]. simpl.
  rewrite rev_app_distr, IH, map_app, concat_app. simpl.
  by rewrite app_nil_r.
Qed.

(** X30: With [return_message_object=false] and [reverse=true] the flattened
    list is reversed as a whole.  Whatever records the listing returned
    (newest first, since it is asked for with [ascending=False]), the
    result holds them in the opposite order, and the messages that
    [to_letta_message] makes of one record come in reverse as well. *)
Theorem reverse_cursor_reverses_inner_lists
    (user_id agent_id : string) (after before : option string)
    (limit : option nat) (tool_name tool_kwarg : string) (s : Server)
    (l : list LettaMessage) :
  out_result (get_agent_recall_cursor user_id agent_id after before limit
                true false tool_name tool_kwarg s)
    = Return (LettaMessageRecords l) →
  ∃ start_date end_date,
    cursor_bounds (recall_store s) after before = Return (start_date, end_date)
    ∧ l = concat
            (List.map (λ m, rev (to_letta_message tool_name tool_kwarg m))
               (rev (list_messages_for_agent (recall_store s) agent_id
                       start_date end_date limit false))).
Proof.
  rewrite cursor_result_letta.
  destruct (out_result (load_agent agent_id (actor_of s user_id) s))
    as [e|a]; [done|].
  destruct (cursor_bounds (recall_store s) after before) as [e|[sd ed]];
    [done|].
  intros [= <-]. exists sd, ed. split; [done|].
  by rewrite rev_concat_map.
Qed.

End RecallLettaMessages.

Lemma reverse_cursor_reverses_inner_lists_witness :
  ∃ start_date end_date,
    cursor_bounds (recall_store (sample_server sample_buffer5)) None None
    = Return (start_date, end_date)
    ∧ ["m2 reply"; "m2 reasoning"; "m3 reply"; "m3 reasoning"]
      = concat
          (List.map (λ m, rev (@to_letta_message unfolding_collaborators
                                 "send_message" "message" m))
             (rev (list_messages_for_agent
                     (recall_store (sample_server sample_buffer5)) "agent-1"
                     start_date end_date (Some 2) false))).
Proof.
  apply (@reverse_cursor_reverses_inner_lists unfolding_collaborators "user-1"
           "agent-1" None None (Some 2) "send_message" "message"
           (sample_server sample_buffer5)).
  vm_compute. reflexivity.
Defined.
